(** * Ollama Local Chat UI: the inference client and the conversation store

    A shallow embedding of [ollama_client.py] (class [OllamaClient]) and of
    the conversation handling of [app.py], with the properties the
    specification states about them.

    Conventions of the embedding.
    - A Python call that may raise returns a [result]: [Ok v] or [Raise e].
    - A Python [dict] keeps insertion order, so it is an association list
      with unique keys ([dict_set] overwrites in place or appends).
    - JSON values decoded by [response.json()] / [json.loads] are trees of
      type [json].  A Python number is an [int] of any size ([Z]) or a
      [float], an IEEE 754 double (a primitive float): divisions round,
      overflow and underflow as they do in Python.
    - The network is an oracle: a function from the request to the outcome
      of [requests.get] / [requests.post].
    - The message list of a conversation is a Python list object that several
      names refer to; it lives in a heap and is referred to by address. *)

From Stdlib Require Import List String Ascii ZArith Floats Bool Arith Lia.
From Stdlib Require Import Sorted Permutation DecimalString.
Import ListNotations.
Local Open Scope string_scope.

(* ================================================================= *)
(** ** Python exceptions and fallible computations *)

Inductive exn : Type :=
| RequestException (msg : string)   (* requests.RequestException and subclasses *)
| KeyError (key : string)
| TypeError (msg : string)
| AttributeError (msg : string)
| ValueError (msg : string)         (* includes json.JSONDecodeError *)
| IndexError (msg : string)
| ZeroDivisionError
| OverflowError (msg : string).

(** [str(e)] *)
Definition str (e : exn) : string :=
  match e with
  | RequestException msg => msg
  | KeyError key => "'" ++ key ++ "'"
  | TypeError msg => msg
  | AttributeError msg => msg
  | ValueError msg => msg
  | IndexError msg => msg
  | ZeroDivisionError => "float division by zero"
  | OverflowError msg => msg
  end.

Inductive result (A : Type) : Type :=
| Ok (a : A)
| Raise (e : exn).
Arguments Ok {A} a.
Arguments Raise {A} e.

Definition bind {A B : Type} (c : result A) (k : A -> result B) : result B :=
  match c with
  | Ok a => k a
  | Raise e => Raise e
  end.

Notation "x <- c ;; k" := (bind c (fun x => k))
  (at level 61, c at next level, right associativity).

(** [try: c  except requests.RequestException as e: h(str(e))] *)
Definition except_RequestException {A : Type}
    (c : result A) (h : string -> result A) : result A :=
  match c with
  | Raise (RequestException msg) => h msg
  | _ => c
  end.

(** [try: c  except Exception as e: h(e)] *)
Definition except_Exception {A : Type}
    (c : result A) (h : exn -> result A) : result A :=
  match c with
  | Raise e => h e
  | _ => c
  end.

Definition raised {A : Type} (c : result A) : bool :=
  match c with
  | Ok _ => false
  | Raise _ => true
  end.

(* ================================================================= *)
(** ** Insertion-ordered dictionaries with string keys *)

Section PyDict.
Context {V : Type}.

Definition dict : Type := list (string * V).

(** [d.get(k)] *)
Fixpoint dict_get (k : string) (d : dict) : option V :=
  match d with
  | [] => None
  | (k', v) :: d' => if String.eqb k k' then Some v else dict_get k d'
  end.

(** [k in d] *)
Definition dict_contains (k : string) (d : dict) : bool :=
  match dict_get k d with
  | Some _ => true
  | None => false
  end.

(** [d[k] = v]: an existing key keeps its position, a new key goes last *)
Fixpoint dict_set (k : string) (v : V) (d : dict) : dict :=
  match d with
  | [] => [(k, v)]
  | (k', v') :: d' =>
      if String.eqb k k' then (k, v) :: d' else (k', v') :: dict_set k v d'
  end.

(** [del d[k]]: [None] stands for the [KeyError] of an absent key *)
Fixpoint dict_del (k : string) (d : dict) : option dict :=
  match d with
  | [] => None
  | (k', v') :: d' =>
      if String.eqb k k' then Some d'
      else match dict_del k d' with
           | Some d'' => Some ((k', v') :: d'')
           | None => None
           end
  end.

(** [list(d.keys())] *)
Definition dict_keys (d : dict) : list string := map fst d.

(** [{**d, **extra}] *)
Definition dict_update (d extra : dict) : dict :=
  fold_left (fun acc kv => dict_set (fst kv) (snd kv) acc) extra d.
End PyDict.
Arguments dict V : clear implicits.

(* ================================================================= *)
(** ** Python numbers *)

(** An [int] or a [float]. *)
Inductive number : Type :=
| PyInt (n : Z)
| PyFloat (f : float).

(** The double nearest to the integer [n], ties to even; an infinity when
    [n] is beyond the largest double. *)
Definition nearest_double (n : Z) : float :=
  SF2Prim (binary_normalize prec emax n 0 false).

(** The conversion of an [int] operand of a float operation *)
Definition float_of_int (n : Z) : result float :=
  let f := nearest_double n in
  if PrimFloat.is_infinity f
  then Raise (OverflowError "int too large to convert to float")
  else Ok f.

Definition to_float (a : number) : result float :=
  match a with
  | PyInt n => float_of_int n
  | PyFloat f => Ok f
  end.

(** [x / y] on two [int]s: the double nearest to the exact quotient.  The
    quotient is taken with 64 significant bits or more, and one last bit
    that tells whether the division left a remainder, and then rounded. *)
Definition int_truediv (x y : Z) : result float :=
  if (y =? 0)%Z then Raise ZeroDivisionError
  else
    let negative := xorb (x <? 0)%Z (y <? 0)%Z in
    let a := Z.abs x in
    let b := Z.abs y in
    if (a =? 0)%Z then Ok (if negative then (-0)%float else 0%float)
    else
      let shift := Z.max 0 (Z.log2 b - Z.log2 a + 64) in
      let scaled := Z.shiftl a shift in
      let m := (2 * (scaled / b)
                + (if (scaled mod b =? 0)%Z then 0 else 1))%Z in
      let f := SF2Prim (binary_normalize prec emax
                          (if negative then (- m)%Z else m)
                          (- shift - 1) false) in
      if PrimFloat.is_infinity f
      then Raise (OverflowError
                    "integer division result too large for a float")
      else Ok f.

(** [a / b]: both operands are converted, the left one first, and a
    divisor equal to zero raises *)
Definition py_div (a b : number) : result number :=
  match a, b with
  | PyInt x, PyInt y => f <- int_truediv x y ;; Ok (PyFloat f)
  | _, _ =>
      fa <- to_float a ;;
      fb <- to_float b ;;
      if (fb =? 0)%float then Raise ZeroDivisionError
      else Ok (PyFloat (fa / fb)%float)
  end.

(** [a + b] *)
Definition py_add (a b : number) : result number :=
  match a, b with
  | PyInt x, PyInt y => Ok (PyInt (x + y))
  | _, _ =>
      fa <- to_float a ;;
      fb <- to_float b ;;
      Ok (PyFloat (fa + fb)%float)
  end.

(** [a > 0] *)
Definition py_gt0 (a : number) : bool :=
  match a with
  | PyInt n => (0 <? n)%Z
  | PyFloat f => (0 <? f)%float
  end.

(** [1e9] *)
Definition nanoseconds_per_second : number := PyFloat 1e9%float.

(** [sum(xs)]: the items are added to the [int] 0, from left to right,
    each addition rounded (CPython up to 3.11; later versions carry a
    correction term through the float additions, which can change the last
    bit of a sum of three or more floats) *)
Definition py_sum (xs : list number) : result number :=
  fold_left (fun acc x => s <- acc ;; py_add s x) xs (Ok (PyInt 0)).

(* ================================================================= *)
(** ** JSON values and the Python operations the client applies to them *)

#[local] Set Warnings "-register-all".

Inductive json : Type :=
| JNull
| JBool (b : bool)
| JNum (n : number)
| JStr (s : string)
| JArr (items : list json)
| JObj (fields : list (string * json)).

(** [bool(v)] *)
Definition truthy (v : json) : bool :=
  match v with
  | JNull => false
  | JBool b => b
  | JNum (PyInt n) => negb (n =? 0)%Z
  | JNum (PyFloat f) => negb (f =? 0)%float
  | JStr s => negb (String.eqb s "")
  | JArr items => match items with [] => false | _ => true end
  | JObj fields => match fields with [] => false | _ => true end
  end.

(** [v.get(k, default)] *)
Definition py_get (v : json) (k : string) (default : json) : result json :=
  match v with
  | JObj fields =>
      match dict_get k fields with
      | Some x => Ok x
      | None => Ok default
      end
  | _ => Raise (AttributeError "object has no attribute 'get'")
  end.

(** [v[k]] for a string key [k] *)
Definition py_getitem (v : json) (k : string) : result json :=
  match v with
  | JObj fields =>
      match dict_get k fields with
      | Some x => Ok x
      | None => Raise (KeyError k)
      end
  | JStr _ => Raise (TypeError "string indices must be integers")
  | JArr _ => Raise (TypeError "list indices must be integers or slices")
  | _ => Raise (TypeError "object is not subscriptable")
  end.

Fixpoint chars (s : string) : list json :=
  match s with
  | EmptyString => []
  | String c s' => JStr (String c EmptyString) :: chars s'
  end.

(** the items a [for x in v] loop visits *)
Definition py_iter (v : json) : result (list json) :=
  match v with
  | JArr items => Ok items
  | JObj fields => Ok (map (fun kv => JStr (fst kv)) fields)
  | JStr s => Ok (chars s)
  | _ => Raise (TypeError "object is not iterable")
  end.

(** the numeric value of an operand of [/] or [>]; [True] and [False] are
    the [int]s 1 and 0 *)
Definition as_number (v : json) : result number :=
  match v with
  | JNum n => Ok n
  | JBool b => Ok (PyInt (if b then 1 else 0))
  | _ => Raise (TypeError "unsupported operand type(s)")
  end.

Fixpoint map_result {A B : Type} (f : A -> result B) (xs : list A)
    : result (list B) :=
  match xs with
  | [] => Ok []
  | x :: xs' => y <- f x ;; ys <- map_result f xs' ;; Ok (y :: ys)
  end.

(** [enumerate(xs)], counting from [start] *)
Fixpoint enumerate_from {A : Type} (start : nat) (xs : list A)
    : list (nat * A) :=
  match xs with
  | [] => []
  | x :: xs' => (start, x) :: enumerate_from (S start) xs'
  end.

(* ================================================================= *)
(** ** The HTTP transport, as the client sees it through [requests] *)

Inductive http_method : Type := GET | POST.

Record Request : Type := mkRequest {
  method : http_method;
  url : string;
  json_payload : option json;
  stream : bool;
  request_timeout : Z
}.

(** One line of a streamed body, as [response.iter_lines()] hands it over
    and [json.loads(line.decode('utf-8'))] sees it. *)
Inductive line : Type :=
| EmptyLine                  (* a keep-alive line: falsy *)
| JsonLine (chunk : json)    (* decodes to [chunk] *)
| GarbledLine (raw : string) (* non-empty, not the encoding of a JSON value *).

Record Response : Type := mkResponse {
  status_code : Z;
  reason : string;             (* the text of the HTTPError for this status *)
  json_body : result json;     (* the outcome of [response.json()] *)
  body_lines : list line;      (* the lines [iter_lines()] yields ... *)
  body_error : option exn      (* ... and how the iteration ends *)
}.

(** The outcome of [requests.get] / [requests.post] for a request. *)
Definition transport : Type := Request -> result Response.

(** [response.raise_for_status()] *)
Definition raise_for_status (response : Response) : result unit :=
  if ((400 <=? status_code response) && (status_code response <? 600))%Z
  then Raise (RequestException (reason response))
  else Ok tt.

(** [json.loads(line.decode('utf-8'))] *)
Definition json_loads (l : line) : result json :=
  match l with
  | EmptyLine => Raise (ValueError "Expecting value: line 1 column 1 (char 0)")
  | JsonLine chunk => Ok chunk
  | GarbledLine _ => Raise (ValueError "Expecting value: line 1 column 1 (char 0)")
  end.

(** [if line:] *)
Definition line_truthy (l : line) : bool :=
  match l with
  | EmptyLine => false
  | _ => true
  end.

(* ================================================================= *)
(** ** [ollama_client.py]: class [OllamaClient] *)

Record OllamaClient : Type := mkOllamaClient {
  base_url : string;
  timeout : Z
}.

(** [OllamaClient()] with the defaults of [__init__] *)
Definition default_client : OllamaClient :=
  {| base_url := "http://localhost:11434"; timeout := 300 |}.

(** [{"model": model, "messages": messages, "stream": s, **kwargs}] *)
Definition chat_payload (model : string) (messages : list json)
    (streaming : bool) (kwargs : dict json) : json :=
  JObj (dict_update
          [("model", JStr model);
           ("messages", JArr messages);
           ("stream", JBool streaming)]
          kwargs).

Definition chat_request (self : OllamaClient) (model : string)
    (messages : list json) (streaming : bool) (kwargs : dict json)
    : Request :=
  {| method := POST;
     url := base_url self ++ "/api/chat";
     json_payload := Some (chat_payload model messages streaming kwargs);
     stream := streaming;
     request_timeout := timeout self |}.

Definition tags_request (self : OllamaClient) (seconds : Z) : Request :=
  {| method := GET;
     url := base_url self ++ "/api/tags";
     json_payload := None;
     stream := false;
     request_timeout := seconds |}.

(** [list_models], lines 16-24 *)
Definition list_models (self : OllamaClient) (net : transport)
    : result (list json) :=
  except_RequestException
    (response <- net (tags_request self 10) ;;
     _ <- raise_for_status response ;;
     data <- json_body response ;;
     models <- py_get data "models" (JArr []) ;;
     items <- py_iter models ;;
     map_result (fun model => py_getitem model "name") items)
    (fun _ => Ok []).

(** What a generator did when run to its end: the values it yielded, in
    order, and the exception that ended it, if one did. *)
Record generated : Type := mkGenerated {
  yielded : list json;
  propagated : option exn
}.

(** The body of the [for line in response.iter_lines()] loop, lines 45-48:
    [Ok (Some c)] yields [c], [Ok None] yields nothing. *)
Definition stream_chunk (l : line) : result (option json) :=
  if line_truthy l then
    chunk <- json_loads l ;;
    message <- py_get chunk "message" (JObj []) ;;
    content <- py_get message "content" JNull ;;
    if truthy content then
      message' <- py_getitem chunk "message" ;;
      content' <- py_getitem message' "content" ;;
      Ok (Some content')
    else Ok None
  else Ok None.

(** The loop of lines 44-48 over the lines of the body; [body_end] is the
    exception [iter_lines()] raises after the last line, if any. *)
Fixpoint stream_lines (ls : list line) (body_end : option exn) : generated :=
  match ls with
  | [] => {| yielded := []; propagated := body_end |}
  | l :: rest =>
      match stream_chunk l with
      | Raise e => {| yielded := []; propagated := Some e |}
      | Ok None => stream_lines rest body_end
      | Ok (Some fragment) =>
          let g := stream_lines rest body_end in
          {| yielded := fragment :: yielded g; propagated := propagated g |}
      end
  end.

(** The [except requests.RequestException as e: yield f"Error: {str(e)}"]
    clause of [chat_stream], applied to what the [try] block did. *)
Definition stream_except (g : generated) : generated :=
  match propagated g with
  | Some (RequestException msg) =>
      {| yielded := yielded g ++ [JStr ("Error: " ++ msg)];
         propagated := None |}
  | _ => g
  end.

(** [chat_stream], lines 26-51 *)
Definition chat_stream (self : OllamaClient) (net : transport)
    (model : string) (messages : list json) (kwargs : dict json)
    : generated :=
  stream_except
    match (response <- net (chat_request self model messages true kwargs) ;;
           _ <- raise_for_status response ;;
           Ok response) with
    | Raise e => {| yielded := []; propagated := Some e |}
    | Ok response => stream_lines (body_lines response) (body_error response)
    end.

(** [chat], lines 53-71 *)
Definition chat (self : OllamaClient) (net : transport)
    (model : string) (messages : list json) (kwargs : dict json)
    : result json :=
  except_RequestException
    (response <- net (chat_request self model messages false kwargs) ;;
     _ <- raise_for_status response ;;
     data <- json_body response ;;
     message <- py_getitem data "message" ;;
     py_getitem message "content")
    (fun msg => Ok (JStr ("Error: " ++ msg))).

(** The metrics dictionary of a successful [chat_with_metrics] call. *)
Record Metrics : Type := mkMetrics {
  response_time : number;
  metrics_model : string;
  prompt_eval_count : json;
  eval_count : json;
  total_duration : number;
  load_duration : number;
  prompt_eval_duration : number;
  eval_duration : number;
  tokens_per_second : number
}.

(** The second component of [chat_with_metrics]: the metrics, or the
    single-key dictionary [{"error": str(e)}]. *)
Inductive metrics_dict : Type :=
| MetricsOk (m : Metrics)
| MetricsError (error : string).

(** ["error" not in metrics] *)
Definition error_not_in (metrics : metrics_dict) : bool :=
  match metrics with
  | MetricsOk _ => true
  | MetricsError _ => false
  end.

(** [response_data.get(key, 0) / 1e9] *)
Definition seconds_of (response_data : json) (key : string)
    : result number :=
  v <- py_get response_data key (JNum (PyInt 0)) ;;
  ns <- as_number v ;;
  py_div ns nanoseconds_per_second.

(** The [tokens_per_second] entry, line 106 *)
Definition tokens_per_second_of (response_data : json) : result number :=
  guard <- py_get response_data "eval_duration" (JNum (PyInt 0)) ;;
  g <- as_number guard ;;
  if py_gt0 g then
    count <- py_get response_data "eval_count" (JNum (PyInt 0)) ;;
    duration <- py_get response_data "eval_duration" (JNum (PyInt 1)) ;;
    d <- as_number duration ;;
    seconds <- py_div d nanoseconds_per_second ;;
    c <- as_number count ;;
    py_div c seconds
  else Ok (PyInt 0).

(** [chat_with_metrics], lines 73-112; [start_time] and [end_time] are the
    two readings of [time.time()]. *)
Definition chat_with_metrics (self : OllamaClient) (net : transport)
    (start_time end_time : float)
    (model : string) (messages : list json) (kwargs : dict json)
    : result (json * metrics_dict) :=
  except_RequestException
    (response <- net (chat_request self model messages false kwargs) ;;
     _ <- raise_for_status response ;;
     response_data <- json_body response ;;
     message <- py_getitem response_data "message" ;;
     content <- py_getitem message "content" ;;
     pec <- py_get response_data "prompt_eval_count" (JNum (PyInt 0)) ;;
     ec <- py_get response_data "eval_count" (JNum (PyInt 0)) ;;
     td <- seconds_of response_data "total_duration" ;;
     ld <- seconds_of response_data "load_duration" ;;
     ped <- seconds_of response_data "prompt_eval_duration" ;;
     ed <- seconds_of response_data "eval_duration" ;;
     tps <- tokens_per_second_of response_data ;;
     Ok (content,
         MetricsOk {| response_time :=
                        PyFloat (end_time - start_time)%float;
                      metrics_model := model;
                      prompt_eval_count := pec;
                      eval_count := ec;
                      total_duration := td;
                      load_duration := ld;
                      prompt_eval_duration := ped;
                      eval_duration := ed;
                      tokens_per_second := tps |}))
    (fun msg => Ok (JStr ("Error: " ++ msg), MetricsError msg)).

(** What [future.result()] becomes in [responses], lines 150-154 *)
Definition future_result (future : result json) : json :=
  match future with
  | Ok response => response
  | Raise e => JStr ("Error: " ++ str e)
  end.

(** [compare_models], lines 138-156.  The call submitted for the model at
    position [i] of [models] talks to [net i]: whatever the interleaving of
    the worker threads does to a call is part of that oracle.  The futures
    are visited in submission order. *)
Definition compare_models (self : OllamaClient) (net : nat -> transport)
    (models : list string) (messages : list json) (kwargs : dict json)
    : result (dict json) :=
  match models with
  | [] => Raise (ValueError "max_workers must be greater than 0")
  | _ =>
      let futures :=
        map (fun im => (chat self (net (fst im)) (snd im) messages kwargs,
                        snd im))
            (enumerate_from 0 models) in
      Ok (fold_left
            (fun responses fm =>
               dict_set (snd fm) (future_result (fst fm)) responses)
            futures [])
  end.

(** The result of [benchmark_model]: the averages, or the single-key
    dictionary [{"error": ...}]. *)
Inductive benchmark_result : Type :=
| BenchmarkAverages (model : string) (iterations : nat)
    (avg_response_time avg_tokens_per_second
     avg_total_duration avg_eval_duration : number)
| BenchmarkError (error : string).

(** [{"temperature": 0.7, "num_predict": 100}] passed as [options=] *)
Definition benchmark_kwargs : dict json :=
  [("options", JObj [("temperature", JNum (PyFloat 0x1.6666666666666p-1%float));   (* 0.7 *)
                     ("num_predict", JNum (PyInt 100))])].

(** The loop of lines 164-171, from iteration [i] on, [remaining] times.
    [clock i] gives the two readings of [time.time()] of iteration [i]. *)
Fixpoint benchmark_loop (self : OllamaClient) (net : nat -> transport)
    (clock : nat -> float * float) (model : string) (messages : list json)
    (i remaining : nat) (metrics_list : list Metrics)
    : result (list Metrics) :=
  match remaining with
  | O => Ok metrics_list
  | S remaining' =>
      r <- chat_with_metrics self (net i) (fst (clock i)) (snd (clock i))
             model messages benchmark_kwargs ;;
      benchmark_loop self net clock model messages (S i) remaining'
        (match snd r with
         | MetricsOk metrics => metrics_list ++ [metrics]
         | MetricsError _ => metrics_list
         end)
  end.

(** [sum(m[key] for m in metrics_list) / len(metrics_list)] *)
Definition average (key : Metrics -> number) (metrics_list : list Metrics)
    : result number :=
  total <- py_sum (map key metrics_list) ;;
  py_div total (PyInt (Z.of_nat (List.length metrics_list))).

(** [benchmark_model], lines 158-186 *)
Definition benchmark_model (self : OllamaClient) (net : nat -> transport)
    (clock : nat -> float * float) (model : string) (test_prompt : string)
    (iterations : nat) : result benchmark_result :=
  let messages := [JObj [("role", JStr "user");
                         ("content", JStr test_prompt)]] in
  metrics_list <-
    benchmark_loop self net clock model messages 0 iterations [] ;;
  match metrics_list with
  | [] => Ok (BenchmarkError "All benchmark attempts failed")
  | _ =>
      rt <- average response_time metrics_list ;;
      tps <- average tokens_per_second metrics_list ;;
      td <- average total_duration metrics_list ;;
      ed <- average eval_duration metrics_list ;;
      Ok (BenchmarkAverages model (List.length metrics_list) rt tps td ed)
  end.

Definition generate_request (self : OllamaClient) (model : string)
    (keep_alive : Z) : Request :=
  {| method := POST;
     url := base_url self ++ "/api/generate";
     json_payload :=
       Some (JObj [("model", JStr model);
                   ("keep_alive", JNum (PyInt keep_alive))]);
     stream := false;
     request_timeout := 30 |}.

(** [unload_model], lines 228-238 *)
Definition unload_model (self : OllamaClient) (net : transport)
    (model : string) : result bool :=
  except_RequestException
    (_ <- net (generate_request self model 0) ;;
     Ok true)
    (fun _ => Ok false).

(** [keep_model_loaded], lines 240-250 *)
Definition keep_model_loaded (self : OllamaClient) (net : transport)
    (model : string) (duration : Z) : result bool :=
  except_RequestException
    (_ <- net (generate_request self model duration) ;;
     Ok true)
    (fun _ => Ok false).

(** [is_available], lines 265-271: the bare [except:] absorbs everything *)
Definition is_available (self : OllamaClient) (net : transport) : bool :=
  match net (tags_request self 5) with
  | Ok response => (status_code response =? 200)%Z
  | Raise _ => false
  end.

(* ================================================================= *)
(** ** [app.py]: the session state *)

Local Open Scope nat_scope.

Definition time : Type := Z.
Definition addr : Type := nat.

Record Message : Type := mkMessage {
  role : string;
  content : string;
  timestamp : time;
  message_id : string
}.

(** The list objects holding messages.  Two names that refer to the same
    list hold the same address. *)
Record heap : Type := mkHeap {
  cells : list (addr * list Message);
  next : addr
}.

Definition empty_heap : heap := {| cells := []; next := 0 |}.

Fixpoint lookup_cell (a : addr) (cs : list (addr * list Message))
    : list Message :=
  match cs with
  | [] => []
  | (a', l) :: cs' => if Nat.eqb a a' then l else lookup_cell a cs'
  end.

Definition deref (h : heap) (a : addr) : list Message :=
  lookup_cell a (cells h).

Definition heap_store (a : addr) (l : list Message) (h : heap) : heap :=
  {| cells := (a, l) :: cells h; next := next h |}.

(** a new list object with contents [l] *)
Definition alloc (l : list Message) (h : heap) : addr * heap :=
  (next h, {| cells := (next h, l) :: cells h; next := S (next h) |}).

(** [the_list.append(m)] *)
Definition heap_append (a : addr) (m : Message) (h : heap) : heap :=
  heap_store a (deref h a ++ [m]) h.

Record Conversation : Type := mkConversation {
  messages : addr;
  created_at : time;
  last_modified : time;
  title : string
}.

(** [st.session_state]: a key that was never assigned is [None]. *)
Record SessionState : Type := mkSessionState {
  conversations : option (dict Conversation);
  active_conversation : option string;
  lists : heap
}.

Definition empty_session : SessionState :=
  {| conversations := None; active_conversation := None;
     lists := empty_heap |}.

(** [st.session_state.conversations] *)
Definition session_conversations (s : SessionState)
    : result (dict Conversation) :=
  match conversations s with
  | Some convs => Ok convs
  | None => Raise (AttributeError "st.session_state has no attribute 'conversations'")
  end.

(** [st.session_state.active_conversation] *)
Definition session_active (s : SessionState) : result string :=
  match active_conversation s with
  | Some active => Ok active
  | None => Raise (AttributeError "st.session_state has no attribute 'active_conversation'")
  end.

(** [d[k]] on a dictionary of conversations *)
Definition dict_index {V : Type} (k : string) (d : dict V) : result V :=
  match dict_get k d with
  | Some v => Ok v
  | None => Raise (KeyError k)
  end.

(** [init_conversation_state], lines 116-127.  The two readings of
    [datetime.now()] in the dictionary literal are taken as one. *)
Definition init_conversation_state (now : time) (s : SessionState)
    : SessionState :=
  let convs := match conversations s with
               | Some convs => convs
               | None => []
               end in
  let active := match active_conversation s with
                | Some active => active
                | None => "default"
                end in
  if dict_contains active convs then
    {| conversations := Some convs;
       active_conversation := Some active;
       lists := lists s |}
  else
    let (a, h) := alloc [] (lists s) in
    {| conversations :=
         Some (dict_set active
                 {| messages := a; created_at := now;
                    last_modified := now; title := "New Chat" |}
                 convs);
       active_conversation := Some active;
       lists := h |}.

(** [content[:n]] *)
Definition slice_to (n : nat) (s : string) : string := substring 0 n s.

(** [content[:50] + "..." if len(content) > 50 else content], line 146 *)
Definition derive_title (content : string) : string :=
  if 50 <? String.length content then slice_to 50 content ++ "..."
  else content.

(** [add_message], lines 130-146.  [digest] is the first 8 hex digits of the
    MD5 hash; the readings of [datetime.now()] are taken as one. *)
Definition add_message (now : time) (digest : string)
    (role content : string) (conversation_id : option string)
    (s : SessionState) : result SessionState :=
  conversation_id <- match conversation_id with
                     | Some cid => Ok cid
                     | None => session_active s
                     end ;;
  convs <- session_conversations s ;;
  conv <- dict_index conversation_id convs ;;
  let message := {| role := role; content := content;
                    timestamp := now; message_id := digest |} in
  let h := heap_append (messages conv) message (lists s) in
  let new_title :=
    if List.length (deref h (messages conv)) =? 1
    then derive_title content
    else title conv in
  Ok {| conversations :=
          Some (dict_set conversation_id
                  {| messages := messages conv;
                     created_at := created_at conv;
                     last_modified := now;
                     title := new_title |}
                  convs);
        active_conversation := active_conversation s;
        lists := h |}.

(** The message list of the active conversation, as the script reads it *)
Definition active_messages (s : SessionState) : result (list Message) :=
  active <- session_active s ;;
  convs <- session_conversations s ;;
  current_conv <- dict_index active convs ;;
  Ok (deref (lists s) (messages current_conv)).

Definition active_title (s : SessionState) : result string :=
  active <- session_active s ;;
  convs <- session_conversations s ;;
  current_conv <- dict_index active convs ;;
  Ok (title current_conv).

(* ================================================================= *)
(** ** [app.py]: the conversation list of the sidebar *)

Definition lower_ascii (c : ascii) : ascii :=
  let n := nat_of_ascii c in
  if (65 <=? n) && (n <=? 90) then ascii_of_nat (n + 32) else c.

(** [s.lower()], on ASCII letters *)
Fixpoint lower (s : string) : string :=
  match s with
  | EmptyString => EmptyString
  | String c s' => String (lower_ascii c) (lower s')
  end.

(** [sub in s] on strings *)
Fixpoint py_in (sub s : string) : bool :=
  if String.prefix sub s then true
  else match s with
       | EmptyString => false
       | String _ s' => py_in sub s'
       end.

Fixpoint insert_by_last_modified (x : string * Conversation)
    (l : list (string * Conversation)) : list (string * Conversation) :=
  match l with
  | [] => [x]
  | y :: l' =>
      if (last_modified (snd x) <? last_modified (snd y))%Z
      then y :: insert_by_last_modified x l'
      else x :: l
  end.

(** [sorted(items, key=lambda x: x[1]['last_modified'], reverse=True)]:
    most recently modified first, equal keys in their original order *)
Definition sorted_by_last_modified (items : list (string * Conversation))
    : list (string * Conversation) :=
  fold_right insert_by_last_modified [] items.

(** [conversations_to_show[:20]], lines 239-253 *)
Definition conversations_to_show (search_conv : string)
    (convs : dict Conversation) : list (string * Conversation) :=
  let sorted := sorted_by_last_modified convs in
  firstn 20
    (if negb (String.eqb search_conv "")
     then filter (fun cc => py_in (lower search_conv) (lower (title (snd cc))))
                 sorted
     else sorted).

(** The button of the sidebar that was pressed in this run of the script. *)
Inductive click : Type :=
| NewConversation (new_id : string)   (* "New Conversation"; [new_id] is
                                         "chat_" and the formatted time *)
| SelectConversation (conv_id : string)   (* key "conv_<conv_id>" *)
| DeleteConversation (conv_id : string)   (* key "del_<conv_id>" *)
| NoClick.

Definition select_clicked (c : click) (conv_id : string) : bool :=
  match c with
  | SelectConversation k => String.eqb k conv_id
  | _ => false
  end.

Definition delete_clicked (c : click) (conv_id : string) : bool :=
  match c with
  | DeleteConversation k => String.eqb k conv_id
  | _ => false
  end.

(** The "New Conversation" handler, lines 221-230 *)
Definition new_conversation (now : time) (new_id : string)
    (s : SessionState) : result SessionState :=
  convs <- session_conversations s ;;
  let (a, h) := alloc [] (lists s) in
  Ok {| conversations :=
          Some (dict_set new_id
                  {| messages := a; created_at := now;
                     last_modified := now; title := "New Chat" |}
                  convs);
        active_conversation := Some new_id;
        lists := h |}.

(** The body of the delete button of [conv_id], lines 279-283.  [None]
    means the guard failed: nothing was done and the script goes on. *)
Definition delete_conversation (conv_id : string) (s : SessionState)
    : result (option SessionState) :=
  convs <- session_conversations s ;;
  if 1 <? List.length convs then
    convs' <- match dict_del conv_id convs with
              | Some convs' => Ok convs'
              | None => Raise (KeyError conv_id)
              end ;;
    active <- session_active s ;;
    active' <- (if String.eqb conv_id active then
                  match dict_keys convs' with
                  | first :: _ => Ok first
                  | [] => Raise (IndexError "list index out of range")
                  end
                else Ok active) ;;
    Ok (Some {| conversations := Some convs';
                active_conversation := Some active';
                lists := lists s |})
  else Ok None.

(** The loop over the displayed conversations, lines 253-283.  A handler
    that ends in [st.rerun()] ends the loop. *)
Fixpoint conversation_rows (c : click)
    (shown : list (string * Conversation)) (s : SessionState)
    : result SessionState :=
  match shown with
  | [] => Ok s
  | (conv_id, _) :: rest =>
      active <- session_active s ;;
      let is_active := String.eqb conv_id active in
      if negb is_active && select_clicked c conv_id then
        Ok {| conversations := conversations s;
              active_conversation := Some conv_id;
              lists := lists s |}
      else if delete_clicked c conv_id then
        r <- delete_conversation conv_id s ;;
        match r with
        | Some s' => Ok s'
        | None => conversation_rows c rest s
        end
      else conversation_rows c rest s
  end.

(** One run of the script as far as the conversation list: line 183, then
    the sidebar. *)
Record interaction : Type := mkInteraction {
  now : time;
  search_conv : string;
  clicked : click
}.

Definition script_run (i : interaction) (s : SessionState)
    : result SessionState :=
  let s := init_conversation_state (now i) s in
  match clicked i with
  | NewConversation new_id => new_conversation (now i) new_id s
  | _ =>
      convs <- session_conversations s ;;
      conversation_rows (clicked i)
        (conversations_to_show (search_conv i) convs) s
  end.

(** A session: the runs of the script, one per interaction. *)
Fixpoint session (runs : list interaction) (s : SessionState)
    : result SessionState :=
  match runs with
  | [] => Ok s
  | i :: runs' => s' <- script_run i s ;; session runs' s'
  end.

(** the store is not empty and the active conversation is in it *)
Definition store_ok (s : SessionState) : bool :=
  match conversations s, active_conversation s with
  | Some convs, Some active =>
      negb (Nat.eqb (List.length convs) 0) && dict_contains active convs
  | _, _ => false
  end.

(* ================================================================= *)
(** ** [app.py]: the chat area *)

(** [current_conv['messages'] = messages[:i]], line 508: a new list object
    replaces the one the conversation held. *)
Definition truncate_messages (i : nat) (s : SessionState)
    : result SessionState :=
  active <- session_active s ;;
  convs <- session_conversations s ;;
  current_conv <- dict_index active convs ;;
  let messages_list := deref (lists s) (messages current_conv) in
  let (a, h) := alloc (firstn i messages_list) (lists s) in
  Ok {| conversations :=
          Some (dict_set active
                  {| messages := a;
                     created_at := created_at current_conv;
                     last_modified := last_modified current_conv;
                     title := title current_conv |}
                  convs);
        active_conversation := active_conversation s;
        lists := h |}.

(** The "Regenerate" button of message [i], lines 505-509: it exists for
    the assistant messages of the active conversation only. *)
Definition regenerate (i : nat) (s : SessionState) : result SessionState :=
  messages_list <- active_messages s ;;
  match nth_error messages_list i with
  | Some message =>
      if String.eqb (role message) "assistant"
      then truncate_messages i s
      else Ok s
  | None => Ok s
  end.

(** [{"role": r, "content": c}] *)
Definition role_content (r c : string) : json :=
  JObj [("role", JStr r); ("content", JStr c)].

(** [[{"role": "system", "content": system_prompt}] if system_prompt else []] *)
Definition system_messages (system_prompt : string) : list json :=
  if negb (String.eqb system_prompt "")
  then [role_content "system" system_prompt]
  else [].

(** [messages_for_model] of the single-model branch, lines 585-586 *)
Definition messages_for_single (system_prompt : string)
    (messages_list : list Message) : list json :=
  system_messages system_prompt
  ++ map (fun m => role_content (role m) (content m)) messages_list.

(** [messages_for_model] of the compare branch, lines 554-556 *)
Definition messages_for_compare (system_prompt : string)
    (messages_list : list Message) (prompt : string) : list json :=
  (system_messages system_prompt
   ++ map (fun m => role_content (role m) (content m)) messages_list)
  ++ [role_content "user" prompt].

(** The widgets of the sidebar the chat input reads. *)
Record Widgets : Type := mkWidgets {
  selected_model : string;
  compare_mode : bool;
  compare_models_selected : list string;
  system_prompt : string;
  options : json      (* temperature, num_predict, top_p, top_k, repeat_penalty *)
}.

Definition comparing (w : Widgets) : bool :=
  compare_mode w
  && match compare_models_selected w with [] => false | _ => true end.

(** Lines 469, 473 and 535: [messages] is bound to the list object of the
    active conversation, then the prompt is added to the conversation.
    Returns the address [messages] holds and the new state. *)
Definition begin_turn (now : time) (digest : string) (prompt : string)
    (s : SessionState) : result (addr * SessionState) :=
  active <- session_active s ;;
  convs <- session_conversations s ;;
  current_conv <- dict_index active convs ;;
  let messages_name := messages current_conv in
  s1 <- add_message now digest "user" prompt None s ;;
  Ok (messages_name, s1).

(** The [messages=] argument of the [chat_stream] calls of one turn. *)
Definition model_input (w : Widgets) (now : time) (digest : string)
    (prompt : string) (s : SessionState) : result (list json) :=
  t <- begin_turn now digest prompt s ;;
  let messages_list := deref (lists (snd t)) (fst t) in
  if comparing w
  then Ok (messages_for_compare (system_prompt w) messages_list prompt)
  else Ok (messages_for_single (system_prompt w) messages_list).

(** [full_response += chunk] over the fragments of a stream *)
Fixpoint accumulate (full_response : string) (chunks : list json)
    : result string :=
  match chunks with
  | [] => Ok full_response
  | JStr chunk :: rest => accumulate (full_response ++ chunk) rest
  | _ :: _ => Raise (TypeError "can only concatenate str to str")
  end.

(** [for chunk in g: full_response += chunk] *)
Definition consume (g : generated) : result string :=
  full_response <- accumulate "" (yielded g) ;;
  match propagated g with
  | None => Ok full_response
  | Some e => Raise e
  end.

(** The loop over [compare_models], lines 547-573 *)
Fixpoint compare_loop (client : OllamaClient) (net : nat -> transport)
    (w : Widgets) (messages_for_model : list json)
    (models : list (nat * string)) (responses : dict string)
    : result (dict string) :=
  match models with
  | [] => Ok responses
  | (idx, model) :: rest =>
      full_response <-
        consume (chat_stream client (net idx) model messages_for_model
                   [("options", options w)]) ;;
      compare_loop client net w messages_for_model rest
        (dict_set model full_response responses)
  end.

(** The chat input, lines 534-610.  [now], [digest] belong to the user
    message and [now'], [digest'] to the assistant message. *)
Definition chat_input (client : OllamaClient) (net : nat -> transport)
    (w : Widgets) (now now' : time) (digest digest' : string)
    (prompt : string) (s : SessionState) : result SessionState :=
  t <- begin_turn now digest prompt s ;;
  let s1 := snd t in
  let messages_list := deref (lists s1) (fst t) in
  if comparing w then
    responses <-
      compare_loop client net w
        (messages_for_compare (system_prompt w) messages_list prompt)
        (enumerate_from 0 (compare_models_selected w)) [] ;;
    first <- match responses with
             | (_, r) :: _ => Ok r
             | [] => Raise (IndexError "list index out of range")
             end ;;
    add_message now' digest' "assistant"
      (match dict_get (selected_model w) responses with
       | Some r => r
       | None => first
       end)
      None s1
  else
    let full_response :=
      match consume (chat_stream client (net 0) (selected_model w)
                       (messages_for_single (system_prompt w) messages_list)
                       [("options", options w)]) with
      | Ok full_response => full_response
      | Raise _ => "Sorry, I encountered an error."
      end in
    add_message now' digest' "assistant" full_response None s1.

(* ================================================================= *)
(** ** What the specification expects, stated over the transport *)

(** The request failed at the level of [requests]: it raised a
    [RequestException], or the server answered with an error status. *)
Definition request_failure (outcome : result Response) : option string :=
  match outcome with
  | Raise (RequestException msg) => Some msg
  | Raise _ => None
  | Ok response =>
      if ((400 <=? status_code response) && (status_code response <? 600))%Z
      then Some (reason response)
      else None
  end.

(** A line of a streamed body that is empty or a JSON object whose
    ["message"], when present, is an object. *)
Definition chunk_ok (l : line) : bool :=
  match l with
  | EmptyLine => true
  | JsonLine (JObj fields) =>
      match dict_get "message" fields with
      | None => true
      | Some (JObj _) => true
      | Some _ => false
      end
  | _ => false
  end.

(** The fragment a well-formed line carries: its non-empty
    [message.content]. *)
Definition fragment_of (l : line) : list json :=
  match l with
  | JsonLine (JObj fields) =>
      match dict_get "message" fields with
      | Some (JObj message) =>
          match dict_get "content" message with
          | Some c => if truthy c then [c] else []
          | None => []
          end
      | _ => []
      end
  | _ => []
  end.

(** A transport whose only failures are request failures: before the
    stream (connection, status) or in the middle of it (reset, timeout),
    with well-formed lines. *)
Definition request_level (outcome : result Response) : bool :=
  match outcome with
  | Raise (RequestException _) => true
  | Raise _ => false
  | Ok response =>
      forallb chunk_ok (body_lines response)
      && match body_error response with
         | None => true
         | Some (RequestException _) => true
         | Some _ => false
         end
  end.

(** The fragments received before the stream ended or failed. *)
Definition fragments_received (outcome : result Response) : list json :=
  match outcome, request_failure outcome with
  | Ok response, None => flat_map fragment_of (body_lines response)
  | _, _ => []
  end.

(** The description of the failure of a stream, if it failed. *)
Definition stream_failure (outcome : result Response) : option string :=
  match request_failure outcome, outcome with
  | Some msg, _ => Some msg
  | None, Ok response =>
      match body_error response with
      | Some (RequestException msg) => Some msg
      | _ => None
      end
  | None, Raise _ => None
  end.

(** The entry of [compare_models] for one call: the text of the answer, or
    the error string of whatever went wrong in that call. *)
Definition expected_entry (outcome : result Response) : json :=
  match outcome with
  | Raise e => JStr ("Error: " ++ str e)
  | Ok response =>
      match request_failure outcome with
      | Some msg => JStr ("Error: " ++ msg)
      | None =>
          match (data <- json_body response ;;
                 message <- py_getitem data "message" ;;
                 py_getitem message "content") with
          | Ok text => text
          | Raise e => JStr ("Error: " ++ str e)
          end
      end
  end.

(** The name of an entry of the model list, when the entry is an object
    that has one. *)
Definition model_name (item : json) : option json :=
  match item with
  | JObj fields => dict_get "name" fields
  | _ => None
  end.



(** The outcomes of the calls of a benchmark of [n] iterations. *)
Definition benchmark_calls (self : OllamaClient) (net : nat -> transport)
    (clock : nat -> float * float) (model test_prompt : string) (n : nat)
    : list (result (json * metrics_dict)) :=
  map (fun i =>
         chat_with_metrics self (net i) (fst (clock i)) (snd (clock i)) model
           [JObj [("role", JStr "user"); ("content", JStr test_prompt)]]
           benchmark_kwargs)
      (seq 0 n).

(** The metrics of the successful calls among [calls], in order. *)
Definition successes (calls : list (result (json * metrics_dict)))
    : list Metrics :=
  flat_map (fun call =>
              match call with
              | Ok (_, MetricsOk metrics) => [metrics]
              | _ => []
              end)
           calls.

(** The sum of the first [k] items of [xs]: the items are added one after
    the other, in the order of the list, to the [int] 0. *)
Fixpoint sum_of_first (k : nat) (xs : list number) : result number :=
  match k with
  | O => Ok (PyInt 0)
  | S k' =>
      match nth_error xs k' with
      | Some x => total <- sum_of_first k' xs ;; py_add total x
      | None => sum_of_first k' xs
      end
  end.

(** The mean of [key] over [ms]: the sum of the values of [key], divided by
    the number of elements of [ms]. *)
Definition mean (key : Metrics -> number) (ms : list Metrics)
    : result number :=
  total <- sum_of_first (List.length ms) (map key ms) ;;
  py_div total (PyInt (Z.of_nat (List.length ms))).

(** The averages [benchmark_model] reports for the metrics [ms]. *)
Definition averages_over (model : string) (ms : list Metrics)
    : result benchmark_result :=
  rt <- mean response_time ms ;;
  tps <- mean tokens_per_second ms ;;
  td <- mean total_duration ms ;;
  ed <- mean eval_duration ms ;;
  Ok (BenchmarkAverages model (List.length ms) rt tps td ed).

(* ================================================================= *)
(** ** Sample transports and sessions *)

Definition http_response (status : Z) (text : string) (data : result json)
    : Response :=
  {| status_code := status; reason := text; json_body := data;
     body_lines := []; body_error := None |}.

Definition streamed (ls : list line) (body_end : option exn) : Response :=
  {| status_code := 200; reason := "OK";
     json_body := Raise (ValueError "Extra data");
     body_lines := ls; body_error := body_end |}.

(** a streamed chunk [{"message": {"role": "assistant", "content": text}}] *)
Definition chunk_of (text : string) : line :=
  JsonLine (JObj [("message", JObj [("role", JStr "assistant");
                                    ("content", JStr text)])]).

Definition connection_refused : transport :=
  fun _ => Raise (RequestException "Connection refused").

Definition tags_two_models : transport :=
  fun _ => Ok (http_response 200 "OK"
                 (Ok (JObj [("models",
                             JArr [JObj [("name", JStr "llama2:7b");
                                         ("size", JNum (PyInt 3825819519))];
                                   JObj [("name", JStr "mistral:7b")]])]))).

(** a well-formed JSON answer whose model entry has no ["name"] *)
Definition tags_nameless : transport :=
  fun _ => Ok (http_response 200 "OK"
                 (Ok (JObj [("models",
                             JArr [JObj [("model", JStr "llama2:7b")]])]))).

Definition internal_server_error : transport :=
  fun _ => Ok (http_response 500 "500 Server Error: Internal Server Error"
                 (Ok (JObj [("error", JStr "model not found")]))).

(** two fragments, then the connection is reset *)
Definition stream_reset : transport :=
  fun _ => Ok (streamed [chunk_of "Hel"; EmptyLine; chunk_of "lo"]
                 (Some (RequestException "Connection reset by peer"))).

(** one fragment, then a line that is not JSON *)
Definition stream_garbled : transport :=
  fun _ => Ok (streamed [chunk_of "Hel"; GarbledLine "<html>"] None).

(** one fragment, then a chunk whose ["message"] is [null] *)
Definition stream_null_message : transport :=
  fun _ => Ok (streamed [chunk_of "Hel"; JsonLine (JObj [("message", JNull)])]
                 None).

(** a non-streaming answer with the metrics of the final chunk *)
Definition answer (text : string) (tokens nanoseconds : Z) : json :=
  JObj [("message", JObj [("role", JStr "assistant");
                          ("content", JStr text)]);
        ("prompt_eval_count", JNum (PyInt 5));
        ("eval_count", JNum (PyInt tokens));
        ("total_duration", JNum (PyInt (nanoseconds + 1000000000)));
        ("load_duration", JNum (PyInt 1000000000));
        ("prompt_eval_duration", JNum (PyInt 0));
        ("eval_duration", JNum (PyInt nanoseconds))].

(** 100 tokens generated in 2 seconds *)
Definition answers_fine : transport :=
  fun _ => Ok (http_response 200 "OK" (Ok (answer "Fine." 100 2000000000))).

(** an answer whose generation took no time *)
Definition answers_at_once : transport :=
  fun _ => Ok (http_response 200 "OK" (Ok (answer "" 0 0))).


(** an answer with status 200 and no ["message"] *)
Definition answers_without_message : transport :=
  fun _ => Ok (http_response 200 "OK" (Ok (JObj [("done", JBool true)]))).

(** the second of three calls is answered without a ["message"] *)
Definition second_call_malformed : nat -> transport :=
  fun i =>
    match i with
    | 1 => answers_without_message
    | _ => answers_fine
    end.

(** the second of three calls fails *)
Definition second_call_fails : nat -> transport :=
  fun i _ =>
    match i with
    | 0 => Ok (http_response 200 "OK" (Ok (answer "Fine." 100 2000000000)))
    | 1 => Raise (RequestException "Read timed out")
    | _ => Ok (http_response 200 "OK" (Ok (answer "Good." 300 2000000000)))
    end.

Definition wall_clock : nat -> float * float :=
  fun i => match i with
           | 0 => (10, 13)%float
           | 1 => (13, 14)%float
           | _ => (14, 19)%float
           end.

(** model "a" answers, model "b" meets a transport error *)
Definition a_answers_b_fails : nat -> transport :=
  fun i _ =>
    match i with
    | 0 => Ok (http_response 200 "OK" (Ok (answer "Hello from a" 10 1)))
    | _ => Raise (RequestException "Connection aborted")
    end.

Definition first_run : interaction :=
  {| now := 100%Z; search_conv := ""; clicked := NoClick |}.

(** the session after the first run of the script *)
Definition fresh_session : SessionState :=
  init_conversation_state 100%Z empty_session.

(** two conversations, the newer one active, one message in the older *)
Definition two_conversations : SessionState :=
  {| conversations :=
       Some [("default",
              {| messages := 0; created_at := 100%Z; last_modified := 105%Z;
                 title := "hello" |});
             ("chat_20240101_120000",
              {| messages := 1; created_at := 110%Z; last_modified := 110%Z;
                 title := "New Chat" |})];
     active_conversation := Some "chat_20240101_120000";
     lists :=
       {| cells := [(1, []);
                    (0, [{| role := "user"; content := "hello";
                            timestamp := 105%Z; message_id := "5d41402a" |}])];
          next := 2 |} |}.

(** a conversation of four messages *)
Definition four_messages : SessionState :=
  {| conversations :=
       Some [("default",
              {| messages := 0; created_at := 100%Z; last_modified := 108%Z;
                 title := "hello" |})];
     active_conversation := Some "default";
     lists :=
       {| cells :=
            [(0, [{| role := "user"; content := "hello";
                     timestamp := 105%Z; message_id := "5d41402a" |};
                  {| role := "assistant"; content := "Hi!";
                     timestamp := 106%Z; message_id := "0b5ccf1b" |};
                  {| role := "user"; content := "how are you?";
                     timestamp := 107%Z; message_id := "c34cd2a1" |};
                  {| role := "assistant"; content := "Fine.";
                     timestamp := 108%Z; message_id := "77e3bd6f" |}])];
          next := 1 |} |}.

Definition compare_widgets : Widgets :=
  {| selected_model := "a"; compare_mode := true;
     compare_models_selected := ["a"; "b"]; system_prompt := "";
     options := JObj [("temperature",
                       JNum (PyFloat 0x1.6666666666666p-1%float))] |}.

Definition single_widgets : Widgets :=
  {| selected_model := "a"; compare_mode := false;
     compare_models_selected := []; system_prompt := "Be brief.";
     options := JObj [("temperature",
                       JNum (PyFloat 0x1.6666666666666p-1%float))] |}.

Definition eighty_characters : string :=
  "0123456789012345678901234567890123456789012345678901234567890123456789: ten more".

(* ================================================================= *)
(** ** [ollama_client.py]: the other methods *)

(** [try: c  except: h], the bare [except:] *)
Definition except_all {A : Type} (c : result A) (h : result A) : result A :=
  match c with
  | Raise _ => h
  | _ => c
  end.

(** [k in v] for a string [k] *)
Definition py_contains (k : string) (v : json) : result bool :=
  match v with
  | JObj fields => Ok (dict_contains k fields)
  | JStr s => Ok (py_in k s)
  | JArr items =>
      Ok (existsb (fun x => match x with
                            | JStr s => String.eqb s k
                            | _ => false
                            end)
                  items)
  | _ => Raise (TypeError "argument is not iterable")
  end.

Definition post_request (self : OllamaClient) (path : string)
    (body : json) (seconds : Z) : Request :=
  {| method := POST;
     url := base_url self ++ path;
     json_payload := Some body;
     stream := false;
     request_timeout := seconds |}.

(** [get_model_info], lines 188-199 *)
Definition get_model_info (self : OllamaClient) (net : transport)
    (model_name : string) : result json :=
  except_RequestException
    (response <- net (post_request self "/api/show"
                        (JObj [("name", JStr model_name)]) 30) ;;
     _ <- raise_for_status response ;;
     json_body response)
    (fun _ => Ok (JObj [])).

(** [info.get("details", {}).get(key, "Unknown")] *)
Definition detail_of (info : json) (key : string) : result json :=
  details <- py_get info "details" (JObj []) ;;
  py_get details key (JStr "Unknown").

(** [if key in info: details[key] = info[key]], lines 217-222 *)
Definition copy_if_present (key : string) (info : json) (details : dict json)
    : result (dict json) :=
  present <- py_contains key info ;;
  if present then
    v <- py_getitem info key ;;
    Ok (dict_set key v details)
  else Ok details.

(** [get_model_details], lines 201-226 *)
Definition get_model_details (self : OllamaClient) (net : transport)
    (model_name : string) : result json :=
  info <- get_model_info self net model_name ;;
  if truthy info then
    size <- py_get info "size" (JStr "Unknown") ;;
    format <- detail_of info "format" ;;
    family <- detail_of info "family" ;;
    parameter_size <- detail_of info "parameter_size" ;;
    quantization_level <- detail_of info "quantization_level" ;;
    modified_at <- py_get info "modified_at" (JStr "Unknown") ;;
    details <- copy_if_present "template" info
                 [("name", JStr model_name);
                  ("size", size);
                  ("format", format);
                  ("family", family);
                  ("parameter_size", parameter_size);
                  ("quantization_level", quantization_level);
                  ("modified_at", modified_at)] ;;
    details <- copy_if_present "modelfile" info details ;;
    Ok (JObj details)
  else
    Ok (JObj [("name", JStr model_name);
              ("error", JStr "Could not retrieve model details")]).

(** [generate_embeddings], lines 252-263; [None] is [JNull] *)
Definition generate_embeddings (self : OllamaClient) (net : transport)
    (model prompt : string) : result json :=
  except_RequestException
    (response <- net (post_request self "/api/embeddings"
                        (JObj [("model", JStr model);
                               ("prompt", JStr prompt)]) 30) ;;
     _ <- raise_for_status response ;;
     data <- json_body response ;;
     py_get data "embedding" JNull)
    (fun _ => Ok JNull).

(** [get_server_version], lines 273-280; [None] is [JNull] *)
Definition get_server_version (self : OllamaClient) (net : transport)
    : result json :=
  except_all
    (response <- net {| method := GET;
                        url := base_url self ++ "/api/version";
                        json_payload := None;
                        stream := false;
                        request_timeout := 5 |} ;;
     _ <- raise_for_status response ;;
     data <- json_body response ;;
     py_get data "version" JNull)
    (Ok JNull).

(** a response without the keep-alive lines of its body *)
Definition without_empty_lines (response : Response) : Response :=
  {| status_code := status_code response;
     reason := reason response;
     json_body := json_body response;
     body_lines := filter line_truthy (body_lines response);
     body_error := body_error response |}.

(** the answer of [/api/show] for a model *)
Definition show_answer : json :=
  JObj [("modelfile", JStr "FROM llama2");
        ("template", JStr "{{ .Prompt }}");
        ("details", JObj [("format", JStr "gguf");
                          ("family", JStr "llama");
                          ("parameter_size", JStr "7B")]);
        ("modified_at", JStr "2024-01-01T12:00:00Z")].

Definition shows_model : transport :=
  fun _ => Ok (http_response 200 "OK" (Ok show_answer)).

(** the server answers with an empty object *)
Definition shows_nothing : transport :=
  fun _ => Ok (http_response 200 "OK" (Ok (JObj []))).

(** the third call gets an answer without ["message"] *)
Definition third_call_malformed : nat -> transport :=
  fun i _ =>
    match i with
    | 2 => Ok (http_response 200 "OK" (Ok (JObj [("done", JBool true)])))
    | _ => Ok (http_response 200 "OK" (Ok (answer "Fine." 100 2000000000)))
    end.

(** the value under [key], or ["Unknown"] *)
Definition or_unknown (fields : dict json) (key : string) : json :=
  match dict_get key fields with
  | Some v => v
  | None => JStr "Unknown"
  end.

(** the entry for [key], if there is one *)
Definition entry_if_present (fields : dict json) (key : string)
    : dict json :=
  match dict_get key fields with
  | Some v => [(key, v)]
  | None => []
  end.

(** the fields of the ["details"] object of a model description: none when
    the key is absent, undefined when the value is not an object *)
Definition details_fields (fields : dict json) : option (dict json) :=
  match dict_get "details" fields with
  | None => Some []
  | Some (JObj inner) => Some inner
  | Some _ => None
  end.

(** the error marker of [get_model_details] *)
Definition no_model_details (model_name : string) : json :=
  JObj [("name", JStr model_name);
        ("error", JStr "Could not retrieve model details")].

(* ================================================================= *)
(** ** [app.py]: search, message rows, labels, theme and login *)

(** an entry of the result of [search_messages] *)
Record search_result : Type := mkSearchResult {
  conversation : string;
  message : Message;
  context : string
}.

(** the inner loop of [search_messages], lines 151-157 *)
Definition search_conversation (query : string) (h : heap)
    (results : list search_result) (item : string * Conversation)
    : list search_result :=
  fold_left
    (fun (results : list search_result) msg =>
       if py_in (lower query) (lower (content msg))
       then (results ++ [{| conversation := fst item;
                            message := msg;
                            context := title (snd item) |}])%list
       else results)
    (deref h (messages (snd item)))
    results.

(** [search_messages], lines 148-158 *)
Definition search_messages (query : string) (s : SessionState)
    : result (list search_result) :=
  convs <- session_conversations s ;;
  Ok (fold_left (search_conversation query (lists s)) convs []).

(** [message["content"] = edited_content] on the message at index [i] *)
Fixpoint replace_content (i : nat) (edited_content : string)
    (l : list Message) : list Message :=
  match l, i with
  | [], _ => []
  | m :: l', O =>
      {| role := role m; content := edited_content;
         timestamp := timestamp m; message_id := message_id m |} :: l'
  | m :: l', S i' => m :: replace_content i' edited_content l'
  end.

(** the flags [editing_<i>] of the session state: [st.session_state.get(
    f"editing_{i}", False)] *)
Definition editing_flags : Type := nat -> bool.

Definition set_flag (i : nat) (b : bool) (flags : editing_flags)
    : editing_flags :=
  fun j => if Nat.eqb j i then b else flags j.

(** The "Edit" button of message [i], lines 512-513 *)
Definition click_edit (i : nat) (flags : editing_flags) (s : SessionState)
    : result editing_flags :=
  messages_list <- active_messages s ;;
  match nth_error messages_list i with
  | Some _ => Ok (set_flag i true flags)
  | None => Ok flags
  end.

(** The "Save" button of message [i], lines 516-527: it exists while the
    message is being edited; the message object is changed in place. *)
Definition save_edit (i : nat) (edited_content : string)
    (flags : editing_flags) (s : SessionState)
    : result (SessionState * editing_flags) :=
  active <- session_active s ;;
  convs <- session_conversations s ;;
  current_conv <- dict_index active convs ;;
  let messages_list := deref (lists s) (messages current_conv) in
  match nth_error messages_list i with
  | Some _ =>
      if flags i then
        Ok ({| conversations := conversations s;
               active_conversation := active_conversation s;
               lists := heap_store (messages current_conv)
                          (replace_content i edited_content messages_list)
                          (lists s) |},
            set_flag i false flags)
      else Ok (s, flags)
  | None => Ok (s, flags)
  end.

(** The "Cancel" button of message [i], lines 528-531 *)
Definition cancel_edit (i : nat) (flags : editing_flags) (s : SessionState)
    : result editing_flags :=
  messages_list <- active_messages s ;;
  match nth_error messages_list i with
  | Some _ => if flags i then Ok (set_flag i false flags) else Ok flags
  | None => Ok flags
  end.

(** [datetime] values count microseconds; [timedelta.days] and
    [timedelta.seconds] of a difference of [d] microseconds *)
Definition microseconds_per_day : Z := 86400000000.

Definition timedelta_days (d : Z) : Z := (d / microseconds_per_day)%Z.

Definition timedelta_seconds (d : Z) : Z :=
  ((d mod microseconds_per_day) / 1000000)%Z.

(** The number and the unit of the "last modified" caption, lines 267-274 *)
Definition time_ago (current last_mod : time) : Z * string :=
  let time_diff := (current - last_mod)%Z in
  if (0 <? timedelta_days time_diff)%Z then
    (timedelta_days time_diff, "d ago")
  else if (3600 <? timedelta_seconds time_diff)%Z then
    ((timedelta_seconds time_diff / 3600)%Z, "h ago")
  else
    ((timedelta_seconds time_diff / 60)%Z, "m ago").

(** [time_str], lines 269-274 *)
Definition time_str (current last_mod : time) : string :=
  NilZero.string_of_int (Z.to_int (fst (time_ago current last_mod)))
  ++ snd (time_ago current last_mod).

(** [toggle_theme], lines 110-113: the theme after the call *)
Definition toggle_theme (theme : option string) : string :=
  let theme := match theme with
               | Some t => t
               | None => "light"
               end in
  if String.eqb theme "light" then "dark" else "light".

(** the entries of [config] the applications read *)
Record Config : Type := mkConfig {
  enable_auth : bool;
  auth_password : option string;
  max_message_history : Z;
  color_scheme : string
}.

(** What [check_authentication] does to the run: it returns [True] or
    [False], or ends the run with [st.rerun()]. *)
Inductive gate : Type := ReturnsTrue | ReturnsFalse | Reruns.

(** [check_authentication], lines 80-99.  [authenticated] is the entry of
    the session state, [password] the text of the input and [login] whether
    the button was pressed. *)
Definition check_authentication (config : Config)
    (authenticated : option bool) (password : string) (login : bool)
    : gate * option bool :=
  if negb (enable_auth config) then (ReturnsTrue, authenticated)
  else
    let authenticated := match authenticated with
                         | Some b => b
                         | None => false
                         end in
    if negb authenticated then
      if login then
        if match auth_password config with
           | Some expected => String.eqb password expected
           | None => false
           end
        then (Reruns, Some true)
        else (ReturnsFalse, Some authenticated)
      else (ReturnsFalse, Some authenticated)
    else (ReturnsTrue, Some authenticated).

(** the runs of the script of a visitor who types a password and may press
    "Login" in each *)
Fixpoint login_attempts (config : Config) (attempts : list (string * bool))
    (authenticated : option bool) : option bool :=
  match attempts with
  | [] => authenticated
  | (password, login) :: rest =>
      login_attempts config rest
        (snd (check_authentication config authenticated password login))
  end.

(* ================================================================= *)
(** ** [config.py] and [app_production.py] *)

Definition themes : dict (dict string) :=
  [("blue", [("primary", "#0066cc"); ("secondary", "#e3f2fd");
             ("accent", "#1976d2")]);
   ("green", [("primary", "#2e7d32"); ("secondary", "#e8f5e9");
              ("accent", "#388e3c")]);
   ("purple", [("primary", "#6a1b9a"); ("secondary", "#f3e5f5");
               ("accent", "#7b1fa2")]);
   ("orange", [("primary", "#e65100"); ("secondary", "#fff3e0");
               ("accent", "#ef6c00")])].

(** [Config.theme_config], lines 76-100 *)
Definition theme_config (config : Config) : result (dict string) :=
  fallback <- dict_index "blue" themes ;;
  match dict_get (color_scheme config) themes with
  | Some theme => Ok theme
  | None => Ok fallback
  end.

(** the whitespace [str.strip()] removes, among the ASCII characters *)
Definition is_whitespace (c : ascii) : bool :=
  let n := nat_of_ascii c in
  ((9 <=? n) && (n <=? 13)) || ((28 <=? n) && (n <=? 32)).

(** [bool(s.strip())]: some character of [s] is not whitespace *)
Fixpoint strip_truthy (s : string) : bool :=
  match s with
  | EmptyString => false
  | String c s' => negb (is_whitespace c) || strip_truthy s'
  end.

(** [l[-n:]] *)
Definition py_last {A : Type} (n : Z) (l : list A) : list A :=
  if (n =? 0)%Z then l
  else if (0 <? n)%Z then skipn (List.length l - Z.to_nat n) l
  else skipn (Z.to_nat (- n)) l.

(** [get_messages_with_system], [app_production.py] lines 58-66;
    [session_messages] is [st.session_state.messages] *)
Definition get_messages_with_system (config : Config)
    (system_prompt : option string) (session_messages : list json)
    : list json :=
  (match system_prompt with
   | Some prompt =>
       if negb (String.eqb prompt "") && strip_truthy prompt
       then [role_content "system" prompt]
       else []
   | None => []
   end)
  ++ py_last (max_message_history config) session_messages.

(** The chat input of [app_production.py], lines 279-322: the messages of
    the session after the turn. *)
Definition production_chat_input (config : Config) (client : OllamaClient)
    (net : transport) (selected : string) (system_prompt : string)
    (sampling : json) (prompt : string) (session_messages : list json)
    : list json :=
  let session_messages :=
    (session_messages ++ [role_content "user" prompt])%list in
  let messages_with_system :=
    get_messages_with_system config (Some system_prompt) session_messages in
  let full_response :=
    match consume (chat_stream client net selected messages_with_system
                     [("options", sampling)]) with
    | Ok full_response => full_response
    | Raise _ => "Sorry, I encountered an error. Please try again."
    end in
  (session_messages ++ [role_content "assistant" full_response])%list.

Definition default_config : Config :=
  {| enable_auth := false; auth_password := None;
     max_message_history := 100; color_scheme := "blue" |}.

Definition locked_config : Config :=
  {| enable_auth := true; auth_password := Some "s3cret";
     max_message_history := 2; color_scheme := "teal" |}.

(* ================================================================= *)
(** ** Well-formed stores *)

(** the addresses of the message lists of the conversations of a store *)
Definition list_addresses (convs : dict Conversation) : list addr :=
  map (fun item => messages (snd item)) convs.

(** The keys of the store are distinct (it is a [dict]), every conversation
    has a message list of its own, and the lists were allocated. *)
Definition store_wf (s : SessionState) : Prop :=
  match conversations s with
  | Some convs =>
      NoDup (dict_keys convs)
      /\ NoDup (list_addresses convs)
      /\ Forall (fun a => a < next (lists s)) (list_addresses convs)
  | None => True
  end.

(** successive calls of [add_message], one for each message of [calls] *)
Fixpoint add_messages (calls : list Message)
    (conversation_id : option string) (s : SessionState)
    : result SessionState :=
  match calls with
  | [] => Ok s
  | m :: rest =>
      s' <- add_message (timestamp m) (message_id m) (role m) (content m)
              conversation_id s ;;
      add_messages rest conversation_id s'
  end.

(** [two_conversations] after a first message in the active conversation *)
Definition two_conversations_after : SessionState :=
  match add_message 120%Z "9f8e7d6c" "user" "a new chat" None
          two_conversations with
  | Ok s => s
  | Raise _ => two_conversations
  end.

(** the first stream answers in two fragments, the others are reset *)
Definition two_streams : nat -> transport :=
  fun i =>
    match i with
    | 0 => fun _ => Ok (streamed [chunk_of "Hello "; chunk_of "from a"] None)
    | _ => stream_reset
    end.

(* ================================================================= *)
(** * Properties of the inference client *)

Lemma raise_for_status_failure (response : Response) :
  raise_for_status response =
    match request_failure (Ok response) with
    | Some msg => Raise (RequestException msg)
    | None => Ok tt
    end.
Proof.
  unfold raise_for_status, request_failure.
  now destruct ((400 <=? status_code response) && (status_code response <? 600))%Z.
Qed.

Lemma map_result_names (items names : list json) :
  map model_name items = map Some names ->
  map_result (fun model => py_getitem model "name") items = Ok names.
Proof.
  revert names.
  induction items as [|item items IH]; intros [|name names] H;
    simpl in H; try discriminate; [reflexivity|].
  injection H as Hname Hrest.
  destruct item; simpl in Hname; try discriminate.
  cbn [map_result]. unfold py_getitem at 1. rewrite Hname.
  cbn [bind]. now rewrite (IH names Hrest).
Qed.

(** C4 (amended).  [list_models] returns the names of the listed models when
    the server answers with a model list whose entries have a name, and
    returns the empty list, without raising, when the request fails: when it
    raises a [RequestException] (connection failure, timeout), when the
    server answers with an error status, and when decoding the body raises a
    [RequestException]. *)
Theorem list_models_absorbs_request_failures :
  forall (self : OllamaClient) (net : transport),
    (forall msg,
        request_failure (net (tags_request self 10)) = Some msg ->
        list_models self net = Ok [])
    /\ (forall response msg,
           net (tags_request self 10) = Ok response ->
           request_failure (Ok response) = None ->
           json_body response = Raise (RequestException msg) ->
           list_models self net = Ok [])
    /\ (forall response fields items names,
           net (tags_request self 10) = Ok response ->
           request_failure (Ok response) = None ->
           json_body response = Ok (JObj fields) ->
           dict_get "models" fields = Some (JArr items) ->
           map model_name items = map Some names ->
           list_models self net = Ok names).
Proof.
  intros self net. unfold list_models. repeat split.
  - intros msg H. destruct (net (tags_request self 10)) as [response|e].
    + simpl. rewrite raise_for_status_failure, H. reflexivity.
    + simpl in H. destruct e; try discriminate. reflexivity.
  - intros response msg Hnet Hok Hbody. rewrite Hnet. simpl.
    rewrite raise_for_status_failure, Hok. simpl. rewrite Hbody. reflexivity.
  - intros response fields items names Hnet Hok Hbody Hmodels Hnames.
    rewrite Hnet. simpl. rewrite raise_for_status_failure, Hok. simpl.
    rewrite Hbody. simpl. rewrite Hmodels. simpl.
    rewrite (map_result_names _ _ Hnames). reflexivity.
Qed.

Lemma list_models_absorbs_request_failures_witness :
  list_models default_client connection_refused = Ok []
  /\ list_models default_client internal_server_error = Ok []
  /\ list_models default_client tags_two_models
     = Ok [JStr "llama2:7b"; JStr "mistral:7b"].
Proof.
  pose proof (list_models_absorbs_request_failures default_client
                connection_refused) as [Hdown _].
  pose proof (list_models_absorbs_request_failures default_client
                internal_server_error) as [Herror _].
  pose proof (list_models_absorbs_request_failures default_client
                tags_two_models) as [_ [_ Hnames]].
  split; [|split].
  - apply (Hdown "Connection refused"). reflexivity.
  - apply (Herror "500 Server Error: Internal Server Error"). reflexivity.
  - eapply Hnames; reflexivity.
Defined.

(** C4, as stated, fails: a well-formed answer whose model entry has no
    ["name"] makes [list_models] raise [KeyError]. *)
Lemma list_models_raises_on_nameless_entry :
  list_models default_client tags_nameless = Raise (KeyError "name")
  /\ ~ (forall net : transport,
          exists names, list_models default_client net = Ok names).
Proof.
  split; [reflexivity|].
  intros H. destruct (H tags_nameless) as [names Hnames]. discriminate Hnames.
Qed.

Lemma stream_chunk_ok (l : line) :
  chunk_ok l = true ->
  stream_chunk l = Ok match fragment_of l with
                      | fragment :: _ => Some fragment
                      | [] => None
                      end.
Proof.
  destruct l as [|chunk|raw]; [reflexivity| |discriminate].
  destruct chunk as [| | | | |fields]; try discriminate.
  unfold chunk_ok, stream_chunk, fragment_of, py_get, py_getitem.
  cbn [line_truthy json_loads bind].
  destruct (dict_get "message" fields) as [message|] eqn:Hmessage;
    [|reflexivity].
  destruct message as [| | | | |inner]; try discriminate.
  intros _. cbn [bind].
  destruct (dict_get "content" inner) as [c|] eqn:Hcontent; [|reflexivity].
  cbn [bind]. now destruct (truthy c).
Qed.

Lemma fragment_of_short (l : line) :
  fragment_of l = match fragment_of l with
                  | fragment :: _ => [fragment]
                  | [] => []
                  end.
Proof.
  destruct l as [|chunk|raw]; try reflexivity.
  destruct chunk as [| | | | |fields]; try reflexivity.
  simpl. destruct (dict_get "message" fields) as [[| | | | |inner]|];
    try reflexivity.
  destruct (dict_get "content" inner) as [c|]; [|reflexivity].
  now destruct (truthy c).
Qed.

Lemma stream_lines_ok (ls : list line) (body_end : option exn) :
  forallb chunk_ok ls = true ->
  stream_lines ls body_end =
    {| yielded := flat_map fragment_of ls; propagated := body_end |}.
Proof.
  induction ls as [|l ls IH]; [reflexivity|].
  cbn [forallb]. intros H. apply andb_prop in H as [Hl Hls].
  cbn [stream_lines flat_map]. rewrite (stream_chunk_ok l Hl), (IH Hls).
  rewrite (fragment_of_short l).
  now destruct (fragment_of l).
Qed.

(** C3 (amended).  When the only failures of the transport are request
    failures (the request raises a [RequestException], the server answers
    with an error status, or the body ends in a [RequestException] after
    some lines) and the lines of the body are well-formed chunks,
    [chat_stream] propagates no exception: it yields the fragments received
    before the failure, then, if there was a failure, the single fragment
    ["Error: <description>"], and ends. *)
Theorem chat_stream_absorbs_request_failures :
  forall (self : OllamaClient) (net : transport) (model : string)
         (messages : list json) (kwargs : dict json),
    request_level (net (chat_request self model messages true kwargs)) = true ->
    chat_stream self net model messages kwargs =
      {| yielded :=
           fragments_received
             (net (chat_request self model messages true kwargs))
           ++ match stream_failure
                      (net (chat_request self model messages true kwargs)) with
              | Some msg => [JStr ("Error: " ++ msg)]
              | None => []
              end;
         propagated := None |}.
Proof.
  intros self net model messages kwargs.
  unfold chat_stream.
  destruct (net (chat_request self model messages true kwargs))
    as [response|e]; cbn [bind request_level].
  - intros H. apply andb_prop in H as [Hlines Hend].
    rewrite raise_for_status_failure.
    unfold fragments_received, stream_failure.
    destruct (request_failure (Ok response)) as [msg|]; [reflexivity|].
    cbn [bind]. rewrite (stream_lines_ok _ _ Hlines).
    destruct (body_error response) as [[]|]; try discriminate;
      unfold stream_except; cbn [propagated yielded];
      [reflexivity | now rewrite app_nil_r].
  - destruct e; try discriminate. reflexivity.
Qed.

Lemma chat_stream_absorbs_request_failures_witness :
  chat_stream default_client stream_reset "llama2:7b" [] []
  = {| yielded := [JStr "Hel"; JStr "lo";
                   JStr "Error: Connection reset by peer"];
       propagated := None |}.
Proof.
  apply (chat_stream_absorbs_request_failures default_client stream_reset
           "llama2:7b" [] []).
  reflexivity.
Defined.

(** C3, as stated, fails: a malformed chunk (a line that is not JSON, or a
    chunk whose ["message"] is [null]) ends the stream with an exception
    that reaches the caller, and no ["Error: ..."] fragment is yielded. *)
Lemma chat_stream_raises_on_malformed_chunk :
  chat_stream default_client stream_garbled "llama2:7b" [] []
  = {| yielded := [JStr "Hel"];
       propagated :=
         Some (ValueError "Expecting value: line 1 column 1 (char 0)") |}
  /\ chat_stream default_client stream_null_message "llama2:7b" [] []
     = {| yielded := [JStr "Hel"];
          propagated :=
            Some (AttributeError "object has no attribute 'get'") |}
  /\ ~ (forall net : transport,
          propagated (chat_stream default_client net "llama2:7b" [] [])
          = None).
Proof.
  split; [reflexivity|]. split; [reflexivity|].
  intros H. specialize (H stream_garbled). discriminate H.
Qed.

(** C10.  [unload_model] and [keep_model_loaded] return [True] whenever the
    request completes, whatever the status code of the response, and return
    [False] exactly when the request raises a [RequestException]. *)
Theorem unload_and_keep_loaded_ignore_status :
  forall (self : OllamaClient) (net : transport) (model : string)
         (duration : Z),
    (forall response,
        net (generate_request self model 0) = Ok response ->
        unload_model self net model = Ok true)
    /\ (forall response,
           net (generate_request self model duration) = Ok response ->
           keep_model_loaded self net model duration = Ok true)
    /\ (unload_model self net model = Ok false <->
        exists msg,
          net (generate_request self model 0) = Raise (RequestException msg))
    /\ (keep_model_loaded self net model duration = Ok false <->
        exists msg,
          net (generate_request self model duration)
          = Raise (RequestException msg)).
Proof.
  intros self net model duration.
  unfold unload_model, keep_model_loaded.
  repeat split.
  - intros response H. now rewrite H.
  - intros response H. now rewrite H.
  - destruct (net (generate_request self model 0)) as [response|[]];
      cbn; intros H; try discriminate. now exists msg.
  - intros [msg H]. now rewrite H.
  - destruct (net (generate_request self model duration)) as [response|[]];
      cbn; intros H; try discriminate. now exists msg.
  - intros [msg H]. now rewrite H.
Qed.

Lemma unload_and_keep_loaded_ignore_status_witness :
  unload_model default_client internal_server_error "llama2:7b" = Ok true
  /\ keep_model_loaded default_client internal_server_error "llama2:7b" 3600
     = Ok true
  /\ unload_model default_client connection_refused "llama2:7b" = Ok false
  /\ keep_model_loaded default_client connection_refused "llama2:7b" 3600
     = Ok false.
Proof.
  pose proof (unload_and_keep_loaded_ignore_status default_client
                internal_server_error "llama2:7b" 3600) as [Hu [Hk _]].
  pose proof (unload_and_keep_loaded_ignore_status default_client
                connection_refused "llama2:7b" 3600) as [_ [_ [Hu' Hk']]].
  split; [|split; [|split]].
  - eapply Hu. reflexivity.
  - eapply Hk. reflexivity.
  - apply Hu'. exists "Connection refused". reflexivity.
  - apply Hk'. exists "Connection refused". reflexivity.
Defined.

(** *** Dictionaries *)

Section DictFacts.
Context {V : Type}.
Implicit Types (d : dict V) (k : string) (v : V).

Lemma dict_get_set_same k v d : dict_get k (dict_set k v d) = Some v.
Proof.
  induction d as [|[k' v'] d IH]; simpl.
  - now rewrite String.eqb_refl.
  - destruct (String.eqb k k') eqn:E; simpl; rewrite ?String.eqb_refl, ?E; auto.
Qed.

Lemma dict_get_set_other k k' v d :
  k <> k' -> dict_get k (dict_set k' v d) = dict_get k d.
Proof.
  intros Hne. apply String.eqb_neq in Hne.
  induction d as [|[k0 v0] d IH]; simpl.
  - now rewrite Hne.
  - destruct (String.eqb k' k0) eqn:E; simpl.
    + apply String.eqb_eq in E. subst k0. now rewrite Hne.
    + now rewrite IH.
Qed.

Lemma dict_keys_set k v d k' :
  In k' (dict_keys (dict_set k v d)) <-> k' = k \/ In k' (dict_keys d).
Proof.
  unfold dict_keys. induction d as [|[k0 v0] d IH]; simpl.
  - intuition.
  - destruct (String.eqb k k0) eqn:E; simpl.
    + apply String.eqb_eq in E. subst k0. intuition.
    + rewrite IH. intuition.
Qed.

Lemma dict_keys_set_NoDup k v d :
  NoDup (dict_keys d) -> NoDup (dict_keys (dict_set k v d)).
Proof.
  unfold dict_keys. induction d as [|[k0 v0] d IH]; simpl; intros Hd.
  - constructor; [intros []|constructor].
  - inversion Hd as [|? ? Hnotin Hrest]; subst.
    destruct (String.eqb k k0) eqn:E; simpl.
    + apply String.eqb_eq in E. subst k0. now constructor.
    + constructor; [|now apply IH].
      intros Hin. apply (dict_keys_set k v d k0) in Hin as [->|Hin].
      * now rewrite String.eqb_refl in E.
      * now apply Hnotin.
Qed.

Lemma dict_contains_keys k d : dict_contains k d = true <-> In k (dict_keys d).
Proof.
  unfold dict_contains, dict_keys. induction d as [|[k0 v0] d IH]; simpl.
  - split; [discriminate|intros []].
  - destruct (String.eqb k k0) eqn:E.
    + apply String.eqb_eq in E. subst k0. intuition.
    + apply String.eqb_neq in E. rewrite IH. intuition congruence.
Qed.

Lemma dict_set_length k v d : List.length d <= List.length (dict_set k v d).
Proof.
  induction d as [|[k0 v0] d IH]; simpl; [lia|].
  destruct (String.eqb k k0); simpl; lia.
Qed.

Lemma dict_del_length k d d' :
  dict_del k d = Some d' -> List.length d = S (List.length d').
Proof.
  revert d'. induction d as [|[k0 v0] d IH]; simpl; intros d' H;
    [discriminate|].
  destruct (String.eqb k k0).
  - now injection H as <-.
  - destruct (dict_del k d) as [d''|]; [|discriminate].
    injection H as <-. simpl. now rewrite (IH d'' eq_refl).
Qed.

Lemma dict_del_present k d :
  In k (dict_keys d) -> exists d', dict_del k d = Some d'.
Proof.
  unfold dict_keys. induction d as [|[k0 v0] d IH]; simpl; [intros []|].
  intros Hin. destruct (String.eqb k k0) eqn:E; [eauto|].
  apply String.eqb_neq in E.
  destruct Hin as [->|Hin]; [congruence|].
  destruct (IH Hin) as [d' ->]. eauto.
Qed.

Lemma dict_del_keeps k k' d d' :
  dict_del k d = Some d' -> k' <> k ->
  In k' (dict_keys d) -> In k' (dict_keys d').
Proof.
  unfold dict_keys. revert d'.
  induction d as [|[k0 v0] d IH]; simpl; intros d' H Hne Hin;
    [discriminate|].
  destruct (String.eqb k k0) eqn:E.
  - apply String.eqb_eq in E. subst k0. injection H as <-.
    destruct Hin as [->|Hin]; [congruence|assumption].
  - destruct (dict_del k d) as [d''|]; [|discriminate].
    injection H as <-. simpl.
    destruct Hin as [->|Hin]; [now left|right; now apply (IH d'')].
Qed.
End DictFacts.

(** *** [compare_models] *)

Lemma chat_entry (self : OllamaClient) (net : transport) (model : string)
    (messages : list json) (kwargs : dict json) :
  future_result (chat self net model messages kwargs)
  = expected_entry (net (chat_request self model messages false kwargs)).
Proof.
  unfold chat, expected_entry.
  destruct (net (chat_request self model messages false kwargs))
    as [response|e]; cbn [bind].
  - rewrite raise_for_status_failure.
    destruct (request_failure (Ok response)) as [msg|]; [reflexivity|].
    cbn [bind].
    destruct (data <- json_body response ;;
              message <- py_getitem data "message" ;;
              py_getitem message "content") as [text|e];
      [reflexivity|now destruct e].
  - now destruct e.
Qed.

Section CompareModels.
Variables (self : OllamaClient) (net : nat -> transport).
Variables (messages : list json) (kwargs : dict json).

(** the loop over the futures, for the models from position [start] on *)
Local Abbreviation collect start models responses :=
  (fold_left
     (fun acc fm => dict_set (snd fm) (future_result (fst fm)) acc)
     (map (fun im => (chat self (net (fst im)) (snd im) messages kwargs,
                      snd im))
          (enumerate_from start models))
     responses).

Lemma collect_absent models : forall start responses m,
  ~ In m models ->
  dict_get m (collect start models responses) = dict_get m responses.
Proof.
  induction models as [|m0 models IH]; intros start responses m Hnotin;
    [reflexivity|].
  cbn [enumerate_from map fold_left fst snd].
  rewrite IH by (intros Hin; apply Hnotin; now right).
  apply dict_get_set_other. intros ->. apply Hnotin. now left.
Qed.

Lemma collect_last models : forall start responses i m,
  nth_error models i = Some m ->
  (forall j, i < j -> nth_error models j <> Some m) ->
  dict_get m (collect start models responses)
  = Some (future_result (chat self (net (start + i)) m messages kwargs)).
Proof.
  induction models as [|m0 models IH]; intros start responses i m Hi Hlast.
  - now destruct i.
  - cbn [enumerate_from map fold_left fst snd].
    destruct i as [|i]; simpl in Hi.
    + injection Hi as ->. rewrite Nat.add_0_r.
      rewrite collect_absent; [apply dict_get_set_same|].
      intros Hin. apply In_nth_error in Hin as [j Hj].
      apply (Hlast (S j)); [lia|exact Hj].
    + rewrite (IH (S start) _ i m Hi).
      * now rewrite Nat.add_succ_r.
      * intros j Hj. apply (Hlast (S j)). lia.
Qed.

Lemma collect_keys models : forall start responses m,
  In m (dict_keys (collect start models responses))
  <-> In m models \/ In m (dict_keys responses).
Proof.
  induction models as [|m0 models IH]; intros start responses m.
  - simpl. intuition.
  - cbn [enumerate_from map fold_left fst snd].
    rewrite IH, dict_keys_set. simpl. intuition.
Qed.

Lemma collect_NoDup models : forall start responses,
  NoDup (dict_keys responses) ->
  NoDup (dict_keys (collect start models responses)).
Proof.
  induction models as [|m0 models IH]; intros start responses Hnodup;
    [exact Hnodup|].
  cbn [enumerate_from map fold_left fst snd].
  apply IH. now apply dict_keys_set_NoDup.
Qed.

(** C5.  For a non-empty list of models, [compare_models] returns a mapping
    whose keys are exactly the requested models, each once.  The entry of a
    model is decided by its own call alone: it is the text of the answer
    when the call succeeds and the string ["Error: ..."] of its own failure
    when it fails, whatever the other calls do.  (If a model is requested
    more than once, its entry comes from its last call.) *)
Theorem compare_models_isolates_failures :
  forall models : list string,
    models <> [] ->
    exists responses,
      compare_models self net models messages kwargs = Ok responses
      /\ NoDup (dict_keys responses)
      /\ (forall m, In m (dict_keys responses) <-> In m models)
      /\ (forall i m,
             nth_error models i = Some m ->
             (forall j, i < j -> nth_error models j <> Some m) ->
             dict_get m responses
             = Some (expected_entry
                       (net i (chat_request self m messages false kwargs)))).
Proof.
  intros models Hne.
  exists (collect 0 models []).
  split; [|split; [|split]].
  - unfold compare_models. now destruct models.
  - apply collect_NoDup. constructor.
  - intros m. rewrite collect_keys. simpl. intuition.
  - intros i m Hi Hlast.
    rewrite (collect_last models 0 [] i m Hi Hlast).
    now rewrite chat_entry.
Qed.
End CompareModels.

Lemma compare_models_isolates_failures_witness :
  ["a"; "b"] <> []
  /\ exists responses,
       compare_models default_client a_answers_b_fails ["a"; "b"] [] []
       = Ok responses
       /\ NoDup (dict_keys responses)
       /\ (forall m, In m (dict_keys responses) <-> In m ["a"; "b"])
       /\ (forall i m,
              nth_error ["a"; "b"] i = Some m ->
              (forall j, i < j -> nth_error ["a"; "b"] j <> Some m) ->
              dict_get m responses
              = Some (expected_entry
                        (a_answers_b_fails i
                           (chat_request default_client m [] false [])))).
Proof.
  split; [discriminate|].
  apply (compare_models_isolates_failures default_client a_answers_b_fails
           [] [] ["a"; "b"]).
  discriminate.
Defined.

(** the test of the specification: "a" succeeds, "b" fails *)
Example compare_models_a_succeeds_b_fails :
  compare_models default_client a_answers_b_fails ["a"; "b"] [] []
  = Ok [("a", JStr "Hello from a"); ("b", JStr "Error: Connection aborted")].
Proof. reflexivity. Qed.

(** *** [chat_with_metrics] *)













(** an eval duration of 0 gives 0 tokens per second *)
Example tokens_per_second_of_no_time :
  chat_with_metrics default_client answers_at_once 10 13 "llama2:7b" [] []
  = Ok (JStr "",
        MetricsOk {| response_time := PyFloat 3;
                     metrics_model := "llama2:7b";
                     prompt_eval_count := JNum (PyInt 5);
                     eval_count := JNum (PyInt 0);
                     total_duration := PyFloat 1;
                     load_duration := PyFloat 1;
                     prompt_eval_duration := PyFloat 0;
                     eval_duration := PyFloat 0;
                     tokens_per_second := PyInt 0 |}).
Proof. reflexivity. Qed.

(** an eval duration of one nanosecond is divided by: 1e-9 is not zero *)
Example tokens_per_second_of_one_nanosecond :
  tokens_per_second_of (JObj [("eval_count", JNum (PyInt 1));
                              ("eval_duration", JNum (PyInt 1))])
  = Ok (PyFloat (1 / (1 / 1e9))%float).
Proof. reflexivity. Qed.

(** an [int] duration too large for a double makes the conversion raise
    [OverflowError], which [chat_with_metrics] does not catch *)
Example chat_with_metrics_overflows :
  chat_with_metrics default_client
    (fun _ => Ok (http_response 200 "OK" (Ok (answer "Fine." 100 (2 ^ 1024)))))
    10 13 "llama2:7b" [] []
  = Raise (OverflowError "int too large to convert to float").
Proof. reflexivity. Qed.

(** *** [benchmark_model] *)

Lemma successes_app (xs ys : list (result (json * metrics_dict))) :
  successes (xs ++ ys) = (successes xs ++ successes ys)%list.
Proof. unfold successes. apply flat_map_app. Qed.

Lemma benchmark_loop_successes (self : OllamaClient) (net : nat -> transport)
    (clock : nat -> float * float) (model : string) (messages : list json) :
  forall (n i : nat) (metrics_list : list Metrics),
    let calls :=
      map (fun i =>
             chat_with_metrics self (net i) (fst (clock i)) (snd (clock i))
               model messages benchmark_kwargs)
          (seq i n) in
    forallb (fun call => negb (raised call)) calls = true ->
    benchmark_loop self net clock model messages i n metrics_list
    = Ok (metrics_list ++ successes calls)%list.
Proof.
  induction n as [|n IH]; intros i metrics_list calls Hcalls.
  - simpl. now rewrite app_nil_r.
  - subst calls. cbn [seq map forallb] in Hcalls.
    apply andb_prop in Hcalls as [Hcall Hrest].
    cbn [benchmark_loop seq map].
    destruct (chat_with_metrics self (net i) (fst (clock i)) (snd (clock i))
                model messages benchmark_kwargs) as [[text metrics]|e];
      [|discriminate].
    cbn [bind snd]. rewrite (IH (S i) _ Hrest).
    change (Ok (text, metrics) :: ?l) with ([Ok (text, metrics)] ++ l)%list.
    rewrite successes_app.
    destruct metrics; simpl; [now rewrite <- app_assoc|reflexivity].
Qed.

Lemma sum_of_first_app (xs ys : list number) :
  forall k : nat,
    k <= List.length xs ->
    sum_of_first k (xs ++ ys) = sum_of_first k xs.
Proof.
  induction k as [|k IH]; intros Hk; [reflexivity|].
  cbn [sum_of_first].
  rewrite nth_error_app1 by lia. rewrite IH by lia. reflexivity.
Qed.

(** [sum] adds the items in the order of the list *)
Lemma py_sum_sum_of_first (xs : list number) :
  py_sum xs = sum_of_first (List.length xs) xs.
Proof.
  induction xs as [|x xs IH] using rev_ind; [reflexivity|].
  unfold py_sum in *. rewrite fold_left_app. cbn [fold_left].
  rewrite IH, length_app, Nat.add_1_r. cbn [sum_of_first].
  rewrite nth_error_app2 by lia. rewrite Nat.sub_diag. cbn [nth_error].
  now rewrite sum_of_first_app by lia.
Qed.

Lemma average_mean (key : Metrics -> number) (metrics_list : list Metrics) :
  average key metrics_list = mean key metrics_list.
Proof.
  unfold average, mean. now rewrite py_sum_sum_of_first, length_map.
Qed.

(** C2, as stated, fails: a call that is answered without a ["message"]
    fails with a [KeyError], which [chat_with_metrics] does not catch, and
    the benchmark returns neither averages over the calls that succeeded nor
    the error marker: it raises. *)
Lemma benchmark_model_raises_on_malformed_answer :
  successes (benchmark_calls default_client second_call_malformed wall_clock
               "llama2:7b" "Hello, how are you?" 3) <> []
  /\ benchmark_model default_client second_call_malformed wall_clock
       "llama2:7b" "Hello, how are you?" 3
     = Raise (KeyError "message")
  /\ successes (benchmark_calls default_client (fun _ => answers_without_message)
                  wall_clock "llama2:7b" "Hello, how are you?" 3) = []
  /\ benchmark_model default_client (fun _ => answers_without_message)
       wall_clock "llama2:7b" "Hello, how are you?" 3
     = Raise (KeyError "message")
  /\ ~ (forall net : nat -> transport,
          exists r : benchmark_result,
            benchmark_model default_client net wall_clock "llama2:7b"
              "Hello, how are you?" 3 = Ok r).
Proof.
  split; [discriminate|]. split; [reflexivity|].
  split; [reflexivity|]. split; [reflexivity|].
  intros H. destruct (H second_call_malformed) as [r Hr]. discriminate Hr.
Qed.

(** C2.  When every call of the benchmark returns (a call that fails by a
    request failure returns the error marker), [benchmark_model] answers
    from the successful iterations alone: if there is none, the error marker
    ["All benchmark attempts failed"]; otherwise [iterations] is the number
    of successful iterations and each average is the sum of the metric over
    the successful iterations, in their order, divided by that number. *)
Theorem benchmark_model_averages_successes :
  forall (self : OllamaClient) (net : nat -> transport)
         (clock : nat -> float * float)
         (model test_prompt : string) (n : nat),
    forallb (fun call => negb (raised call))
            (benchmark_calls self net clock model test_prompt n) = true ->
    benchmark_model self net clock model test_prompt n
    = match successes
              (benchmark_calls self net clock model test_prompt n) with
      | [] => Ok (BenchmarkError "All benchmark attempts failed")
      | succeeded => averages_over model succeeded
      end.
Proof.
  intros self net clock model test_prompt n Hcalls.
  unfold benchmark_model.
  rewrite (benchmark_loop_successes self net clock model _ n 0 [] Hcalls).
  cbn [bind app]. fold (benchmark_calls self net clock model test_prompt n).
  destruct (successes (benchmark_calls self net clock model test_prompt n))
    as [|m rest] eqn:Hs; [reflexivity|].
  unfold averages_over. now rewrite !average_mean.
Qed.

Lemma benchmark_model_averages_successes_witness :
  benchmark_model default_client second_call_fails wall_clock "llama2:7b"
    "Hello, how are you?" 3
  = match successes
            (benchmark_calls default_client second_call_fails wall_clock
               "llama2:7b" "Hello, how are you?" 3) with
    | [] => Ok (BenchmarkError "All benchmark attempts failed")
    | succeeded => averages_over "llama2:7b" succeeded
    end.
Proof.
  apply (benchmark_model_averages_successes default_client second_call_fails
           wall_clock "llama2:7b" "Hello, how are you?" 3).
  reflexivity.
Defined.

(** the test of the specification: 1 of 3 calls fails, the averages are over
    the 2 others (response times 3 and 5, 50 and 150 tokens per second) *)
Example benchmark_one_of_three_fails :
  List.length
    (successes (benchmark_calls default_client second_call_fails wall_clock
                  "llama2:7b" "Hello, how are you?" 3)) = 2
  /\ benchmark_model default_client second_call_fails wall_clock "llama2:7b"
       "Hello, how are you?" 3
     = Ok (BenchmarkAverages "llama2:7b" 2
             (PyFloat 4) (PyFloat 100) (PyFloat 3) (PyFloat 2)).
Proof. split; reflexivity. Qed.

Example benchmark_all_fail :
  benchmark_model default_client (fun _ => connection_refused) wall_clock
    "llama2:7b" "Hello, how are you?" 3
  = Ok (BenchmarkError "All benchmark attempts failed").
Proof. reflexivity. Qed.

(* ================================================================= *)
(** * Properties of the conversation store *)

(** *** The store is never empty and the active conversation is in it *)

Lemma store_ok_spec (s : SessionState) :
  store_ok s = true <->
  exists convs active,
    conversations s = Some convs
    /\ active_conversation s = Some active
    /\ convs <> []
    /\ In active (dict_keys convs).
Proof.
  unfold store_ok. split.
  - destruct (conversations s) as [convs|]; [|discriminate].
    destruct (active_conversation s) as [active|]; [|discriminate].
    intros H. apply andb_prop in H as [Hlen Hin].
    exists convs, active. repeat split.
    + intros ->. discriminate Hlen.
    + now apply dict_contains_keys.
  - intros (convs & active & -> & -> & Hne & Hin).
    apply andb_true_intro. split.
    + destruct convs; [contradiction|reflexivity].
    + now apply dict_contains_keys.
Qed.

Lemma init_conversation_state_ok (t : time) (s : SessionState) :
  store_ok (init_conversation_state t s) = true.
Proof.
  unfold init_conversation_state.
  set (convs := match conversations s with Some c => c | None => [] end).
  set (active := match active_conversation s with
                 | Some a => a
                 | None => "default"
                 end).
  destruct (dict_contains active convs) eqn:Hin.
  - apply store_ok_spec. exists convs, active. repeat split.
    + intros Hnil. rewrite Hnil in Hin. discriminate Hin.
    + now apply dict_contains_keys.
  - simpl. apply store_ok_spec. eexists _, active. repeat split.
    + intros Hnil. apply (f_equal (dict_get active)) in Hnil.
      rewrite dict_get_set_same in Hnil. discriminate Hnil.
    + apply dict_keys_set. now left.
Qed.

Lemma new_conversation_ok (t : time) (new_id : string) (s : SessionState) :
  store_ok s = true ->
  exists s', new_conversation t new_id s = Ok s' /\ store_ok s' = true.
Proof.
  intros Hok. apply store_ok_spec in Hok as (convs & active & Hc & _ & _ & _).
  unfold new_conversation, session_conversations. rewrite Hc. simpl.
  eexists. split; [reflexivity|].
  apply store_ok_spec. eexists _, new_id. repeat split.
  - intros Hnil. apply (f_equal (dict_get new_id)) in Hnil.
    rewrite dict_get_set_same in Hnil. discriminate Hnil.
  - apply dict_keys_set. now left.
Qed.

(** The delete button: with one conversation nothing is done; with more the
    conversation goes and the active one is in what remains. *)
Lemma delete_conversation_ok (conv_id : string) (s : SessionState)
    (convs : dict Conversation) :
  store_ok s = true ->
  conversations s = Some convs ->
  In conv_id (dict_keys convs) ->
  (List.length convs = 1 -> delete_conversation conv_id s = Ok None)
  /\ (1 < List.length convs ->
      exists s' convs' active',
        delete_conversation conv_id s = Ok (Some s')
        /\ store_ok s' = true
        /\ conversations s' = Some convs'
        /\ dict_del conv_id convs = Some convs'
        /\ active_conversation s' = Some active'
        /\ In active' (dict_keys convs')
        /\ (active_conversation s = Some conv_id ->
            Some active' = hd_error (dict_keys convs'))).
Proof.
  intros Hok Hc Hin.
  apply store_ok_spec in Hok as (convs0 & active & Hc0 & Ha & Hne & Hactive).
  rewrite Hc in Hc0. injection Hc0 as <-.
  unfold delete_conversation, session_conversations, session_active.
  rewrite Hc, Ha. cbn [bind]. split.
  - intros ->. reflexivity.
  - intros Hlen. apply Nat.ltb_lt in Hlen as Hlt. rewrite Hlt.
    destruct (dict_del_present conv_id convs Hin) as [convs' Hdel].
    rewrite Hdel. cbn [bind].
    pose proof (dict_del_length _ _ _ Hdel) as Hlen'.
    assert (Hfirst : exists first rest, dict_keys convs' = first :: rest).
    { destruct convs' as [|[k c] convs']; [simpl in Hlen'; lia|].
      simpl. eauto. }
    destruct Hfirst as (first & rest & Hkeys).
    assert (Hactive' :
              exists active',
                (if String.eqb conv_id active then
                   match dict_keys convs' with
                   | first :: _ => Ok first
                   | [] => Raise (IndexError "list index out of range")
                   end
                 else Ok active) = Ok active'
                /\ In active' (dict_keys convs')
                /\ (Some active = Some conv_id ->
                    Some active' = hd_error (dict_keys convs'))).
    { destruct (String.eqb conv_id active) eqn:E.
      - rewrite Hkeys. exists first. repeat split. now left.
      - apply String.eqb_neq in E. exists active. repeat split.
        + apply (dict_del_keeps conv_id active convs convs' Hdel);
            [congruence|assumption].
        + intros [= ->]. contradiction. }
    destruct Hactive' as (active' & -> & Hin' & Hhd). cbn [bind].
    eexists _, convs', active'. repeat split; try assumption.
    apply store_ok_spec. exists convs', active'. repeat split; try assumption.
    intros ->. discriminate Hkeys.
Qed.

Lemma insert_by_last_modified_In (x y : string * Conversation)
    (l : list (string * Conversation)) :
  In y (insert_by_last_modified x l) -> y = x \/ In y l.
Proof.
  induction l as [|z l IH]; simpl.
  - intuition.
  - destruct (last_modified (snd x) <? last_modified (snd z))%Z; simpl;
      intuition.
Qed.

Lemma sorted_by_last_modified_In (y : string * Conversation)
    (items : list (string * Conversation)) :
  In y (sorted_by_last_modified items) -> In y items.
Proof.
  induction items as [|x items IH]; simpl; [auto|].
  intros H. apply insert_by_last_modified_In in H as [->|H]; auto.
Qed.

Lemma firstn_In {A : Type} (n : nat) (l : list A) (x : A) :
  In x (firstn n l) -> In x l.
Proof.
  revert l. induction n as [|n IH]; intros [|y l]; simpl; try tauto.
  intros [->|H]; auto.
Qed.

(** every displayed conversation is in the store *)
Lemma conversations_to_show_in_store (search : string)
    (convs : dict Conversation) (cc : string * Conversation) :
  In cc (conversations_to_show search convs) -> In (fst cc) (dict_keys convs).
Proof.
  unfold conversations_to_show. intros H. apply firstn_In in H.
  apply in_map.
  destruct (negb (search =? "")%string).
  - apply filter_In in H as [H _]. now apply sorted_by_last_modified_In.
  - now apply sorted_by_last_modified_In.
Qed.

Lemma conversation_rows_ok (c : click)
    (shown : list (string * Conversation)) :
  forall (s : SessionState) (convs : dict Conversation),
    store_ok s = true ->
    conversations s = Some convs ->
    (forall cc, In cc shown -> In (fst cc) (dict_keys convs)) ->
    exists s', conversation_rows c shown s = Ok s' /\ store_ok s' = true.
Proof.
  induction shown as [|[conv_id conv_data] rest IH];
    intros s convs Hok Hc Hshown.
  - exists s. now split.
  - pose proof Hok as Hok'.
    apply store_ok_spec in Hok' as (convs0 & active & Hc0 & Ha & Hne & Hin).
    rewrite Hc in Hc0. injection Hc0 as <-.
    assert (Hid : In conv_id (dict_keys convs))
      by (apply (Hshown (conv_id, conv_data)); now left).
    assert (Hrest : forall cc, In cc rest -> In (fst cc) (dict_keys convs))
      by (intros cc Hcc; apply Hshown; now right).
    cbn [conversation_rows]. unfold session_active at 1. rewrite Ha.
    cbn [bind].
    destruct (negb (conv_id =? active)%string && select_clicked c conv_id).
    + eexists. split; [reflexivity|].
      apply store_ok_spec. exists convs, conv_id. now repeat split.
    + destruct (delete_clicked c conv_id); [|now apply (IH s convs)].
      destruct (delete_conversation_ok conv_id s convs Hok Hc Hid)
        as [Hone Hmore].
      destruct (Nat.lt_ge_cases 1 (List.length convs)) as [Hlt|Hge].
      * destruct (Hmore Hlt) as (s' & convs' & active' & -> & Hok' & _).
        cbn [bind]. now exists s'.
      * assert (Hlen : List.length convs = 1).
        { destruct convs as [|x [|y convs]]; simpl in *;
            [contradiction|reflexivity|lia]. }
        rewrite (Hone Hlen). cbn [bind]. now apply (IH s convs).
Qed.

Lemma script_run_ok (i : interaction) (s : SessionState) :
  exists s', script_run i s = Ok s' /\ store_ok s' = true.
Proof.
  unfold script_run.
  pose proof (init_conversation_state_ok (now i) s) as Hok.
  set (s0 := init_conversation_state (now i) s) in *.
  pose proof Hok as Hok'.
  apply store_ok_spec in Hok' as (convs & active & Hc & _).
  assert (Hrows :
            exists s',
              (convs <- session_conversations s0 ;;
               conversation_rows (clicked i)
                 (conversations_to_show (search_conv i) convs) s0) = Ok s'
              /\ store_ok s' = true).
  { unfold session_conversations. rewrite Hc. cbn [bind].
    apply (conversation_rows_ok _ _ s0 convs Hok Hc).
    intros cc. apply conversations_to_show_in_store. }
  destruct (clicked i); try exact Hrows.
  now apply new_conversation_ok.
Qed.

Lemma session_ok (runs : list interaction) :
  forall s : SessionState,
    store_ok s = true ->
    exists s', session runs s = Ok s' /\ store_ok s' = true.
Proof.
  induction runs as [|i runs IH]; intros s Hok.
  - exists s. now split.
  - cbn [session]. destruct (script_run_ok i s) as (s1 & -> & Hok1).
    cbn [bind]. now apply IH.
Qed.

(** C1.  From any session state, the empty one included, every sequence of
    runs of the script with "new conversation", "select" and "delete"
    clicks ends, without an exception, in a state whose store is not empty
    and whose active conversation is in the store.  In such a state the
    delete button does nothing when the conversation is the only one; when
    there are more it removes the conversation and the active conversation
    is one of those that remain: when the deleted conversation was the
    active one, the first of them. *)
Theorem store_never_empty_and_active_valid :
  (forall (s : SessionState) (first : interaction) (rest : list interaction),
      exists s', session (first :: rest) s = Ok s' /\ store_ok s' = true)
  /\ (forall (conv_id : string) (s : SessionState)
             (convs : dict Conversation),
         store_ok s = true ->
         conversations s = Some convs ->
         In conv_id (dict_keys convs) ->
         (List.length convs = 1 -> delete_conversation conv_id s = Ok None)
         /\ (1 < List.length convs ->
             exists s' convs' active',
               delete_conversation conv_id s = Ok (Some s')
               /\ store_ok s' = true
               /\ conversations s' = Some convs'
               /\ dict_del conv_id convs = Some convs'
               /\ active_conversation s' = Some active'
               /\ In active' (dict_keys convs')
               /\ (active_conversation s = Some conv_id ->
                   Some active' = hd_error (dict_keys convs')))).
Proof.
  split.
  - intros s first rest. cbn [session].
    destruct (script_run_ok first s) as (s1 & -> & Hok1).
    cbn [bind]. now apply session_ok.
  - exact delete_conversation_ok.
Qed.

Lemma store_never_empty_and_active_valid_witness :
  (exists s' convs' active',
      delete_conversation "chat_20240101_120000" two_conversations
      = Ok (Some s')
      /\ store_ok s' = true
      /\ conversations s' = Some convs'
      /\ dict_del "chat_20240101_120000"
           [("default",
             {| messages := 0; created_at := 100%Z; last_modified := 105%Z;
                title := "hello" |});
            ("chat_20240101_120000",
             {| messages := 1; created_at := 110%Z; last_modified := 110%Z;
                title := "New Chat" |})]
         = Some convs'
      /\ active_conversation s' = Some active'
      /\ In active' (dict_keys convs')
      /\ (active_conversation two_conversations
          = Some "chat_20240101_120000" ->
          Some active' = hd_error (dict_keys convs')))
  /\ delete_conversation "default" fresh_session = Ok None.
Proof.
  destruct store_never_empty_and_active_valid as [_ H].
  split.
  - refine (proj2 (H "chat_20240101_120000" two_conversations _
                     eq_refl eq_refl _) _).
    + right. left. reflexivity.
    + simpl. lia.
  - refine (proj1 (H "default" fresh_session _ eq_refl eq_refl _) eq_refl).
    left. reflexivity.
Defined.

(** deleting the active conversation makes the first remaining one active;
    deleting the only conversation is refused *)
Example delete_active_then_sole :
  session
    [{| now := 120%Z; search_conv := "";
        clicked := DeleteConversation "chat_20240101_120000" |};
     {| now := 121%Z; search_conv := "";
        clicked := DeleteConversation "default" |}]
    two_conversations
  = Ok {| conversations :=
            Some [("default",
                   {| messages := 0; created_at := 100%Z;
                      last_modified := 105%Z; title := "hello" |})];
          active_conversation := Some "default";
          lists := lists two_conversations |}.
Proof. reflexivity. Qed.

(** *** Messages, titles and truncation *)

Lemma deref_heap_store (a : addr) (l : list Message) (h : heap) :
  deref (heap_store a l h) a = l.
Proof. unfold deref, heap_store. simpl. now rewrite Nat.eqb_refl. Qed.

Lemma deref_heap_append (a : addr) (m : Message) (h : heap) :
  deref (heap_append a m h) a = (deref h a ++ [m])%list.
Proof. apply deref_heap_store. Qed.

Lemma deref_alloc (l : list Message) (h : heap) :
  deref (snd (alloc l h)) (fst (alloc l h)) = l.
Proof. unfold deref, alloc. simpl. now rewrite Nat.eqb_refl. Qed.

Lemma slice_to_length (n : nat) (s : string) :
  String.length (slice_to n s) = Nat.min n (String.length s).
Proof.
  unfold slice_to. revert s.
  induction n as [|n IH]; intros [|c s]; simpl; auto.
Qed.

Lemma slice_to_prefix (n : nat) (s : string) :
  exists rest : string, s = slice_to n s ++ rest.
Proof.
  unfold slice_to. revert s.
  induction n as [|n IH]; intros [|c s]; simpl.
  - now exists "".
  - now exists (String c s).
  - now exists "".
  - destruct (IH s) as [rest Hrest]. exists rest. now rewrite <- Hrest.
Qed.

(** what [add_message] does to the conversation it is given *)
Lemma add_message_effect (t : time) (digest r c : string)
    (conversation_id : option string) (cid : string) (s : SessionState)
    (convs : dict Conversation) (conv : Conversation) :
  match conversation_id with
  | Some given => Ok given
  | None => session_active s
  end = Ok cid ->
  conversations s = Some convs ->
  dict_get cid convs = Some conv ->
  let message := {| role := r; content := c; timestamp := t;
                    message_id := digest |} in
  let before := deref (lists s) (messages conv) in
  add_message t digest r c conversation_id s
  = Ok {| conversations :=
            Some (dict_set cid
                    {| messages := messages conv;
                       created_at := created_at conv;
                       last_modified := t;
                       title := match before with
                                | [] => derive_title c
                                | _ :: _ => title conv
                                end |}
                    convs);
          active_conversation := active_conversation s;
          lists := heap_append (messages conv) message (lists s) |}.
Proof.
  intros Hcid Hc Hconv message before.
  unfold add_message, session_conversations, dict_index.
  rewrite Hcid, Hc. cbn [bind]. rewrite Hconv. cbn [bind].
  rewrite deref_heap_append. fold before.
  rewrite length_app. cbn [List.length].
  destruct before as [|m0 before']; [reflexivity|].
  cbn [List.length].
  replace (S (List.length before') + 1 =? 1) with false; [reflexivity|].
  symmetry. apply Nat.eqb_neq. lia.
Qed.

(** C7.  [add_message] on a conversation without messages sets the title
    to the content when the content has at most 50 characters and to its
    first 50 characters followed by ["..."] when it is longer; on a
    conversation that has messages it leaves the title as it is. *)
Theorem title_derived_from_first_message :
  forall (t : time) (digest r c : string) (conversation_id : option string)
         (cid : string) (s : SessionState) (convs : dict Conversation)
         (conv : Conversation),
    match conversation_id with
    | Some given => Ok given
    | None => session_active s
    end = Ok cid ->
    conversations s = Some convs ->
    dict_get cid convs = Some conv ->
    exists s' convs' conv',
      add_message t digest r c conversation_id s = Ok s'
      /\ conversations s' = Some convs'
      /\ dict_get cid convs' = Some conv'
      /\ (deref (lists s) (messages conv) = [] ->
          50 < String.length c ->
          title conv' = slice_to 50 c ++ "..."
          /\ String.length (slice_to 50 c) = 50
          /\ exists rest, c = slice_to 50 c ++ rest)
      /\ (deref (lists s) (messages conv) = [] ->
          String.length c <= 50 ->
          title conv' = c)
      /\ (deref (lists s) (messages conv) <> [] ->
          title conv' = title conv).
Proof.
  intros t digest r c conversation_id cid s convs conv Hcid Hc Hconv.
  rewrite (add_message_effect t digest r c conversation_id cid s convs conv
             Hcid Hc Hconv).
  eexists _, _, _. split; [reflexivity|].
  split; [reflexivity|].
  split; [apply dict_get_set_same|].
  cbn [title]. unfold derive_title. split; [|split].
  - intros Hempty Hlong. rewrite Hempty. split; [|split].
    + apply Nat.ltb_lt in Hlong. now rewrite Hlong.
    + rewrite slice_to_length. lia.
    + apply slice_to_prefix.
  - intros Hempty Hshort. rewrite Hempty.
    replace (50 <? String.length c) with false; [reflexivity|].
    symmetry. apply Nat.ltb_ge. exact Hshort.
  - intros Hsome. now destruct (deref (lists s) (messages conv)).
Qed.

Lemma title_derived_from_first_message_witness :
  exists s' convs' conv',
    add_message 101%Z "0a1b2c3d" "user" eighty_characters None fresh_session
    = Ok s'
    /\ conversations s' = Some convs'
    /\ dict_get "default" convs' = Some conv'
    /\ (deref (lists fresh_session) 0 = [] ->
        50 < String.length eighty_characters ->
        title conv' = slice_to 50 eighty_characters ++ "..."
        /\ String.length (slice_to 50 eighty_characters) = 50
        /\ exists rest, eighty_characters = slice_to 50 eighty_characters ++ rest)
    /\ (deref (lists fresh_session) 0 = [] ->
        String.length eighty_characters <= 50 ->
        title conv' = eighty_characters)
    /\ (deref (lists fresh_session) 0 <> [] -> title conv' = "New Chat").
Proof.
  apply (title_derived_from_first_message 101%Z "0a1b2c3d" "user"
           eighty_characters None "default" fresh_session
           [("default",
             {| messages := 0; created_at := 100%Z; last_modified := 100%Z;
                title := "New Chat" |})]
           {| messages := 0; created_at := 100%Z; last_modified := 100%Z;
              title := "New Chat" |});
    reflexivity.
Defined.

(** the tests of the specification: 80 characters, then a later message;
    30 characters *)
Example title_of_eighty_characters :
  (s1 <- add_message 101%Z "0a1b2c3d" "user" eighty_characters None
           fresh_session ;;
   s2 <- add_message 102%Z "4e5f6a7b" "assistant" "A long line." None s1 ;;
   t1 <- active_title s1 ;;
   t2 <- active_title s2 ;;
   Ok (t1, t2))
  = Ok ("01234567890123456789012345678901234567890123456789...",
        "01234567890123456789012345678901234567890123456789...").
Proof. reflexivity. Qed.

Example title_of_thirty_characters :
  (s1 <- add_message 101%Z "0a1b2c3d" "user"
           "thirty characters, no more 123" None fresh_session ;;
   active_title s1)
  = Ok "thirty characters, no more 123".
Proof. reflexivity. Qed.

Lemma active_messages_inv (s : SessionState) (l : list Message) :
  active_messages s = Ok l ->
  exists active convs conv,
    active_conversation s = Some active
    /\ conversations s = Some convs
    /\ dict_get active convs = Some conv
    /\ l = deref (lists s) (messages conv).
Proof.
  unfold active_messages, session_active, session_conversations, dict_index.
  destruct (active_conversation s) as [active|]; [|discriminate].
  destruct (conversations s) as [convs|]; [|discriminate].
  cbn [bind].
  destruct (dict_get active convs) as [conv|] eqn:Hconv; [|discriminate].
  cbn [bind]. intros [= <-]. exists active, convs, conv. auto.
Qed.

(** C9.  Truncating the active conversation at an index [k] that does not
    exceed its number of messages leaves exactly its first [k] messages;
    adding one assistant message afterwards gives exactly [k + 1] messages:
    the first [k] of before and the new one, nothing of the old tail. *)
Theorem truncate_then_append :
  forall (s : SessionState) (before : list Message) (k : nat)
         (t : time) (digest c : string),
    active_messages s = Ok before ->
    k <= List.length before ->
    exists s1 s2,
      truncate_messages k s = Ok s1
      /\ active_messages s1 = Ok (firstn k before)
      /\ List.length (firstn k before) = k
      /\ add_message t digest "assistant" c None s1 = Ok s2
      /\ active_messages s2
         = Ok (firstn k before
               ++ [{| role := "assistant"; content := c; timestamp := t;
                      message_id := digest |}])%list
      /\ List.length
           (firstn k before
            ++ [{| role := "assistant"; content := c; timestamp := t;
                   message_id := digest |}])%list = k + 1.
Proof.
  intros s before k t digest c Hbefore Hk.
  apply active_messages_inv in Hbefore
    as (active & convs & conv & Ha & Hc & Hconv & ->).
  unfold truncate_messages, session_active, session_conversations, dict_index.
  rewrite Ha, Hc. cbn [bind]. rewrite Hconv. cbn [bind].
  set (kept := firstn k (deref (lists s) (messages conv))).
  set (conv1 := {| messages := next (lists s);
                   created_at := created_at conv;
                   last_modified := last_modified conv;
                   title := title conv |}).
  cbn [alloc].
  set (s1 := {| conversations := Some (dict_set active conv1 convs);
                active_conversation := Some active;
                lists := {| cells := (next (lists s), kept) :: cells (lists s);
                            next := S (next (lists s)) |} |}).
  assert (Hkept : deref (lists s1) (messages conv1) = kept).
  { unfold deref. simpl. now rewrite Nat.eqb_refl. }
  assert (Hlen : List.length kept = k) by (now apply firstn_length_le).
  assert (Hcid : session_active s1 = Ok active) by reflexivity.
  pose proof (add_message_effect t digest "assistant" c None active s1
                (dict_set active conv1 convs) conv1 Hcid eq_refl
                (dict_get_set_same active conv1 convs)) as Hadd.
  cbv zeta in Hadd.
  eexists s1, _. split; [reflexivity|].
  split; [|split; [exact Hlen|split; [exact Hadd|split]]].
  - unfold active_messages, session_conversations, dict_index.
    rewrite Hcid. cbn [bind conversations s1].
    rewrite dict_get_set_same. cbn [bind]. now rewrite Hkept.
  - unfold active_messages, session_active, session_conversations, dict_index.
    cbn [active_conversation conversations lists s1].
    cbn [bind]. rewrite dict_get_set_same. cbn [bind messages].
    rewrite deref_heap_append. f_equal. f_equal. exact Hkept.
  - rewrite length_app, Hlen. reflexivity.
Qed.

Lemma truncate_then_append_witness :
  exists s1 s2,
    truncate_messages 1 four_messages = Ok s1
    /\ active_messages s1
       = Ok (firstn 1 (deref (lists four_messages) 0))
    /\ List.length (firstn 1 (deref (lists four_messages) 0)) = 1
    /\ add_message 120%Z "9f8e7d6c" "assistant" "Hello again." None s1 = Ok s2
    /\ active_messages s2
       = Ok (firstn 1 (deref (lists four_messages) 0)
             ++ [{| role := "assistant"; content := "Hello again.";
                    timestamp := 120%Z; message_id := "9f8e7d6c" |}])%list
    /\ List.length
         (firstn 1 (deref (lists four_messages) 0)
          ++ [{| role := "assistant"; content := "Hello again.";
                 timestamp := 120%Z; message_id := "9f8e7d6c" |}])%list
       = 1 + 1.
Proof.
  apply (truncate_then_append four_messages
           (deref (lists four_messages) 0) 1 120%Z "9f8e7d6c" "Hello again.").
  - reflexivity.
  - simpl. lia.
Defined.

(** the "Regenerate" button of the assistant message at index 1, then the
    new answer: two messages, the old tail gone *)
Example regenerate_second_message :
  (s1 <- regenerate 1 four_messages ;;
   s2 <- add_message 120%Z "9f8e7d6c" "assistant" "Hello again." None s1 ;;
   active_messages s2)
  = Ok [{| role := "user"; content := "hello";
           timestamp := 105%Z; message_id := "5d41402a" |};
        {| role := "assistant"; content := "Hello again.";
           timestamp := 120%Z; message_id := "9f8e7d6c" |}].
Proof. reflexivity. Qed.

(* ================================================================= *)
(** * The context of a turn *)

(** [messages] and the conversation hold the same list object, so the
    prompt [add_message] appends is in [messages] when the context is built.
    The single-model branch sends the history once; the compare branch
    appends the prompt once more. *)
Lemma model_input_history (w : Widgets) (t : time) (digest prompt : string)
    (s : SessionState) (before : list Message) :
  active_messages s = Ok before ->
  let history :=
    (before ++ [{| role := "user"; content := prompt; timestamp := t;
                   message_id := digest |}])%list in
  model_input w t digest prompt s
  = Ok (if comparing w
        then (messages_for_single (system_prompt w) history
              ++ [role_content "user" prompt])%list
        else messages_for_single (system_prompt w) history).
Proof.
  intros Hbefore history.
  apply active_messages_inv in Hbefore
    as (active & convs & conv & Ha & Hc & Hconv & ->).
  assert (Hcid : session_active s = Ok active)
    by (unfold session_active; now rewrite Ha).
  unfold model_input, begin_turn, session_conversations, dict_index.
  rewrite Hcid, Hc. cbn [bind]. rewrite Hconv. cbn [bind].
  rewrite (add_message_effect t digest "user" prompt None active s convs conv
             Hcid Hc Hconv).
  cbn [bind fst snd lists]. rewrite deref_heap_append.
  fold history. now destruct (comparing w).
Qed.

(** The single-model branch: the system message first when the system
    prompt is not empty, then each message of the history once, the prompt
    last. *)
Lemma single_model_context (w : Widgets) (t : time) (digest prompt : string)
    (s : SessionState) (before : list Message) :
  active_messages s = Ok before ->
  comparing w = false ->
  model_input w t digest prompt s
  = Ok (system_messages (system_prompt w)
        ++ map (fun m => role_content (role m) (content m)) before
        ++ [role_content "user" prompt])%list.
Proof.
  intros Hbefore Hsingle.
  rewrite (model_input_history w t digest prompt s before Hbefore), Hsingle.
  unfold messages_for_single. now rewrite map_app.
Qed.

(** C6, at an input where the code departs from it: in compare mode the
    prompt of the turn is sent twice.  On a new conversation, with an empty
    system prompt, the prompt "hi" gives a context of two user messages
    "hi"; the single-model branch gives the context the claim describes. *)
Theorem compare_mode_sends_prompt_twice :
  model_input compare_widgets 101%Z "0a1b2c3d" "hi" fresh_session
  = Ok [role_content "user" "hi"; role_content "user" "hi"]
  /\ model_input single_widgets 101%Z "0a1b2c3d" "hi" fresh_session
     = Ok [role_content "system" "Be brief."; role_content "user" "hi"].
Proof. split; reflexivity. Qed.

(** A whole turn in the single-model branch: the fragments are accumulated
    and the answer is added to the conversation. *)
Example turn_with_reset_stream :
  (s <- chat_input default_client (fun _ => stream_reset) single_widgets
          101%Z 102%Z "0a1b2c3d" "4e5f6a7b" "hi" fresh_session ;;
   active_messages s)
  = Ok [{| role := "user"; content := "hi";
           timestamp := 101%Z; message_id := "0a1b2c3d" |};
        {| role := "assistant";
           content := "HelloError: Connection reset by peer";
           timestamp := 102%Z; message_id := "4e5f6a7b" |}].
Proof. reflexivity. Qed.

(** The single-model branch expects [chat_stream] to raise: its
    [except Exception] replaces the answer by an apology. *)
Example turn_with_garbled_stream :
  (s <- chat_input default_client (fun _ => stream_garbled) single_widgets
          101%Z 102%Z "0a1b2c3d" "4e5f6a7b" "hi" fresh_session ;;
   active_messages s)
  = Ok [{| role := "user"; content := "hi";
           timestamp := 101%Z; message_id := "0a1b2c3d" |};
        {| role := "assistant"; content := "Sorry, I encountered an error.";
           timestamp := 102%Z; message_id := "4e5f6a7b" |}].
Proof. reflexivity. Qed.

(** The compare branch has no handler: the exception ends the run. *)
Example compare_turn_with_garbled_stream :
  chat_input default_client (fun _ => stream_garbled) compare_widgets
    101%Z 102%Z "0a1b2c3d" "4e5f6a7b" "hi" fresh_session
  = Raise (ValueError "Expecting value: line 1 column 1 (char 0)").
Proof. reflexivity. Qed.

(* ================================================================= *)
(** * Further properties of the inference client *)

(** X1.  [chat] turns every request failure into the string
    ["Error: <description>"], returns the content of a well-formed answer,
    raises [KeyError] for an answer without ["message"], and never lets a
    [RequestException] reach its caller. *)
Theorem chat_outcomes :
  forall (self : OllamaClient) (net : transport) (model : string)
         (messages : list json) (kwargs : dict json),
    (forall msg,
        request_failure (net (chat_request self model messages false kwargs))
        = Some msg ->
        chat self net model messages kwargs = Ok (JStr ("Error: " ++ msg)))
    /\ (forall response fields inner text,
           net (chat_request self model messages false kwargs) = Ok response ->
           request_failure (Ok response) = None ->
           json_body response = Ok (JObj fields) ->
           dict_get "message" fields = Some (JObj inner) ->
           dict_get "content" inner = Some text ->
           chat self net model messages kwargs = Ok text)
    /\ (forall response fields,
           net (chat_request self model messages false kwargs) = Ok response ->
           request_failure (Ok response) = None ->
           json_body response = Ok (JObj fields) ->
           dict_get "message" fields = None ->
           chat self net model messages kwargs = Raise (KeyError "message"))
    /\ (forall msg,
           chat self net model messages kwargs
           <> Raise (RequestException msg)).
Proof.
  intros self net model messages kwargs. unfold chat.
  split; [|split; [|split]].
  - intros msg H.
    destruct (net (chat_request self model messages false kwargs))
      as [response|e]; cbn [bind].
    + rewrite raise_for_status_failure, H. reflexivity.
    + simpl in H. destruct e; try discriminate. now injection H as ->.
  - intros response fields inner text Hnet Hok Hbody Hmessage Hcontent.
    rewrite Hnet. cbn [bind]. rewrite raise_for_status_failure, Hok.
    cbn [bind]. rewrite Hbody. cbn [bind py_getitem]. rewrite Hmessage.
    cbn [bind py_getitem]. now rewrite Hcontent.
  - intros response fields Hnet Hok Hbody Hmessage.
    rewrite Hnet. cbn [bind]. rewrite raise_for_status_failure, Hok.
    cbn [bind]. rewrite Hbody. cbn [bind py_getitem]. now rewrite Hmessage.
  - intros msg.
    destruct (response <- net (chat_request self model messages false kwargs) ;;
              _ <- raise_for_status response ;;
              data <- json_body response ;;
              message <- py_getitem data "message" ;;
              py_getitem message "content") as [text|e];
      [discriminate|].
    destruct e; discriminate.
Qed.

Lemma chat_outcomes_witness :
  chat default_client internal_server_error "llama2:7b" [] []
  = Ok (JStr "Error: 500 Server Error: Internal Server Error")
  /\ chat default_client answers_fine "llama2:7b" [] [] = Ok (JStr "Fine.")
  /\ chat default_client shows_nothing "llama2:7b" [] []
     = Raise (KeyError "message").
Proof.
  pose proof (chat_outcomes default_client internal_server_error "llama2:7b"
                [] []) as [Hfail _].
  pose proof (chat_outcomes default_client answers_fine "llama2:7b" [] [])
    as [_ [Hfine _]].
  pose proof (chat_outcomes default_client shows_nothing "llama2:7b" [] [])
    as [_ [_ [Hmissing _]]].
  split; [|split].
  - apply Hfail. reflexivity.
  - eapply Hfine; reflexivity.
  - eapply Hmissing; reflexivity.
Defined.

Lemma stream_chunk_truthy (l : line) (fragment : json) :
  stream_chunk l = Ok (Some fragment) -> truthy fragment = true.
Proof.
  unfold stream_chunk.
  destruct (line_truthy l); [|discriminate].
  destruct (json_loads l) as [chunk|e]; [|discriminate]. cbn [bind].
  destruct chunk as [| | | | |fields]; try discriminate.
  unfold py_get at 1. unfold py_getitem at 1.
  destruct (dict_get "message" fields) as [message|]; cbn [bind].
  - destruct message as [| | | | |inner]; try discriminate.
    unfold py_get, py_getitem.
    destruct (dict_get "content" inner) as [c|]; cbn [bind];
      [|discriminate].
    destruct (truthy c) eqn:Hc; [|discriminate].
    now intros [= <-].
  - discriminate.
Qed.

Lemma stream_lines_truthy (ls : list line) (body_end : option exn) :
  Forall (fun fragment => truthy fragment = true)
         (yielded (stream_lines ls body_end)).
Proof.
  induction ls as [|l ls IH]; cbn [stream_lines]; [constructor|].
  destruct (stream_chunk l) as [[fragment|]|e] eqn:Hl;
    cbn [yielded]; [|exact IH|constructor].
  constructor; [exact (stream_chunk_truthy l fragment Hl)|exact IH].
Qed.

Lemma stream_lines_skips_empty (ls : list line) (body_end : option exn) :
  stream_lines (filter line_truthy ls) body_end = stream_lines ls body_end.
Proof.
  induction ls as [|l ls IH]; [reflexivity|].
  cbn [filter]. destruct (line_truthy l) eqn:Hl.
  - cbn [stream_lines]. now rewrite IH.
  - cbn [stream_lines]. unfold stream_chunk. now rewrite Hl.
Qed.

(** X2.  Whatever the transport does, [chat_stream] never yields an empty
    fragment: every yielded value is truthy.  The empty (keep-alive) lines
    of the body play no part: the stream is the same without them. *)
Theorem chat_stream_yields_no_empty_fragment :
  forall (self : OllamaClient) (net : transport) (model : string)
         (messages : list json) (kwargs : dict json),
    Forall (fun fragment => truthy fragment = true)
           (yielded (chat_stream self net model messages kwargs))
    /\ chat_stream self
         (fun request =>
            response <- net request ;; Ok (without_empty_lines response))
         model messages kwargs
       = chat_stream self net model messages kwargs.
Proof.
  intros self net model messages kwargs. unfold chat_stream. split.
  - destruct (response <- net (chat_request self model messages true kwargs) ;;
              _ <- raise_for_status response ;;
              Ok response) as [response|e].
    + pose proof (stream_lines_truthy (body_lines response)
                    (body_error response)) as H.
      unfold stream_except.
      destruct (propagated (stream_lines (body_lines response)
                              (body_error response))) as [[]|];
        try exact H.
      cbn [yielded]. apply Forall_app. split; [exact H|].
      now repeat constructor.
    + unfold stream_except. cbn [propagated yielded].
      destruct e; cbn [yielded app]; now repeat constructor.
  - destruct (net (chat_request self model messages true kwargs))
      as [response|e]; cbn [bind]; [|reflexivity].
    unfold raise_for_status, without_empty_lines. cbn [status_code reason].
    destruct ((400 <=? status_code response)
              && (status_code response <? 600))%Z; cbn [bind];
      [reflexivity|].
    cbn [body_lines body_error]. now rewrite stream_lines_skips_empty.
Qed.

Lemma dict_set_absent {V : Type} (k : string) (v : V) (d : dict V) :
  ~ In k (dict_keys d) -> dict_set k v d = (d ++ [(k, v)])%list.
Proof.
  unfold dict_keys. induction d as [|[k0 v0] d IH]; simpl; intros Hnotin;
    [reflexivity|].
  destruct (String.eqb k k0) eqn:E.
  - apply String.eqb_eq in E. subst k0. exfalso. apply Hnotin. now left.
  - rewrite IH; [reflexivity|]. intros Hin. apply Hnotin. now right.
Qed.

Section CompareOrder.
Variables (self : OllamaClient) (net : nat -> transport).
Variables (messages : list json) (kwargs : dict json).

(** the entries of the models from position [start] on *)
Local Abbreviation entries start models :=
  (map (fun im =>
          (snd im,
           expected_entry
             (net (fst im) (chat_request self (snd im) messages false kwargs))))
       (enumerate_from start models)).

Lemma fold_futures_in_order (models : list string) :
  forall (start : nat) (responses : dict json),
    NoDup models ->
    (forall m, In m models -> ~ In m (dict_keys responses)) ->
    fold_left
      (fun acc fm => dict_set (snd fm) (future_result (fst fm)) acc)
      (map (fun im => (chat self (net (fst im)) (snd im) messages kwargs,
                       snd im))
           (enumerate_from start models))
      responses
    = (responses ++ entries start models)%list.
Proof.
  induction models as [|m0 models IH]; intros start responses Hnodup Hfresh.
  - simpl. now rewrite app_nil_r.
  - inversion Hnodup as [|? ? Hm0 Hrest]; subst.
    cbn [enumerate_from map fold_left fst snd].
    rewrite (dict_set_absent m0) by (apply Hfresh; now left).
    rewrite IH; [|exact Hrest|].
    + rewrite chat_entry, <- app_assoc. reflexivity.
    + intros m Hm Hin. unfold dict_keys in Hin. rewrite map_app in Hin.
      apply in_app_or in Hin as [Hin|[<-|[]]].
      * apply (Hfresh m); [now right|exact Hin].
      * contradiction.
Qed.

(** X3.  For a non-empty list of distinct models, the mapping
    [compare_models] returns lists the models in the order they were
    requested, each with the entry of its own call. *)
Theorem compare_models_keeps_request_order :
  forall models : list string,
    models <> [] ->
    NoDup models ->
    compare_models self net models messages kwargs
    = Ok (entries 0 models).
Proof.
  intros models Hne Hnodup. unfold compare_models.
  destruct models as [|m0 models]; [contradiction|].
  rewrite (fold_futures_in_order (m0 :: models) 0 [] Hnodup);
    [reflexivity|].
  intros m _ [].
Qed.
End CompareOrder.

Lemma compare_models_keeps_request_order_witness :
  compare_models default_client a_answers_b_fails ["b"; "a"] [] []
  = Ok [("b", expected_entry
                (a_answers_b_fails 0
                   (chat_request default_client "b" [] false [])));
        ("a", expected_entry
                (a_answers_b_fails 1
                   (chat_request default_client "a" [] false [])))].
Proof.
  apply (compare_models_keeps_request_order default_client a_answers_b_fails
           [] [] ["b"; "a"]).
  - discriminate.
  - repeat constructor; simpl; intuition discriminate.
Defined.

Lemma benchmark_loop_bounds (self : OllamaClient) (net : nat -> transport)
    (clock : nat -> float * float) (model : string) (messages : list json) :
  forall (n i : nat) (metrics_list collected : list Metrics),
    benchmark_loop self net clock model messages i n metrics_list
    = Ok collected ->
    List.length metrics_list <= List.length collected
    /\ List.length collected <= List.length metrics_list + n.
Proof.
  induction n as [|n IH]; intros i metrics_list collected H.
  - simpl in H. injection H as <-. lia.
  - cbn [benchmark_loop] in H.
    destruct (chat_with_metrics self (net i) (fst (clock i)) (snd (clock i))
                model messages benchmark_kwargs) as [[text metrics]|e];
      [|discriminate].
    cbn [bind snd] in H. apply IH in H.
    destruct metrics; [rewrite length_app in H; simpl in H|]; lia.
Qed.

(** X4.  Whatever the calls do, a result of [benchmark_model] with averages
    names the benchmarked model and reports a number of iterations between
    1 and the number requested; an error result carries the message
    ["All benchmark attempts failed"]; with 0 iterations there is no call
    and the result is that error. *)
Theorem benchmark_model_iterations_bounded :
  forall (self : OllamaClient) (net : nat -> transport) (clock : nat -> float * float)
         (model test_prompt : string) (n : nat),
    (forall m k rt tps td ed,
        benchmark_model self net clock model test_prompt n
        = Ok (BenchmarkAverages m k rt tps td ed) ->
        m = model /\ 1 <= k <= n)
    /\ (forall e,
           benchmark_model self net clock model test_prompt n
           = Ok (BenchmarkError e) ->
           e = "All benchmark attempts failed")
    /\ benchmark_model self net clock model test_prompt 0
       = Ok (BenchmarkError "All benchmark attempts failed").
Proof.
  intros self net clock model test_prompt n.
  unfold benchmark_model.
  split; [|split; [|reflexivity]].
  - intros m k rt tps td ed H.
    destruct (benchmark_loop self net clock model
                [JObj [("role", JStr "user"); ("content", JStr test_prompt)]]
                0 n []) as [collected|e] eqn:Hloop; [|discriminate].
    apply benchmark_loop_bounds in Hloop as [_ Hle]. cbn [bind] in H.
    destruct collected as [|m0 rest]; [discriminate|].
    destruct (average response_time (m0 :: rest)); [|discriminate].
    destruct (average tokens_per_second (m0 :: rest)); [|discriminate].
    destruct (average total_duration (m0 :: rest)); [|discriminate].
    destruct (average eval_duration (m0 :: rest)); [|discriminate].
    cbn [bind] in H.
    injection H as <- <- _ _ _ _. simpl in *. split; [reflexivity|lia].
  - intros e H.
    destruct (benchmark_loop self net clock model
                [JObj [("role", JStr "user"); ("content", JStr test_prompt)]]
                0 n []) as [collected|e'] eqn:Hloop; [|discriminate].
    cbn [bind] in H.
    destruct collected as [|m0 rest]; [now injection H as <-|].
    destruct (average response_time (m0 :: rest)); [|discriminate].
    destruct (average tokens_per_second (m0 :: rest)); [|discriminate].
    destruct (average total_duration (m0 :: rest)); [|discriminate].
    destruct (average eval_duration (m0 :: rest)); [|discriminate].
    discriminate H.
Qed.

Lemma benchmark_model_iterations_bounded_witness :
  "llama2:7b" = "llama2:7b" /\ 1 <= 2 <= 3.
Proof.
  destruct (benchmark_model_iterations_bounded default_client
              second_call_fails wall_clock "llama2:7b" "Hello, how are you?" 3)
    as [H _].
  eapply H. reflexivity.
Defined.

Lemma benchmark_loop_raises (self : OllamaClient) (net : nat -> transport)
    (clock : nat -> float * float) (model : string) (messages : list json)
    (e : exn) :
  forall (j n i : nat) (metrics_list : list Metrics),
    j < n ->
    (forall k, k < j ->
        raised (chat_with_metrics self (net (i + k)) (fst (clock (i + k)))
                  (snd (clock (i + k))) model messages benchmark_kwargs)
        = false) ->
    chat_with_metrics self (net (i + j)) (fst (clock (i + j)))
      (snd (clock (i + j))) model messages benchmark_kwargs = Raise e ->
    benchmark_loop self net clock model messages i n metrics_list = Raise e.
Proof.
  induction j as [|j IH]; intros n i metrics_list Hj Hbefore Hcall;
    (destruct n as [|n]; [lia|]); cbn [benchmark_loop].
  - rewrite Nat.add_0_r in Hcall. now rewrite Hcall.
  - pose proof (Hbefore 0 ltac:(lia)) as H0. rewrite Nat.add_0_r in H0.
    destruct (chat_with_metrics self (net i) (fst (clock i)) (snd (clock i))
                model messages benchmark_kwargs) as [r|e0];
      [|discriminate].
    cbn [bind]. apply IH.
    + lia.
    + intros k Hk. replace (S i + k) with (i + S k) by lia.
      apply Hbefore. lia.
    + replace (S i + j) with (i + S j) by lia. exact Hcall.
Qed.

(** X5.  When a call of the benchmark raises (an exception other than a
    request failure, which [chat_with_metrics] absorbs) and no earlier call
    did, [benchmark_model] raises that exception: the metrics collected so
    far are not returned. *)
Theorem benchmark_model_propagates_first_exception :
  forall (self : OllamaClient) (net : nat -> transport) (clock : nat -> float * float)
         (model test_prompt : string) (n j : nat) (e : exn),
    nth_error (benchmark_calls self net clock model test_prompt n) j
    = Some (Raise e) ->
    forallb (fun call => negb (raised call))
            (firstn j (benchmark_calls self net clock model test_prompt n))
    = true ->
    benchmark_model self net clock model test_prompt n = Raise e.
Proof.
  intros self net clock model test_prompt n j e Hj Hbefore.
  unfold benchmark_model, benchmark_calls in *.
  assert (Hlt : j < n).
  { assert (Hsome : nth_error
                      (map (fun i =>
                              chat_with_metrics self (net i) (fst (clock i))
                                (snd (clock i)) model
                                [JObj [("role", JStr "user");
                                       ("content", JStr test_prompt)]]
                                benchmark_kwargs)
                           (seq 0 n)) j <> None) by congruence.
    apply nth_error_Some in Hsome.
    now rewrite length_map, length_seq in Hsome. }
  rewrite (benchmark_loop_raises self net clock model _ e j n 0 []);
    [reflexivity|exact Hlt| |].
  - intros k Hk. cbn [Nat.add].
    rewrite forallb_forall in Hbefore.
    apply negb_true_iff. apply Hbefore.
    apply (nth_error_In _ k).
    rewrite nth_error_firstn.
    replace (k <? j) with true by (symmetry; now apply Nat.ltb_lt).
    rewrite nth_error_map, nth_error_seq.
    replace (k <? n) with true by (symmetry; apply Nat.ltb_lt; lia).
    reflexivity.
  - cbn [Nat.add]. rewrite nth_error_map, nth_error_seq in Hj.
    replace (j <? n) with true in Hj by (symmetry; now apply Nat.ltb_lt).
    simpl in Hj. now injection Hj.
Qed.

Lemma benchmark_model_propagates_first_exception_witness :
  benchmark_model default_client third_call_malformed wall_clock "llama2:7b"
    "Hello, how are you?" 3
  = Raise (KeyError "message").
Proof.
  apply (benchmark_model_propagates_first_exception default_client
           third_call_malformed wall_clock "llama2:7b" "Hello, how are you?"
           3 2 (KeyError "message")); reflexivity.
Defined.

(** X6.  [get_model_details] returns the error marker, without raising,
    when the request fails and also when the server answers with an empty
    (falsy) JSON value: the caller cannot tell the two apart. *)
Theorem get_model_details_error_marker :
  forall (self : OllamaClient) (net : transport) (model_name : string),
    (forall msg,
        request_failure
          (net (post_request self "/api/show"
                  (JObj [("name", JStr model_name)]) 30)) = Some msg ->
        get_model_details self net model_name
        = Ok (no_model_details model_name))
    /\ (forall response info,
           net (post_request self "/api/show"
                  (JObj [("name", JStr model_name)]) 30) = Ok response ->
           request_failure (Ok response) = None ->
           json_body response = Ok info ->
           truthy info = false ->
           get_model_details self net model_name
           = Ok (no_model_details model_name)).
Proof.
  intros self net model_name. unfold get_model_details, get_model_info.
  split.
  - intros msg H.
    destruct (net (post_request self "/api/show"
                     (JObj [("name", JStr model_name)]) 30))
      as [response|e]; cbn [bind].
    + rewrite raise_for_status_failure, H. reflexivity.
    + simpl in H. destruct e; try discriminate. reflexivity.
  - intros response info Hnet Hok Hbody Hfalsy.
    rewrite Hnet. cbn [bind]. rewrite raise_for_status_failure, Hok.
    cbn [bind]. rewrite Hbody. cbn [except_RequestException bind].
    now rewrite Hfalsy.
Qed.

Lemma get_model_details_error_marker_witness :
  get_model_details default_client connection_refused "llama2:7b"
  = Ok (no_model_details "llama2:7b")
  /\ get_model_details default_client shows_nothing "llama2:7b"
     = Ok (no_model_details "llama2:7b").
Proof.
  destruct (get_model_details_error_marker default_client connection_refused
              "llama2:7b") as [Hdown _].
  destruct (get_model_details_error_marker default_client shows_nothing
              "llama2:7b") as [_ Hempty].
  split.
  - apply (Hdown "Connection refused"). reflexivity.
  - eapply Hempty; reflexivity.
Defined.

Lemma copy_if_present_entry (key : string) (fields details : dict json) :
  ~ In key (dict_keys details) ->
  copy_if_present key (JObj fields) details
  = Ok (details ++ entry_if_present fields key)%list.
Proof.
  intros Hfresh. unfold copy_if_present, entry_if_present, py_contains,
    dict_contains, py_getitem.
  cbn [bind].
  destruct (dict_get key fields) as [v|]; cbn [bind].
  - now rewrite (dict_set_absent key v details Hfresh).
  - now rewrite app_nil_r.
Qed.

(** X7.  For a non-empty model description whose ["details"], when present,
    is an object, [get_model_details] returns the name it was asked about,
    then size, format, family, parameter size, quantization level and
    modification time, each as the server reported it or ["Unknown"], then
    the template and the modelfile when the description has them; there is
    no ["error"] entry.  When ["details"] is present and is not an object
    the call raises [AttributeError]. *)
Theorem get_model_details_of_description :
  forall (self : OllamaClient) (net : transport) (model_name : string)
         (response : Response) (fields : dict json),
    net (post_request self "/api/show" (JObj [("name", JStr model_name)]) 30)
    = Ok response ->
    request_failure (Ok response) = None ->
    json_body response = Ok (JObj fields) ->
    fields <> [] ->
    (forall inner,
        details_fields fields = Some inner ->
        get_model_details self net model_name
        = Ok (JObj ([("name", JStr model_name);
                     ("size", or_unknown fields "size");
                     ("format", or_unknown inner "format");
                     ("family", or_unknown inner "family");
                     ("parameter_size", or_unknown inner "parameter_size");
                     ("quantization_level",
                      or_unknown inner "quantization_level");
                     ("modified_at", or_unknown fields "modified_at")]
                    ++ entry_if_present fields "template"
                    ++ entry_if_present fields "modelfile")%list))
    /\ (details_fields fields = None ->
        get_model_details self net model_name
        = Raise (AttributeError "object has no attribute 'get'")).
Proof.
  intros self net model_name response fields Hnet Hok Hbody Hne.
  unfold get_model_details, get_model_info.
  rewrite Hnet. cbn [bind]. rewrite raise_for_status_failure, Hok.
  cbn [bind]. rewrite Hbody. cbn [except_RequestException bind].
  replace (truthy (JObj fields)) with true by (now destruct fields).
  unfold detail_of, details_fields, or_unknown. cbn [py_get].
  split.
  - intros inner Hinner.
    assert (Hdetails :
              match dict_get "details" fields with
              | Some x => Ok x
              | None => Ok (JObj [])
              end = Ok (JObj inner)).
    { destruct (dict_get "details" fields) as [[| | | | |d]|];
        try discriminate; now injection Hinner as ->. }
    rewrite Hdetails. cbn [bind py_get].
    assert (Hget : forall (d : dict json) key,
               match dict_get key d with
               | Some x => Ok x
               | None => Ok (JStr "Unknown")
               end
               = Ok match dict_get key d with
                    | Some v => v
                    | None => JStr "Unknown"
                    end)
      by (intros d key; now destruct (dict_get key d)).
    rewrite !Hget. cbn [bind].
    rewrite copy_if_present_entry
      by (simpl; intuition discriminate).
    cbn [bind].
    rewrite copy_if_present_entry.
    + now rewrite <- app_assoc.
    + unfold dict_keys, entry_if_present. rewrite map_app. intros Hin.
      apply in_app_or in Hin as [Hin|Hin].
      * simpl in Hin. intuition discriminate.
      * destruct (dict_get "template" fields); simpl in Hin;
          intuition discriminate.
  - intros Hbad.
    assert (Hget : match dict_get "size" fields with
                   | Some x => Ok x
                   | None => Ok (JStr "Unknown")
                   end
                   = Ok (or_unknown fields "size"))
      by (unfold or_unknown; now destruct (dict_get "size" fields)).
    rewrite Hget. cbn [bind].
    destruct (dict_get "details" fields) as [[| | | | |d]|];
      try discriminate; reflexivity.
Qed.

Lemma get_model_details_of_description_witness :
  get_model_details default_client shows_model "llama2:7b"
  = Ok (JObj [("name", JStr "llama2:7b");
              ("size", JStr "Unknown");
              ("format", JStr "gguf");
              ("family", JStr "llama");
              ("parameter_size", JStr "7B");
              ("quantization_level", JStr "Unknown");
              ("modified_at", JStr "2024-01-01T12:00:00Z");
              ("template", JStr "{{ .Prompt }}");
              ("modelfile", JStr "FROM llama2")]).
Proof.
  refine (proj1 (get_model_details_of_description default_client shows_model
                   "llama2:7b" _ _ eq_refl eq_refl eq_refl _) _ eq_refl).
  discriminate.
Defined.

(** X8.  [generate_embeddings] returns [None] when the request fails and
    also when the answer has no ["embedding"]; it returns the embedding of
    an answer that has one; no [RequestException] reaches the caller. *)
Theorem generate_embeddings_outcomes :
  forall (self : OllamaClient) (net : transport) (model prompt : string),
    (forall msg,
        request_failure
          (net (post_request self "/api/embeddings"
                  (JObj [("model", JStr model); ("prompt", JStr prompt)]) 30))
        = Some msg ->
        generate_embeddings self net model prompt = Ok JNull)
    /\ (forall response fields,
           net (post_request self "/api/embeddings"
                  (JObj [("model", JStr model); ("prompt", JStr prompt)]) 30)
           = Ok response ->
           request_failure (Ok response) = None ->
           json_body response = Ok (JObj fields) ->
           generate_embeddings self net model prompt
           = Ok match dict_get "embedding" fields with
                | Some embedding => embedding
                | None => JNull
                end)
    /\ (forall msg,
           generate_embeddings self net model prompt
           <> Raise (RequestException msg)).
Proof.
  intros self net model prompt. unfold generate_embeddings.
  split; [|split].
  - intros msg H.
    destruct (net (post_request self "/api/embeddings"
                     (JObj [("model", JStr model); ("prompt", JStr prompt)])
                     30)) as [response|e]; cbn [bind].
    + rewrite raise_for_status_failure, H. reflexivity.
    + simpl in H. destruct e; try discriminate. reflexivity.
  - intros response fields Hnet Hok Hbody.
    rewrite Hnet. cbn [bind]. rewrite raise_for_status_failure, Hok.
    cbn [bind]. rewrite Hbody. cbn [bind py_get].
    now destruct (dict_get "embedding" fields).
  - intros msg.
    destruct (response <- net (post_request self "/api/embeddings"
                                 (JObj [("model", JStr model);
                                        ("prompt", JStr prompt)]) 30) ;;
              _ <- raise_for_status response ;;
              data <- json_body response ;;
              py_get data "embedding" JNull) as [v|e];
      [discriminate|].
    destruct e; discriminate.
Qed.

Lemma generate_embeddings_outcomes_witness :
  generate_embeddings default_client connection_refused "llama2:7b" "hello"
  = Ok JNull
  /\ generate_embeddings default_client shows_nothing "llama2:7b" "hello"
     = Ok JNull.
Proof.
  destruct (generate_embeddings_outcomes default_client connection_refused
              "llama2:7b" "hello") as [Hdown _].
  destruct (generate_embeddings_outcomes default_client shows_nothing
              "llama2:7b" "hello") as [_ [Hempty _]].
  split.
  - apply (Hdown "Connection refused"). reflexivity.
  - exact (Hempty _ [] eq_refl eq_refl eq_refl).
Defined.

(** X9.  The two probes absorb everything.  [get_server_version] never
    raises, whatever the transport does and whatever the shape of the
    answer; when the answer is an object it returns the reported version,
    or [None] if there is none.  [is_available] is true exactly when the
    request completes with status 200. *)
Theorem probes_never_raise :
  forall (self : OllamaClient) (net : transport),
    (exists version, get_server_version self net = Ok version)
    /\ (forall response fields,
           net {| method := GET; url := base_url self ++ "/api/version";
                  json_payload := None; stream := false;
                  request_timeout := 5 |} = Ok response ->
           request_failure (Ok response) = None ->
           json_body response = Ok (JObj fields) ->
           get_server_version self net
           = Ok match dict_get "version" fields with
                | Some version => version
                | None => JNull
                end)
    /\ (is_available self net = true <->
        exists response,
          net (tags_request self 5) = Ok response
          /\ status_code response = 200%Z).
Proof.
  intros self net. split; [|split].
  - unfold get_server_version.
    match goal with
    | |- exists v, except_all ?c _ = _ => destruct c as [v|e]
    end; simpl; eauto.
  - intros response fields Hnet Hok Hbody. unfold get_server_version.
    rewrite Hnet. cbn [bind]. rewrite raise_for_status_failure, Hok.
    cbn [bind]. rewrite Hbody. cbn [bind py_get].
    now destruct (dict_get "version" fields).
  - unfold is_available.
    destruct (net (tags_request self 5)) as [response|e].
    + rewrite Z.eqb_eq. split.
      * intros H. now exists response.
      * now intros (r & [= <-] & H).
    + split; [discriminate|]. now intros (r & H & _).
Qed.

Lemma probes_never_raise_witness :
  get_server_version default_client
    (fun _ => Ok (http_response 200 "OK"
                    (Ok (JObj [("version", JStr "0.1.32")]))))
  = Ok (JStr "0.1.32").
Proof.
  destruct (probes_never_raise default_client
              (fun _ => Ok (http_response 200 "OK"
                              (Ok (JObj [("version", JStr "0.1.32")])))))
    as [_ [H _]].
  exact (H _ _ eq_refl eq_refl eq_refl).
Defined.

(* ================================================================= *)
(** * Further properties of the application *)

(** *** Searching *)

Lemma prefix_spec (sub s : string) :
  String.prefix sub s = true <-> exists rest, s = sub ++ rest.
Proof.
  revert s. induction sub as [|c sub IH]; intros [|c' s]; simpl.
  - split; [intros _; now exists ""|reflexivity].
  - split; [intros _; now exists (String c' s)|reflexivity].
  - split; [discriminate|intros [rest H]; discriminate].
  - destruct (ascii_dec c c') as [->|Hne].
    + rewrite IH. split; intros [rest H]; exists rest.
      * now rewrite H.
      * now injection H.
    + split; [discriminate|].
      intros [rest H]. injection H as H _. congruence.
Qed.

Lemma py_in_empty (s : string) : py_in "" s = true.
Proof. now destruct s. Qed.

(** [sub in s] holds exactly when [sub] is a substring of [s] *)
Lemma py_in_spec (sub s : string) :
  py_in sub s = true <-> exists before rest, s = before ++ sub ++ rest.
Proof.
  induction s as [|c s IH]; cbn [py_in].
  - destruct (String.prefix sub "") eqn:E.
    + split; [intros _|reflexivity].
      apply prefix_spec in E as [rest ->]. now exists "", rest.
    + split; [discriminate|]. intros (before & rest & H).
      destruct before; [|discriminate].
      assert (String.prefix sub "" = true)
        by (apply prefix_spec; now exists rest).
      congruence.
  - destruct (String.prefix sub (String c s)) eqn:E.
    + split; [intros _|reflexivity].
      apply prefix_spec in E as [rest ->]. now exists "", rest.
    + rewrite IH. split.
      * intros (before & rest & ->). now exists (String c before), rest.
      * intros (before & rest & H). destruct before as [|c' before].
        -- assert (String.prefix sub (String c s) = true)
             by (apply prefix_spec; now exists rest).
           congruence.
        -- injection H as _ ->. now exists before, rest.
Qed.

Lemma lower_ascii_idempotent (c : ascii) :
  lower_ascii (lower_ascii c) = lower_ascii c.
Proof. destruct c as [[] [] [] [] [] [] [] []]; reflexivity. Qed.

Lemma lower_idempotent (s : string) : lower (lower s) = lower s.
Proof.
  induction s as [|c s IH]; [reflexivity|].
  simpl. now rewrite lower_ascii_idempotent, IH.
Qed.

(** the messages of a conversation that match a query, as results *)
Local Abbreviation matches_of query h item :=
  (map (fun msg => {| conversation := fst item; message := msg;
                      context := title (snd item) |})
       (filter (fun msg => py_in (lower query) (lower (content msg)))
               (deref h (messages (snd item))))).

Lemma search_conversation_filter (query : string) (h : heap)
    (item : string * Conversation) (results : list search_result) :
  search_conversation query h results item
  = (results ++ matches_of query h item)%list.
Proof.
  unfold search_conversation. revert results.
  induction (deref h (messages (snd item))) as [|msg l IH]; intros results;
    cbn [fold_left filter].
  - now rewrite app_nil_r.
  - destruct (py_in (lower query) (lower (content msg))); rewrite IH.
    + cbn [map]. now rewrite <- app_assoc.
    + reflexivity.
Qed.

Lemma search_fold_flat_map (query : string) (h : heap)
    (convs : dict Conversation) :
  forall results : list search_result,
    fold_left (search_conversation query h) convs results
    = (results ++ flat_map (fun item => matches_of query h item) convs)%list.
Proof.
  induction convs as [|item convs IH]; intros results; cbn [fold_left flat_map].
  - now rewrite app_nil_r.
  - now rewrite IH, search_conversation_filter, <- app_assoc.
Qed.

(** X10.  [search_messages] returns exactly the matching messages, in the
    order of the conversations of the store and, within a conversation, in
    the order of its messages.  A message matches when its content, in
    lower case, contains the query, in lower case, as a substring; each
    result carries the id and the title of the conversation of its
    message. *)
Theorem search_messages_finds_exactly_the_matches :
  forall (query : string) (s : SessionState) (convs : dict Conversation),
    conversations s = Some convs ->
    exists results,
      search_messages query s = Ok results
      /\ results
         = flat_map (fun item => matches_of query (lists s) item) convs
      /\ (forall r,
             In r results <->
             exists conv,
               In (conversation r, conv) convs
               /\ context r = title conv
               /\ In (message r) (deref (lists s) (messages conv))
               /\ exists before rest,
                    lower (content (message r))
                    = before ++ lower query ++ rest).
Proof.
  intros query s convs Hc.
  eexists. split; [|split; [reflexivity|]].
  - unfold search_messages, session_conversations. rewrite Hc. cbn [bind].
    now rewrite search_fold_flat_map.
  - intros r. rewrite in_flat_map. split.
    + intros ([cid conv] & Hitem & Hr).
      apply in_map_iff in Hr as (msg & <- & Hmsg).
      apply filter_In in Hmsg as [Hmsg Hmatch]. cbn in *.
      exists conv. repeat split; try assumption.
      now apply py_in_spec.
    + intros (conv & Hitem & Hcontext & Hmsg & Hsub).
      exists (conversation r, conv). split; [exact Hitem|].
      apply in_map_iff. exists (message r). cbn [fst snd]. split.
      * destruct r. cbn in *. now rewrite Hcontext.
      * apply filter_In. split; [exact Hmsg|]. now apply py_in_spec.
Qed.

Lemma search_messages_finds_exactly_the_matches_witness :
  exists results,
    search_messages "HELLO" two_conversations = Ok results
    /\ results
       = [{| conversation := "default";
             message := {| role := "user"; content := "hello";
                           timestamp := 105%Z; message_id := "5d41402a" |};
             context := "hello" |}].
Proof.
  destruct (search_messages_finds_exactly_the_matches "HELLO"
              two_conversations _ eq_refl) as (results & H & -> & _).
  eexists. split; [exact H|reflexivity].
Defined.

(** X11.  The search does not depend on the case of the query, and the
    empty query matches every message: it returns all the messages of all
    the conversations. *)
Theorem search_messages_case_and_empty_query :
  forall (query : string) (s : SessionState),
    search_messages (lower query) s = search_messages query s
    /\ search_messages "" s
       = (convs <- session_conversations s ;;
          Ok (flat_map
                (fun item =>
                   map (fun msg => {| conversation := fst item;
                                      message := msg;
                                      context := title (snd item) |})
                       (deref (lists s) (messages (snd item))))
                convs)).
Proof.
  intros query s. unfold search_messages. split.
  - destruct (session_conversations s) as [convs|e]; [|reflexivity].
    cbn [bind]. rewrite !search_fold_flat_map.
    now rewrite lower_idempotent.
  - destruct (session_conversations s) as [convs|e]; [|reflexivity].
    cbn [bind]. rewrite search_fold_flat_map. cbn [app]. f_equal.
    apply flat_map_ext. intros item. f_equal. cbn [lower].
    induction (deref (lists s) (messages (snd item))) as [|msg l IH];
      [reflexivity|].
    cbn [filter]. now rewrite py_in_empty, IH.
Qed.

(** *** The conversation list *)

(** more recently modified first *)
Local Abbreviation newer_first :=
  (fun a b : string * Conversation =>
     (last_modified (snd b) <= last_modified (snd a))%Z).

Lemma insert_by_last_modified_sorted (x : string * Conversation)
    (l : list (string * Conversation)) :
  Sorted newer_first l -> Sorted newer_first (insert_by_last_modified x l).
Proof.
  induction l as [|y l IH]; intros Hl; simpl.
  - now repeat constructor.
  - destruct (last_modified (snd x) <? last_modified (snd y))%Z eqn:E.
    + inversion Hl as [|? ? Hrest Hhd]; subst.
      constructor; [now apply IH|].
      destruct l as [|z l]; simpl.
      * constructor. apply Z.ltb_lt in E. lia.
      * destruct (last_modified (snd x) <? last_modified (snd z))%Z.
        -- constructor. now inversion Hhd.
        -- constructor. apply Z.ltb_lt in E. lia.
    + constructor; [exact Hl|]. constructor. apply Z.ltb_ge in E. lia.
Qed.

Lemma sorted_by_last_modified_sorted (items : list (string * Conversation)) :
  StronglySorted newer_first (sorted_by_last_modified items).
Proof.
  apply Sorted_StronglySorted.
  - intros a b c Hab Hbc. lia.
  - induction items as [|x items IH]; simpl; [constructor|].
    now apply insert_by_last_modified_sorted.
Qed.

Lemma insert_by_last_modified_perm (x : string * Conversation)
    (l : list (string * Conversation)) :
  Permutation (insert_by_last_modified x l) (x :: l).
Proof.
  induction l as [|y l IH]; simpl; [reflexivity|].
  destruct (last_modified (snd x) <? last_modified (snd y))%Z;
    [|reflexivity].
  rewrite IH. apply perm_swap.
Qed.

Lemma sorted_by_last_modified_perm (items : list (string * Conversation)) :
  Permutation (sorted_by_last_modified items) items.
Proof.
  induction items as [|x items IH]; simpl; [reflexivity|].
  now rewrite insert_by_last_modified_perm, IH.
Qed.

Lemma StronglySorted_filter {A : Type} (R : A -> A -> Prop)
    (f : A -> bool) (l : list A) :
  StronglySorted R l -> StronglySorted R (filter f l).
Proof.
  induction 1 as [|x l Hl IH Hx]; simpl; [constructor|].
  destruct (f x); [|exact IH].
  constructor; [exact IH|].
  apply Forall_forall. intros y Hy. apply filter_In in Hy as [Hy _].
  rewrite Forall_forall in Hx. now apply Hx.
Qed.

Lemma StronglySorted_firstn {A : Type} (R : A -> A -> Prop)
    (n : nat) (l : list A) :
  StronglySorted R l -> StronglySorted R (firstn n l).
Proof.
  intros Hl. revert n.
  induction Hl as [|x l Hl IH Hx]; intros [|n]; simpl; try constructor.
  - apply IH.
  - apply Forall_forall. intros y Hy. apply firstn_In in Hy.
    rewrite Forall_forall in Hx. now apply Hx.
Qed.

(** X12.  The conversation list of the sidebar shows at most 20
    conversations, all of them entries of the store, the most recently
    modified first; when a search text is given, the title of each contains
    it, whatever the case of the letters. *)
Theorem conversations_to_show_bounded_sorted :
  forall (search : string) (convs : dict Conversation),
    List.length (conversations_to_show search convs) <= 20
    /\ (forall cc, In cc (conversations_to_show search convs) ->
                   In cc convs)
    /\ StronglySorted newer_first (conversations_to_show search convs)
    /\ (search <> "" ->
        forall cc, In cc (conversations_to_show search convs) ->
                   exists before rest,
                     lower (title (snd cc))
                     = before ++ lower search ++ rest).
Proof.
  intros search convs. unfold conversations_to_show.
  split; [|split; [|split]].
  - rewrite length_firstn. lia.
  - intros cc H. apply firstn_In in H.
    destruct (negb (search =? "")%string).
    + apply filter_In in H as [H _]. now apply sorted_by_last_modified_In.
    + now apply sorted_by_last_modified_In.
  - apply StronglySorted_firstn.
    destruct (negb (search =? "")%string).
    + apply StronglySorted_filter, sorted_by_last_modified_sorted.
    + apply sorted_by_last_modified_sorted.
  - intros Hsearch cc H. apply firstn_In in H.
    apply String.eqb_neq in Hsearch. rewrite Hsearch in H. cbn [negb] in H.
    apply filter_In in H as [_ H]. now apply py_in_spec.
Qed.

Lemma conversations_to_show_bounded_sorted_witness :
  exists before rest, lower "New Chat" = before ++ lower "CHAT" ++ rest.
Proof.
  refine (proj2 (proj2 (proj2
            (conversations_to_show_bounded_sorted "CHAT"
               [("default",
                 {| messages := 0; created_at := 100%Z;
                    last_modified := 105%Z; title := "hello" |});
                ("chat_20240101_120000",
                 {| messages := 1; created_at := 110%Z;
                    last_modified := 110%Z; title := "New Chat" |})])))
            _
            ("chat_20240101_120000",
             {| messages := 1; created_at := 110%Z; last_modified := 110%Z;
                title := "New Chat" |})
            _).
  - discriminate.
  - left. reflexivity.
Defined.

(** X13.  With no search text and at most 20 conversations in the store,
    the sidebar shows every conversation exactly once. *)
Theorem conversations_to_show_complete :
  forall convs : dict Conversation,
    List.length convs <= 20 ->
    Permutation (conversations_to_show "" convs) convs.
Proof.
  intros convs Hlen. unfold conversations_to_show. cbn [String.eqb negb].
  rewrite firstn_all2.
  - apply sorted_by_last_modified_perm.
  - now rewrite (Permutation_length (sorted_by_last_modified_perm convs)).
Qed.

Lemma conversations_to_show_complete_witness :
  Permutation
    (conversations_to_show ""
       [("default",
         {| messages := 0; created_at := 100%Z; last_modified := 105%Z;
            title := "hello" |});
        ("chat_20240101_120000",
         {| messages := 1; created_at := 110%Z; last_modified := 110%Z;
            title := "New Chat" |})])
    [("default",
      {| messages := 0; created_at := 100%Z; last_modified := 105%Z;
         title := "hello" |});
     ("chat_20240101_120000",
      {| messages := 1; created_at := 110%Z; last_modified := 110%Z;
         title := "New Chat" |})].
Proof.
  apply conversations_to_show_complete. simpl. lia.
Defined.

Lemma conversation_rows_no_match (c : click)
    (shown : list (string * Conversation)) (s : SessionState)
    (active : string) :
  active_conversation s = Some active ->
  (forall cc, In cc shown ->
              (negb (fst cc =? active)%string && select_clicked c (fst cc))
              = false
              /\ delete_clicked c (fst cc) = false) ->
  conversation_rows c shown s = Ok s.
Proof.
  intros Ha. induction shown as [|[conv_id conv_data] rest IH]; intros H;
    [reflexivity|].
  cbn [conversation_rows]. unfold session_active. rewrite Ha. cbn [bind].
  destruct (H (conv_id, conv_data) (or_introl eq_refl)) as [Hs Hd].
  cbn [fst] in Hs, Hd. rewrite Hs, Hd.
  apply IH. intros cc Hcc. apply H. now right.
Qed.

(** X14.  A run of the script changes nothing (beyond what
    [init_conversation_state] does) when no button is pressed, when the
    button pressed belongs to a conversation the sidebar does not show, and
    when the conversation to select is already the active one. *)
Theorem script_run_without_effect :
  forall (i : interaction) (s : SessionState),
    let s0 := init_conversation_state (now i) s in
    let shown :=
      match conversations s0 with
      | Some convs => map fst (conversations_to_show (search_conv i) convs)
      | None => []
      end in
    match clicked i with
    | NoClick => True
    | SelectConversation conv_id =>
        ~ In conv_id shown \/ active_conversation s0 = Some conv_id
    | DeleteConversation conv_id => ~ In conv_id shown
    | NewConversation _ => False
    end ->
    script_run i s = Ok s0.
Proof.
  intros i s s0 shown Hclick. unfold script_run. fold s0.
  pose proof (init_conversation_state_ok (now i) s) as Hok. fold s0 in Hok.
  apply store_ok_spec in Hok as (convs & active & Hc & Ha & _).
  subst shown. rewrite Hc in Hclick.
  assert (Hrows :
            (forall cc,
                In cc (conversations_to_show (search_conv i) convs) ->
                (negb (fst cc =? active)%string
                 && select_clicked (clicked i) (fst cc)) = false
                /\ delete_clicked (clicked i) (fst cc) = false) ->
            (convs <- session_conversations s0 ;;
             conversation_rows (clicked i)
               (conversations_to_show (search_conv i) convs) s0) = Ok s0).
  { intros H. unfold session_conversations. rewrite Hc. cbn [bind].
    now apply (conversation_rows_no_match _ _ s0 active Ha). }
  destruct (clicked i) as [new_id|conv_id|conv_id|]; [contradiction| | |];
    apply Hrows; intros cc Hcc; cbn [select_clicked delete_clicked].
  - split; [|reflexivity].
    destruct (conv_id =? fst cc)%string eqn:E;
      [|now rewrite andb_false_r].
    apply String.eqb_eq in E. subst conv_id.
    destruct Hclick as [Hhidden|Hactive].
    + exfalso. apply Hhidden. now apply in_map.
    + rewrite Ha in Hactive. injection Hactive as ->.
      now rewrite String.eqb_refl.
  - split; [now rewrite andb_false_r|].
    destruct (conv_id =? fst cc)%string eqn:E; [|reflexivity].
    apply String.eqb_eq in E. subst conv_id.
    exfalso. apply Hclick. now apply in_map.
  - split; [now rewrite andb_false_r|reflexivity].
Qed.

Lemma script_run_without_effect_witness :
  script_run {| now := 130%Z; search_conv := "hel";
                clicked := DeleteConversation "chat_20240101_120000" |}
    two_conversations
  = Ok (init_conversation_state 130%Z two_conversations).
Proof.
  apply (script_run_without_effect
           {| now := 130%Z; search_conv := "hel";
              clicked := DeleteConversation "chat_20240101_120000" |}
           two_conversations).
  simpl. intuition discriminate.
Defined.

(** *** Well-formed stores *)

Lemma list_addresses_set_fresh (k : string) (v : Conversation)
    (d : dict Conversation) (n : nat) :
  NoDup (list_addresses d) ->
  Forall (fun a => a < n) (list_addresses d) ->
  messages v = n ->
  NoDup (list_addresses (dict_set k v d))
  /\ Forall (fun a => a < S n) (list_addresses (dict_set k v d)).
Proof.
  unfold list_addresses. intros Hnodup Hbound Hv.
  induction d as [|[k0 v0] d IH]; simpl in *.
  - rewrite Hv. split; repeat constructor. intros [].
  - inversion Hnodup as [|? ? Hnotin Hrest]; subst.
    inversion Hbound as [|? ? Hlt Hbound']; subst.
    assert (Hweak : Forall (fun a => a < S (messages v))
                      (map (fun item => messages (snd item)) d)).
    { eapply Forall_impl; [|exact Hbound']. simpl. lia. }
    destruct (String.eqb k k0); simpl.
    + split; constructor; try assumption; try lia.
      intros Hin. rewrite Forall_forall in Hbound'.
      apply Hbound' in Hin. lia.
    + destruct (IH Hrest Hbound') as [IHn IHb].
      split; constructor; try assumption; try lia.
      intros Hin.
      assert (Hsub : forall a,
                 In a (map (fun item => messages (snd item)) (dict_set k v d))
                 -> a = messages v
                    \/ In a (map (fun item => messages (snd item)) d)).
      { clear. intros a. induction d as [|[k1 v1] d IHd]; simpl.
        - intuition.
        - destruct (String.eqb k k1); simpl; intuition. }
      apply Hsub in Hin as [Heq|Hin]; [lia|contradiction].
Qed.

Lemma list_addresses_set_same (k : string) (v old : Conversation)
    (d : dict Conversation) :
  dict_get k d = Some old ->
  messages v = messages old ->
  list_addresses (dict_set k v d) = list_addresses d
  /\ dict_keys (dict_set k v d) = dict_keys d.
Proof.
  unfold list_addresses, dict_keys. intros Hget Hv.
  induction d as [|[k0 v0] d IH]; simpl in *; [discriminate|].
  destruct (String.eqb k k0) eqn:E; simpl.
  - injection Hget as ->. apply String.eqb_eq in E. subst k0.
    now rewrite Hv.
  - destruct (IH Hget) as [-> ->]. now split.
Qed.

Lemma dict_del_sub {V : Type} (k : string) (d d' : dict V) :
  dict_del k d = Some d' -> forall item, In item d' -> In item d.
Proof.
  revert d'. induction d as [|[k0 v0] d IH]; simpl; intros d' H item Hin;
    [discriminate|].
  destruct (String.eqb k k0).
  - injection H as <-. now right.
  - destruct (dict_del k d) as [d''|]; [|discriminate].
    injection H as <-. destruct Hin as [<-|Hin]; [now left|].
    right. now apply (IH d'').
Qed.

Lemma dict_del_NoDup_map {V B : Type} (f : string * V -> B) (k : string)
    (d d' : dict V) :
  dict_del k d = Some d' -> NoDup (map f d) -> NoDup (map f d').
Proof.
  revert d'. induction d as [|[k0 v0] d IH]; simpl; intros d' H Hnodup;
    [discriminate|].
  inversion Hnodup as [|? ? Hnotin Hrest]; subst.
  destruct (String.eqb k k0).
  - now injection H as <-.
  - destruct (dict_del k d) as [d''|] eqn:Hdel; [|discriminate].
    injection H as <-. simpl. constructor; [|now apply (IH d'')].
    intros Hin. apply Hnotin. apply in_map_iff in Hin as (item & <- & Hitem).
    apply in_map. now apply (dict_del_sub k d d'').
Qed.

Lemma dict_del_get_other {V : Type} (k k' : string) (d d' : dict V) :
  dict_del k d = Some d' -> k' <> k -> dict_get k' d' = dict_get k' d.
Proof.
  revert d'. induction d as [|[k0 v0] d IH]; simpl; intros d' H Hne;
    [discriminate|].
  destruct (String.eqb k k0) eqn:E.
  - injection H as <-. apply String.eqb_eq in E. subst k0.
    apply String.eqb_neq in Hne. now rewrite Hne.
  - destruct (dict_del k d) as [d''|]; [|discriminate].
    injection H as <-. simpl. rewrite (IH d'' eq_refl Hne). reflexivity.
Qed.

Lemma dict_del_get_same {V : Type} (k : string) (d d' : dict V) :
  dict_del k d = Some d' -> NoDup (dict_keys d) -> dict_get k d' = None.
Proof.
  unfold dict_keys. revert d'.
  induction d as [|[k0 v0] d IH]; simpl; intros d' H Hnodup; [discriminate|].
  inversion Hnodup as [|? ? Hnotin Hrest]; subst.
  destruct (String.eqb k k0) eqn:E.
  - injection H as <-. apply String.eqb_eq in E. subst k0.
    destruct (dict_get k d) eqn:Hget; [|reflexivity].
    exfalso. apply Hnotin. apply dict_contains_keys.
    unfold dict_contains. now rewrite Hget.
  - destruct (dict_del k d) as [d''|]; [|discriminate].
    injection H as <-. simpl. rewrite E. now apply IH.
Qed.

Lemma store_wf_intro (s : SessionState) (convs : dict Conversation) :
  conversations s = Some convs ->
  NoDup (dict_keys convs) ->
  NoDup (list_addresses convs) ->
  Forall (fun a => a < next (lists s)) (list_addresses convs) ->
  store_wf s.
Proof. intros H. unfold store_wf. rewrite H. auto. Qed.

Lemma store_wf_elim (s : SessionState) (convs : dict Conversation) :
  store_wf s ->
  conversations s = Some convs ->
  NoDup (dict_keys convs)
  /\ NoDup (list_addresses convs)
  /\ Forall (fun a => a < next (lists s)) (list_addresses convs).
Proof. unfold store_wf. intros H Hc. now rewrite Hc in H. Qed.

(** a new list object for the conversation [k] *)
Lemma store_wf_alloc (s : SessionState) (convs : dict Conversation)
    (k : string) (l : list Message) (c : Conversation)
    (active : option string) :
  store_wf s ->
  conversations s = Some convs ->
  messages c = next (lists s) ->
  store_wf {| conversations := Some (dict_set k c convs);
              active_conversation := active;
              lists := snd (alloc l (lists s)) |}.
Proof.
  intros Hwf Hc Hm.
  destruct (store_wf_elim s convs Hwf Hc) as (Hkeys & Hnodup & Hbound).
  destruct (list_addresses_set_fresh k c convs _ Hnodup Hbound Hm)
    as [Hn Hb].
  eapply store_wf_intro; [reflexivity| | |].
  - now apply dict_keys_set_NoDup.
  - exact Hn.
  - exact Hb.
Qed.

Lemma init_conversation_state_wf (t : time) (s : SessionState) :
  store_wf s -> store_wf (init_conversation_state t s).
Proof.
  intros Hwf. unfold init_conversation_state.
  destruct (conversations s) as [convs|] eqn:Hc.
  - destruct (dict_contains _ convs).
    + unfold store_wf in *. now rewrite Hc in Hwf.
    + now apply (store_wf_alloc s convs).
  - cbn [dict_contains dict_get dict_set alloc].
    eapply store_wf_intro; [reflexivity| | |]; simpl; repeat constructor;
      intros [].
Qed.

Lemma new_conversation_wf (t : time) (new_id : string)
    (s s' : SessionState) :
  store_wf s -> new_conversation t new_id s = Ok s' -> store_wf s'.
Proof.
  intros Hwf. unfold new_conversation, session_conversations.
  destruct (conversations s) as [convs|] eqn:Hc; [|discriminate].
  cbn [bind alloc]. intros [= <-].
  now apply (store_wf_alloc s convs new_id []).
Qed.

Lemma delete_conversation_wf (conv_id : string) (s s' : SessionState) :
  store_wf s -> delete_conversation conv_id s = Ok (Some s') -> store_wf s'.
Proof.
  intros Hwf. unfold delete_conversation, session_conversations.
  destruct (conversations s) as [convs|] eqn:Hc; [|discriminate].
  cbn [bind]. destruct (1 <? List.length convs); [|discriminate].
  destruct (dict_del conv_id convs) as [convs'|] eqn:Hdel; [|discriminate].
  cbn [bind]. destruct (session_active s) as [active|]; [|discriminate].
  cbn [bind].
  destruct (store_wf_elim s convs Hwf Hc) as (Hkeys & Hnodup & Hbound).
  assert (Hwf' : forall a,
             store_wf {| conversations := Some convs';
                         active_conversation := a; lists := lists s |}).
  { intros a. eapply store_wf_intro; [reflexivity| | |].
    - exact (dict_del_NoDup_map fst conv_id convs convs' Hdel Hkeys).
    - exact (dict_del_NoDup_map _ conv_id convs convs' Hdel Hnodup).
    - cbn [lists]. apply Forall_forall. intros a0 Hin.
      apply in_map_iff in Hin as (item & <- & Hitem).
      rewrite Forall_forall in Hbound. apply Hbound.
      apply in_map_iff. exists item. split; [reflexivity|].
      now apply (dict_del_sub conv_id convs convs'). }
  destruct (conv_id =? active)%string.
  - destruct (dict_keys convs'); [discriminate|].
    cbn [bind]. intros [= <-]. apply Hwf'.
  - cbn [bind]. intros [= <-]. apply Hwf'.
Qed.

Lemma conversation_rows_wf (c : click)
    (shown : list (string * Conversation)) :
  forall s s' : SessionState,
    store_wf s -> conversation_rows c shown s = Ok s' -> store_wf s'.
Proof.
  induction shown as [|[conv_id conv_data] rest IH]; intros s s' Hwf.
  - now intros [= <-].
  - cbn [conversation_rows].
    destruct (session_active s) as [active|]; [|discriminate]. cbn [bind].
    destruct (negb (conv_id =? active)%string && select_clicked c conv_id).
    + intros [= <-]. exact Hwf.
    + destruct (delete_clicked c conv_id); [|now apply IH].
      destruct (delete_conversation conv_id s) as [[s1|]|] eqn:Hdel;
        cbn [bind]; [| |discriminate].
      * intros [= <-]. now apply (delete_conversation_wf conv_id s).
      * now apply IH.
Qed.

Lemma script_run_wf (i : interaction) (s s' : SessionState) :
  store_wf s -> script_run i s = Ok s' -> store_wf s'.
Proof.
  intros Hwf. unfold script_run.
  pose proof (init_conversation_state_wf (now i) s Hwf) as Hwf0.
  assert (Hrows :
            (convs <- session_conversations (init_conversation_state (now i) s) ;;
             conversation_rows (clicked i)
               (conversations_to_show (search_conv i) convs)
               (init_conversation_state (now i) s)) = Ok s' ->
            store_wf s').
  { destruct (session_conversations (init_conversation_state (now i) s));
      [|discriminate].
    cbn [bind]. now apply conversation_rows_wf. }
  destruct (clicked i); try exact Hrows.
  now apply new_conversation_wf.
Qed.

(** a successful [add_message] found its conversation and did this *)
Lemma add_message_inv (t : time) (digest r c : string)
    (conversation_id : option string) (s s' : SessionState) :
  add_message t digest r c conversation_id s = Ok s' ->
  exists cid convs conv,
    match conversation_id with
    | Some given => Ok given
    | None => session_active s
    end = Ok cid
    /\ conversations s = Some convs
    /\ dict_get cid convs = Some conv
    /\ s' = {| conversations :=
                 Some (dict_set cid
                         {| messages := messages conv;
                            created_at := created_at conv;
                            last_modified := t;
                            title := match deref (lists s) (messages conv) with
                                     | [] => derive_title c
                                     | _ :: _ => title conv
                                     end |}
                         convs);
               active_conversation := active_conversation s;
               lists := heap_append (messages conv)
                          {| role := r; content := c; timestamp := t;
                             message_id := digest |} (lists s) |}.
Proof.
  intros H.
  destruct (match conversation_id with
            | Some given => Ok given
            | None => session_active s
            end) as [cid|e] eqn:Hcid;
    [|unfold add_message in H; rewrite Hcid in H; discriminate].
  destruct (conversations s) as [convs|] eqn:Hc;
    [|unfold add_message, session_conversations in H;
      rewrite Hcid, Hc in H; discriminate].
  destruct (dict_get cid convs) as [conv|] eqn:Hconv;
    [|unfold add_message, session_conversations, dict_index in H;
      rewrite Hcid, Hc in H; cbn [bind] in H; rewrite Hconv in H;
      discriminate].
  rewrite (add_message_effect t digest r c conversation_id cid s convs conv
             Hcid Hc Hconv) in H.
  injection H as <-. now exists cid, convs, conv.
Qed.

Lemma add_message_wf (t : time) (digest r c : string)
    (conversation_id : option string) (s s' : SessionState) :
  store_wf s ->
  add_message t digest r c conversation_id s = Ok s' ->
  store_wf s'.
Proof.
  intros Hwf H.
  apply add_message_inv in H as (cid & convs & conv & _ & Hc & Hconv & ->).
  destruct (store_wf_elim s convs Hwf Hc) as (Hkeys & Hnodup & Hbound).
  match goal with
  | |- store_wf {| conversations := Some (dict_set cid ?c' convs) |} =>
      destruct (list_addresses_set_same cid c' conv convs Hconv eq_refl)
        as [Haddr Hk]
  end.
  eapply store_wf_intro; [reflexivity| | |].
  - now rewrite Hk.
  - now rewrite Haddr.
  - rewrite Haddr. exact Hbound.
Qed.

Lemma truncate_messages_wf (i : nat) (s s' : SessionState) :
  store_wf s -> truncate_messages i s = Ok s' -> store_wf s'.
Proof.
  intros Hwf. unfold truncate_messages, session_conversations.
  destruct (session_active s) as [active|]; [|discriminate]. cbn [bind].
  destruct (conversations s) as [convs|] eqn:Hc; [|discriminate].
  cbn [bind]. destruct (dict_index active convs) as [conv|]; [|discriminate].
  cbn [bind alloc]. intros [= <-].
  now apply (store_wf_alloc s convs active
               (firstn i (deref (lists s) (messages conv)))).
Qed.

Lemma regenerate_wf (i : nat) (s s' : SessionState) :
  store_wf s -> regenerate i s = Ok s' -> store_wf s'.
Proof.
  intros Hwf. unfold regenerate.
  destruct (active_messages s) as [l|]; [|discriminate]. cbn [bind].
  destruct (nth_error l i) as [m|]; [|now intros [= <-]].
  destruct (role m =? "assistant")%string; [|now intros [= <-]].
  now apply truncate_messages_wf.
Qed.

Lemma save_edit_wf (i : nat) (edited : string) (flags flags' : editing_flags)
    (s s' : SessionState) :
  store_wf s -> save_edit i edited flags s = Ok (s', flags') -> store_wf s'.
Proof.
  intros Hwf. unfold save_edit.
  destruct (session_active s) as [active|]; [|discriminate]. cbn [bind].
  destruct (session_conversations s) as [convs|]; [|discriminate].
  cbn [bind]. destruct (dict_index active convs) as [conv|]; [|discriminate].
  cbn [bind].
  destruct (nth_error (deref (lists s) (messages conv)) i);
    [|now intros [= <- _]].
  destruct (flags i); [|now intros [= <- _]].
  intros [= <- _]. exact Hwf.
Qed.

Lemma chat_input_wf (client : OllamaClient) (net : nat -> transport)
    (w : Widgets) (t t' : time) (digest digest' prompt : string)
    (s s' : SessionState) :
  store_wf s ->
  chat_input client net w t t' digest digest' prompt s = Ok s' ->
  store_wf s'.
Proof.
  intros Hwf. unfold chat_input, begin_turn.
  destruct (session_active s); [|discriminate]. cbn [bind].
  destruct (session_conversations s) as [convs|]; [|discriminate].
  cbn [bind]. destruct (dict_index _ convs); [|discriminate]. cbn [bind].
  destruct (add_message t digest "user" prompt None s) as [s1|] eqn:Hs1;
    [|discriminate].
  apply (add_message_wf _ _ _ _ _ _ _ Hwf) in Hs1.
  cbn [bind snd fst]. destruct (comparing w).
  - destruct (compare_loop _ _ _ _ _ _) as [responses|]; [|discriminate].
    cbn [bind]. destruct responses as [|[k0 r0] responses]; [discriminate|].
    cbn [bind]. now apply add_message_wf.
  - now apply add_message_wf.
Qed.

Lemma session_wf (runs : list interaction) :
  forall s s' : SessionState,
    store_wf s -> session runs s = Ok s' -> store_wf s'.
Proof.
  induction runs as [|i runs IH]; intros s s' Hwf; cbn [session].
  - now intros [= <-].
  - destruct (script_run i s) as [s1|] eqn:H1; [|discriminate].
    cbn [bind]. apply IH. now apply (script_run_wf i s).
Qed.

(** X15.  The store stays well formed: in every state reached from the
    empty session by runs of the script (new conversation, select, delete),
    calls of [add_message], chat turns, regenerations and saved edits, the
    keys of the store are distinct and every conversation has a message
    list that no other conversation shares. *)
Theorem store_stays_well_formed :
  store_wf empty_session
  /\ forall s : SessionState,
       store_wf s ->
       (forall runs s', session runs s = Ok s' -> store_wf s')
       /\ (forall t digest r c conversation_id s',
              add_message t digest r c conversation_id s = Ok s' ->
              store_wf s')
       /\ (forall client net w t t' digest digest' prompt s',
              chat_input client net w t t' digest digest' prompt s = Ok s' ->
              store_wf s')
       /\ (forall i s', regenerate i s = Ok s' -> store_wf s')
       /\ (forall i edited flags flags' s',
              save_edit i edited flags s = Ok (s', flags') -> store_wf s').
Proof.
  split; [exact I|].
  intros s Hwf. repeat split.
  - intros runs s'. now apply session_wf.
  - intros t digest r c conversation_id s'. now apply add_message_wf.
  - intros client net w t t' digest digest' prompt s'. now apply chat_input_wf.
  - intros i s'. now apply regenerate_wf.
  - intros i edited flags flags' s'. now apply save_edit_wf.
Qed.

Lemma store_stays_well_formed_witness :
  store_wf fresh_session
  /\ store_wf
       {| conversations :=
            Some [("default",
                   {| messages := 0; created_at := 100%Z;
                      last_modified := 101%Z; title := "hi" |})];
          active_conversation := Some "default";
          lists :=
            heap_append 0
              {| role := "user"; content := "hi"; timestamp := 101%Z;
                 message_id := "0a1b2c3d" |}
              (lists fresh_session) |}.
Proof.
  destruct store_stays_well_formed as [Hempty H].
  assert (Hfresh : store_wf fresh_session).
  { apply (proj1 (H empty_session Hempty) [first_run]). reflexivity. }
  split; [exact Hfresh|].
  apply (proj1 (proj2 (H fresh_session Hfresh))
           101%Z "0a1b2c3d" "user" "hi" None).
  reflexivity.
Defined.

(** *** Messages of one conversation and of the others *)

Lemma deref_heap_store_other (a b : addr) (l : list Message) (h : heap) :
  a <> b -> deref (heap_store a l h) b = deref h b.
Proof.
  intros Hne. unfold deref, heap_store. simpl.
  destruct (Nat.eqb b a) eqn:E; [|reflexivity].
  apply Nat.eqb_eq in E. congruence.
Qed.

Lemma dict_get_In {V : Type} (k : string) (v : V) (d : dict V) :
  dict_get k d = Some v -> In (k, v) d.
Proof.
  induction d as [|[k0 v0] d IH]; simpl; [discriminate|].
  destruct (String.eqb k k0) eqn:E.
  - apply String.eqb_eq in E. subst k0. intros [= ->]. now left.
  - intros H. right. now apply IH.
Qed.

Lemma separate_addresses (convs : dict Conversation) (k1 k2 : string)
    (c1 c2 : Conversation) :
  NoDup (list_addresses convs) ->
  dict_get k1 convs = Some c1 ->
  dict_get k2 convs = Some c2 ->
  k1 <> k2 ->
  messages c1 <> messages c2.
Proof.
  unfold list_addresses. intros Hnodup H1 H2 Hne Heq.
  apply dict_get_In in H1. apply dict_get_In in H2.
  induction convs as [|item convs IH]; [contradiction|].
  simpl in Hnodup. inversion Hnodup as [|? ? Hnotin Hrest]; subst.
  destruct H1 as [->|H1], H2 as [E2|H2].
  - injection E2 as E2 _. congruence.
  - apply Hnotin. simpl. rewrite Heq.
    apply (in_map (fun item => messages (snd item)) convs (k2, c2) H2).
  - subst item. apply Hnotin. simpl. rewrite <- Heq.
    apply (in_map (fun item => messages (snd item)) convs (k1, c1) H1).
  - now apply IH.
Qed.

(** X16.  In a well-formed store [add_message] touches one conversation
    only: every other conversation keeps its title, its times and its
    messages, and the active conversation stays the same. *)
Theorem add_message_leaves_other_conversations :
  forall (t : time) (digest r c : string) (conversation_id : option string)
         (cid : string) (s s' : SessionState) (convs : dict Conversation),
    store_wf s ->
    conversations s = Some convs ->
    match conversation_id with
    | Some given => Ok given
    | None => session_active s
    end = Ok cid ->
    add_message t digest r c conversation_id s = Ok s' ->
    active_conversation s' = active_conversation s
    /\ exists convs',
         conversations s' = Some convs'
         /\ dict_keys convs' = dict_keys convs
         /\ forall k other,
              k <> cid ->
              dict_get k convs = Some other ->
              dict_get k convs' = Some other
              /\ deref (lists s') (messages other)
                 = deref (lists s) (messages other).
Proof.
  intros t digest r c conversation_id cid s s' convs Hwf Hc Hcid H.
  apply add_message_inv in H
    as (cid0 & convs0 & conv & Hcid0 & Hc0 & Hconv & ->).
  rewrite Hcid in Hcid0. injection Hcid0 as <-.
  rewrite Hc in Hc0. injection Hc0 as <-.
  destruct (store_wf_elim s convs Hwf Hc) as (_ & Hnodup & _).
  split; [reflexivity|].
  eexists. split; [reflexivity|]. split.
  - eapply list_addresses_set_same; [exact Hconv|reflexivity].
  - intros k other Hne Hother. split.
    + now rewrite dict_get_set_other.
    + cbn [lists]. unfold heap_append. apply deref_heap_store_other.
      apply (separate_addresses convs cid k conv other Hnodup Hconv Hother).
      congruence.
Qed.

Lemma add_message_leaves_other_conversations_witness :
  active_conversation two_conversations_after
  = active_conversation two_conversations
  /\ exists convs',
       conversations two_conversations_after = Some convs'
       /\ dict_keys convs' = ["default"; "chat_20240101_120000"]
       /\ forall k other,
            k <> "chat_20240101_120000" ->
            dict_get k
              [("default",
                {| messages := 0; created_at := 100%Z; last_modified := 105%Z;
                   title := "hello" |});
               ("chat_20240101_120000",
                {| messages := 1; created_at := 110%Z; last_modified := 110%Z;
                   title := "New Chat" |})] = Some other ->
            dict_get k convs' = Some other
            /\ deref (lists two_conversations_after) (messages other)
               = deref (lists two_conversations) (messages other).
Proof.
  apply (add_message_leaves_other_conversations 120%Z "9f8e7d6c" "user"
           "a new chat" None "chat_20240101_120000" two_conversations
           two_conversations_after
           [("default",
             {| messages := 0; created_at := 100%Z; last_modified := 105%Z;
                title := "hello" |});
            ("chat_20240101_120000",
             {| messages := 1; created_at := 110%Z; last_modified := 110%Z;
                title := "New Chat" |})]).
  - simpl. repeat split; repeat constructor; simpl; intuition discriminate.
  - reflexivity.
  - reflexivity.
  - reflexivity.
Defined.

Lemma add_message_active (t : time) (digest r c : string)
    (s : SessionState) (before : list Message) :
  active_messages s = Ok before ->
  exists s',
    add_message t digest r c None s = Ok s'
    /\ active_messages s'
       = Ok (before ++ [{| role := r; content := c; timestamp := t;
                           message_id := digest |}])%list
    /\ active_conversation s' = active_conversation s.
Proof.
  intros Hbefore.
  apply active_messages_inv in Hbefore
    as (active & convs & conv & Ha & Hc & Hconv & ->).
  assert (Hcid : session_active s = Ok active)
    by (unfold session_active; now rewrite Ha).
  rewrite (add_message_effect t digest r c None active s convs conv
             Hcid Hc Hconv).
  eexists. split; [reflexivity|]. split; [|reflexivity].
  unfold active_messages, session_active, session_conversations, dict_index.
  cbn [active_conversation conversations lists]. rewrite Ha. cbn [bind].
  rewrite dict_get_set_same. cbn [bind messages].
  now rewrite deref_heap_append.
Qed.

(** X17.  Successive calls of [add_message] on the active conversation
    leave its earlier messages as they were and add the new ones after
    them, in the order of the calls. *)
Theorem add_messages_in_call_order :
  forall (calls before : list Message) (s : SessionState),
    active_messages s = Ok before ->
    exists s',
      add_messages calls None s = Ok s'
      /\ active_messages s' = Ok (before ++ calls)%list.
Proof.
  induction calls as [|m calls IH]; intros before s Hbefore.
  - exists s. split; [reflexivity|]. now rewrite app_nil_r.
  - cbn [add_messages].
    destruct (add_message_active (timestamp m) (message_id m) (role m)
                (content m) s before Hbefore) as (s1 & -> & H1 & _).
    cbn [bind].
    destruct (IH _ s1 H1) as (s' & Hs' & Hmessages).
    exists s'. split; [exact Hs'|].
    rewrite Hmessages, <- app_assoc. now destruct m.
Qed.

Lemma add_messages_in_call_order_witness :
  exists s',
    add_messages
      [{| role := "user"; content := "one"; timestamp := 120%Z;
          message_id := "11111111" |};
       {| role := "assistant"; content := "two"; timestamp := 121%Z;
          message_id := "22222222" |}]
      None four_messages = Ok s'
    /\ active_messages s'
       = Ok (deref (lists four_messages) 0
             ++ [{| role := "user"; content := "one"; timestamp := 120%Z;
                    message_id := "11111111" |};
                 {| role := "assistant"; content := "two"; timestamp := 121%Z;
                    message_id := "22222222" |}])%list.
Proof.
  apply (add_messages_in_call_order _ _ four_messages). reflexivity.
Defined.

(** *** Deleting, selecting and creating conversations *)

(** X18.  When the delete button removes a conversation, that conversation
    is no longer in the store, the store has one conversation less, every
    other conversation is as it was, and the active conversation changes
    only if it was the one deleted. *)
Theorem delete_conversation_removes_only_it :
  forall (conv_id : string) (s s' : SessionState)
         (convs : dict Conversation),
    conversations s = Some convs ->
    NoDup (dict_keys convs) ->
    delete_conversation conv_id s = Ok (Some s') ->
    exists convs',
      conversations s' = Some convs'
      /\ dict_get conv_id convs' = None
      /\ List.length convs = S (List.length convs')
      /\ (forall k, k <> conv_id -> dict_get k convs' = dict_get k convs)
      /\ lists s' = lists s
      /\ (active_conversation s <> Some conv_id ->
          active_conversation s' = active_conversation s).
Proof.
  intros conv_id s s' convs Hc Hkeys.
  unfold delete_conversation, session_conversations, session_active.
  rewrite Hc. cbn [bind]. destruct (1 <? List.length convs); [|discriminate].
  destruct (dict_del conv_id convs) as [convs'|] eqn:Hdel; [|discriminate].
  cbn [bind].
  destruct (active_conversation s) as [active|]; [|discriminate].
  cbn [bind].
  assert (Hfacts :
            dict_get conv_id convs' = None
            /\ List.length convs = S (List.length convs')
            /\ (forall k, k <> conv_id ->
                          dict_get k convs' = dict_get k convs)).
  { repeat split.
    - exact (dict_del_get_same conv_id convs convs' Hdel Hkeys).
    - exact (dict_del_length conv_id convs convs' Hdel).
    - intros k Hk. exact (dict_del_get_other conv_id k convs convs' Hdel Hk). }
  destruct Hfacts as (Hgone & Hlen & Hothers).
  destruct (conv_id =? active)%string eqn:E.
  - destruct (dict_keys convs') as [|first rest]; [discriminate|].
    cbn [bind]. intros [= <-]. exists convs'. repeat split; try assumption.
    intros Hne. apply String.eqb_eq in E. congruence.
  - cbn [bind]. intros [= <-]. exists convs'. repeat split; assumption.
Qed.

Lemma delete_conversation_removes_only_it_witness :
  exists convs',
    Some [("default",
           {| messages := 0; created_at := 100%Z; last_modified := 105%Z;
              title := "hello" |})] = Some convs'
    /\ dict_get "chat_20240101_120000" convs' = None
    /\ 2 = S (List.length convs')
    /\ (forall k, k <> "chat_20240101_120000" ->
                  dict_get k convs'
                  = dict_get k
                      [("default",
                        {| messages := 0; created_at := 100%Z;
                           last_modified := 105%Z; title := "hello" |});
                       ("chat_20240101_120000",
                        {| messages := 1; created_at := 110%Z;
                           last_modified := 110%Z; title := "New Chat" |})])
    /\ lists two_conversations = lists two_conversations
    /\ (active_conversation two_conversations
        <> Some "chat_20240101_120000" ->
        Some "default" = active_conversation two_conversations).
Proof.
  apply (delete_conversation_removes_only_it "chat_20240101_120000"
           two_conversations
           {| conversations :=
                Some [("default",
                       {| messages := 0; created_at := 100%Z;
                          last_modified := 105%Z; title := "hello" |})];
              active_conversation := Some "default";
              lists := lists two_conversations |}
           [("default",
             {| messages := 0; created_at := 100%Z; last_modified := 105%Z;
                title := "hello" |});
            ("chat_20240101_120000",
             {| messages := 1; created_at := 110%Z; last_modified := 110%Z;
                title := "New Chat" |})]).
  - reflexivity.
  - repeat constructor; simpl; intuition discriminate.
  - reflexivity.
Defined.

Lemma conversation_rows_select (conv_id : string)
    (shown : list (string * Conversation)) (s : SessionState)
    (active : string) :
  active_conversation s = Some active ->
  conv_id <> active ->
  In conv_id (map fst shown) ->
  conversation_rows (SelectConversation conv_id) shown s
  = Ok {| conversations := conversations s;
          active_conversation := Some conv_id;
          lists := lists s |}.
Proof.
  intros Ha Hne. induction shown as [|[k c] rest IH]; [intros []|].
  intros Hin. cbn [conversation_rows]. unfold session_active. rewrite Ha.
  cbn [bind select_clicked delete_clicked].
  destruct (conv_id =? k)%string eqn:E.
  - apply String.eqb_eq in E. subst k.
    apply String.eqb_neq in Hne. now rewrite Hne.
  - rewrite andb_false_r. apply IH.
    destruct Hin as [Hk|Hin]; [|exact Hin].
    simpl in Hk. subst k. now rewrite String.eqb_refl in E.
Qed.

(** X19.  Pressing the button of a displayed conversation that is not the
    active one makes it the active one and changes nothing else. *)
Theorem select_changes_only_the_active_id :
  forall (t : time) (search conv_id : string) (s : SessionState)
         (convs : dict Conversation),
    conversations (init_conversation_state t s) = Some convs ->
    In conv_id (map fst (conversations_to_show search convs)) ->
    active_conversation (init_conversation_state t s) <> Some conv_id ->
    script_run {| now := t; search_conv := search;
                  clicked := SelectConversation conv_id |} s
    = Ok {| conversations := Some convs;
            active_conversation := Some conv_id;
            lists := lists (init_conversation_state t s) |}.
Proof.
  intros t search conv_id s convs Hc Hshown Hne.
  unfold script_run. cbn [now search_conv clicked].
  pose proof (init_conversation_state_ok t s) as Hok.
  apply store_ok_spec in Hok as (convs0 & active & Hc0 & Ha & _).
  rewrite Hc in Hc0. injection Hc0 as <-.
  unfold session_conversations. rewrite Hc. cbn [bind].
  rewrite (conversation_rows_select conv_id _ _ active Ha);
    [now rewrite Hc| |exact Hshown].
  intros ->. now apply Hne.
Qed.

Lemma select_changes_only_the_active_id_witness :
  script_run {| now := 130%Z; search_conv := "";
                clicked := SelectConversation "default" |} two_conversations
  = Ok {| conversations := conversations two_conversations;
          active_conversation := Some "default";
          lists := lists two_conversations |}.
Proof.
  apply (select_changes_only_the_active_id 130%Z "" "default"
           two_conversations).
  - reflexivity.
  - simpl. now right; left.
  - discriminate.
Defined.

Lemma dict_set_length_cases {V : Type} (k : string) (v : V) (d : dict V) :
  List.length (dict_set k v d)
  = if dict_contains k d then List.length d else S (List.length d).
Proof.
  unfold dict_contains. induction d as [|[k0 v0] d IH]; simpl; [reflexivity|].
  destruct (String.eqb k k0); simpl; [reflexivity|].
  rewrite IH. now destruct (dict_get k d).
Qed.

(** X20.  "New Conversation" makes a conversation with the given id the
    active one, with no messages and the title "New Chat", and leaves the
    conversations with other ids as they were.  When the id is new the
    store grows by one; when a conversation already has that id (a second
    click within the second the id is made of) it is replaced by the empty
    one and the store keeps its size. *)
Theorem new_conversation_is_active_and_empty :
  forall (t : time) (new_id : string) (s : SessionState)
         (convs : dict Conversation),
    conversations s = Some convs ->
    exists s' convs',
      new_conversation t new_id s = Ok s'
      /\ conversations s' = Some convs'
      /\ active_conversation s' = Some new_id
      /\ active_messages s' = Ok []
      /\ active_title s' = Ok "New Chat"
      /\ (forall k, k <> new_id -> dict_get k convs' = dict_get k convs)
      /\ List.length convs'
         = (if dict_contains new_id convs then List.length convs
            else S (List.length convs)).
Proof.
  intros t new_id s convs Hc.
  unfold new_conversation, session_conversations. rewrite Hc.
  cbn [bind alloc]. eexists _, _. split; [reflexivity|].
  split; [reflexivity|]. split; [reflexivity|].
  unfold active_messages, active_title, session_active,
    session_conversations, dict_index.
  cbn [active_conversation conversations lists bind].
  rewrite dict_get_set_same. cbn [bind messages title].
  repeat split.
  - unfold deref. simpl. now rewrite Nat.eqb_refl.
  - intros k Hk. now apply dict_get_set_other.
  - apply dict_set_length_cases.
Qed.

Lemma new_conversation_is_active_and_empty_witness :
  exists s' convs',
    new_conversation 130%Z "default" two_conversations = Ok s'
    /\ conversations s' = Some convs'
    /\ active_conversation s' = Some "default"
    /\ active_messages s' = Ok []
    /\ active_title s' = Ok "New Chat"
    /\ (forall k, k <> "default" ->
                  dict_get k convs'
                  = dict_get k
                      [("default",
                        {| messages := 0; created_at := 100%Z;
                           last_modified := 105%Z; title := "hello" |});
                       ("chat_20240101_120000",
                        {| messages := 1; created_at := 110%Z;
                           last_modified := 110%Z; title := "New Chat" |})])
    /\ List.length convs' = 2.
Proof.
  apply (new_conversation_is_active_and_empty 130%Z "default"
           two_conversations
           [("default",
             {| messages := 0; created_at := 100%Z; last_modified := 105%Z;
                title := "hello" |});
            ("chat_20240101_120000",
             {| messages := 1; created_at := 110%Z; last_modified := 110%Z;
                title := "New Chat" |})]).
  reflexivity.
Defined.

(** *** Regenerating and editing *)

Lemma truncate_messages_active (i : nat) (s : SessionState)
    (before : list Message) :
  active_messages s = Ok before ->
  exists s',
    truncate_messages i s = Ok s'
    /\ active_messages s' = Ok (firstn i before)
    /\ active_title s' = active_title s
    /\ active_conversation s' = active_conversation s.
Proof.
  intros Hbefore.
  apply active_messages_inv in Hbefore
    as (active & convs & conv & Ha & Hc & Hconv & ->).
  unfold truncate_messages, session_active, session_conversations, dict_index.
  rewrite Ha, Hc. cbn [bind]. rewrite Hconv. cbn [bind alloc].
  eexists. split; [reflexivity|].
  unfold active_messages, active_title, session_active,
    session_conversations, dict_index.
  cbn [active_conversation conversations lists bind].
  rewrite Ha, Hc. cbn [bind]. rewrite dict_get_set_same, Hconv.
  cbn [bind messages title]. repeat split.
  unfold deref. simpl. now rewrite Nat.eqb_refl.
Qed.

(** X21.  The "Regenerate" button acts on assistant messages only: for an
    index that holds a user message, or no message, nothing changes; for an
    assistant message at index [i] the conversation keeps exactly the
    messages before it.  The title and the active conversation are kept. *)
Theorem regenerate_keeps_the_messages_before :
  forall (i : nat) (s : SessionState) (before : list Message),
    active_messages s = Ok before ->
    exists s',
      regenerate i s = Ok s'
      /\ active_messages s'
         = Ok match nth_error before i with
              | Some m =>
                  if String.eqb (role m) "assistant" then firstn i before
                  else before
              | None => before
              end
      /\ active_title s' = active_title s
      /\ active_conversation s' = active_conversation s
      /\ (match nth_error before i with
          | Some m => String.eqb (role m) "assistant"
          | None => false
          end = false -> s' = s).
Proof.
  intros i s before Hbefore. unfold regenerate. rewrite Hbefore. cbn [bind].
  destruct (nth_error before i) as [m|];
    [|exists s; now repeat split].
  destruct (role m =? "assistant")%string;
    [|exists s; now repeat split].
  destruct (truncate_messages_active i s before Hbefore)
    as (s' & Hs' & Hm & Ht & Ha).
  exists s'. repeat split; try assumption. discriminate.
Qed.

Lemma regenerate_keeps_the_messages_before_witness :
  exists s',
    regenerate 3 four_messages = Ok s'
    /\ active_messages s'
       = Ok match nth_error (deref (lists four_messages) 0) 3 with
            | Some m =>
                if String.eqb (role m) "assistant"
                then firstn 3 (deref (lists four_messages) 0)
                else deref (lists four_messages) 0
            | None => deref (lists four_messages) 0
            end
    /\ active_title s' = active_title four_messages
    /\ active_conversation s' = active_conversation four_messages
    /\ (match nth_error (deref (lists four_messages) 0) 3 with
        | Some m => String.eqb (role m) "assistant"
        | None => false
        end = false -> s' = four_messages).
Proof.
  apply (regenerate_keeps_the_messages_before 3 four_messages). reflexivity.
Defined.

Lemma replace_content_length (i : nat) (edited : string) (l : list Message) :
  List.length (replace_content i edited l) = List.length l.
Proof.
  revert i. induction l as [|m l IH]; intros [|i]; simpl; auto.
Qed.

Lemma replace_content_same (i : nat) (edited : string) (l : list Message)
    (m : Message) :
  nth_error l i = Some m ->
  nth_error (replace_content i edited l) i
  = Some {| role := role m; content := edited;
            timestamp := timestamp m; message_id := message_id m |}.
Proof.
  revert i. induction l as [|m0 l IH]; intros [|i]; simpl; try discriminate.
  - now intros [= ->].
  - apply IH.
Qed.

Lemma replace_content_other (i j : nat) (edited : string)
    (l : list Message) :
  j <> i -> nth_error (replace_content i edited l) j = nth_error l j.
Proof.
  revert i j. induction l as [|m0 l IH]; intros [|i] [|j] Hne; simpl;
    try reflexivity; try contradiction.
  apply IH. congruence.
Qed.

(** X22.  Saving an edit replaces the content of the edited message and
    nothing else: the message keeps its place, its role, its timestamp and
    its id, the other messages and the number of messages are unchanged,
    and so are the title and the modification time of the conversation (the
    store is not touched); the edit box is closed.  Without an open edit
    box for that message there is no "Save" button and nothing changes. *)
Theorem save_edit_replaces_the_content_only :
  forall (i : nat) (edited : string) (flags : editing_flags)
         (s : SessionState) (before : list Message) (m : Message),
    active_messages s = Ok before ->
    nth_error before i = Some m ->
    (flags i = false -> save_edit i edited flags s = Ok (s, flags))
    /\ (flags i = true ->
        exists s' flags' after,
          save_edit i edited flags s = Ok (s', flags')
          /\ active_messages s' = Ok after
          /\ List.length after = List.length before
          /\ nth_error after i
             = Some {| role := role m; content := edited;
                       timestamp := timestamp m;
                       message_id := message_id m |}
          /\ (forall j, j <> i -> nth_error after j = nth_error before j)
          /\ conversations s' = conversations s
          /\ active_conversation s' = active_conversation s
          /\ flags' i = false
          /\ (forall j, j <> i -> flags' j = flags j)).
Proof.
  intros i edited flags s before m Hbefore Hm.
  apply active_messages_inv in Hbefore
    as (active & convs & conv & Ha & Hc & Hconv & ->).
  unfold save_edit, session_active, session_conversations, dict_index.
  rewrite Ha, Hc. cbn [bind]. rewrite Hconv. cbn [bind]. rewrite Hm.
  split; intros ->; [reflexivity|].
  eexists _, _, _. split; [reflexivity|].
  split.
  { unfold active_messages, session_active, session_conversations, dict_index.
    cbn [active_conversation conversations lists bind].
    rewrite Hconv. cbn [bind]. now rewrite deref_heap_store. }
  split; [apply replace_content_length|].
  split; [now apply replace_content_same|].
  split; [intros j Hj; now apply replace_content_other|].
  cbn [conversations active_conversation].
  split; [congruence|]. split; [congruence|]. split.
  - unfold set_flag. now rewrite Nat.eqb_refl.
  - intros j Hj. unfold set_flag.
    apply Nat.eqb_neq in Hj. now rewrite Hj.
Qed.

Lemma save_edit_replaces_the_content_only_witness :
  exists s' flags' after,
    save_edit 2 "how is it going?" (set_flag 2 true (fun _ => false))
      four_messages = Ok (s', flags')
    /\ active_messages s' = Ok after
    /\ List.length after = List.length (deref (lists four_messages) 0)
    /\ nth_error after 2
       = Some {| role := "user"; content := "how is it going?";
                 timestamp := 107%Z; message_id := "c34cd2a1" |}
    /\ (forall j, j <> 2 ->
                  nth_error after j
                  = nth_error (deref (lists four_messages) 0) j)
    /\ conversations s' = conversations four_messages
    /\ active_conversation s' = active_conversation four_messages
    /\ flags' 2 = false
    /\ (forall j, j <> 2 -> flags' j = set_flag 2 true (fun _ => false) j).
Proof.
  refine (proj2 (save_edit_replaces_the_content_only 2 "how is it going?"
                   (set_flag 2 true (fun _ => false)) four_messages
                   (deref (lists four_messages) 0)
                   {| role := "user"; content := "how are you?";
                      timestamp := 107%Z; message_id := "c34cd2a1" |}
                   eq_refl eq_refl) eq_refl).
Defined.

(** *** Chat turns *)

Lemma string_app_assoc (a b c : string) : (a ++ b) ++ c = a ++ (b ++ c).
Proof. induction a as [|x a IH]; simpl; [reflexivity|now rewrite IH]. Qed.

Lemma accumulate_strings (frags : list string) (full_response : string) :
  accumulate full_response (map JStr frags)
  = Ok (full_response ++ fold_right String.append "" frags).
Proof.
  revert full_response.
  induction frags as [|f frags IH]; intros full_response; simpl.
  - f_equal. induction full_response as [|x a IHa]; simpl;
      [reflexivity|now rewrite <- IHa].
  - now rewrite IH, string_app_assoc.
Qed.

(** X23.  A turn in single-model mode never raises when the active
    conversation exists: it adds the prompt as a user message and then
    exactly one assistant message, after the messages the conversation had.
    The assistant message is what the stream gave, or the apology when
    consuming the stream raised; for a stream of text fragments that ends
    without exception it is their concatenation. *)
Theorem single_model_turn_adds_two_messages :
  forall (client : OllamaClient) (net : nat -> transport) (w : Widgets)
         (t t' : time) (digest digest' prompt : string) (s : SessionState)
         (before : list Message),
    active_messages s = Ok before ->
    comparing w = false ->
    let user := {| role := "user"; content := prompt; timestamp := t;
                   message_id := digest |} in
    let g := chat_stream client (net 0) (selected_model w)
               (messages_for_single (system_prompt w) (before ++ [user]))
               [("options", options w)] in
    let answer := match consume g with
                  | Ok full_response => full_response
                  | Raise _ => "Sorry, I encountered an error."
                  end in
    exists s',
      chat_input client net w t t' digest digest' prompt s = Ok s'
      /\ active_messages s'
         = Ok (before
               ++ [user;
                   {| role := "assistant"; content := answer;
                      timestamp := t'; message_id := digest' |}])%list
      /\ active_conversation s' = active_conversation s
      /\ (forall frags,
             yielded g = map JStr frags ->
             propagated g = None ->
             answer = fold_right String.append "" frags).
Proof.
  intros client net w t t' digest digest' prompt s before Hbefore Hsingle
         user g answer.
  destruct (add_message_active t digest "user" prompt s before Hbefore)
    as (s1 & Hs1 & Hm1 & Ha1).
  fold user in Hm1.
  pose proof Hbefore as Hinv.
  apply active_messages_inv in Hinv
    as (active & convs & conv & Ha & Hc & Hconv & Hlist).
  assert (Hcid : session_active s = Ok active)
    by (unfold session_active; now rewrite Ha).
  assert (Hderef : deref (lists s1) (messages conv) = (before ++ [user])%list).
  { rewrite (add_message_effect t digest "user" prompt None active s convs
               conv Hcid Hc Hconv) in Hs1.
    injection Hs1 as <-. cbn [lists]. rewrite deref_heap_append.
    now rewrite Hlist. }
  unfold chat_input, begin_turn, session_conversations, dict_index.
  rewrite Hcid, Hc. cbn [bind]. rewrite Hconv. cbn [bind]. rewrite Hs1.
  cbn [bind fst snd]. rewrite Hsingle, Hderef. fold g. fold answer.
  destruct (add_message_active t' digest' "assistant" answer s1 _ Hm1)
    as (s2 & Hs2 & Hm2 & Ha2).
  exists s2. split; [exact Hs2|]. split; [|split].
  - rewrite Hm2, <- app_assoc. reflexivity.
  - congruence.
  - intros frags Hy Hp. subst answer. unfold consume.
    rewrite Hy, Hp, accumulate_strings. reflexivity.
Qed.

Lemma single_model_turn_adds_two_messages_witness :
  exists s',
    chat_input default_client (fun _ => stream_garbled) single_widgets
      101%Z 102%Z "0a1b2c3d" "4e5f6a7b" "hi" fresh_session = Ok s'
    /\ active_messages s'
       = Ok ([]
             ++ [{| role := "user"; content := "hi"; timestamp := 101%Z;
                    message_id := "0a1b2c3d" |};
                 {| role := "assistant";
                    content := "Sorry, I encountered an error.";
                    timestamp := 102%Z; message_id := "4e5f6a7b" |}])%list
    /\ active_conversation s' = active_conversation fresh_session
    /\ (forall frags,
           yielded
             (chat_stream default_client stream_garbled "a"
                (messages_for_single "Be brief."
                   ([] ++ [{| role := "user"; content := "hi";
                              timestamp := 101%Z;
                              message_id := "0a1b2c3d" |}]))
                [("options", options single_widgets)])
           = map JStr frags ->
           propagated
             (chat_stream default_client stream_garbled "a"
                (messages_for_single "Be brief."
                   ([] ++ [{| role := "user"; content := "hi";
                              timestamp := 101%Z;
                              message_id := "0a1b2c3d" |}]))
                [("options", options single_widgets)]) = None ->
           "Sorry, I encountered an error."
           = fold_right String.append "" frags).
Proof.
  apply (single_model_turn_adds_two_messages default_client
           (fun _ => stream_garbled) single_widgets 101%Z 102%Z
           "0a1b2c3d" "4e5f6a7b" "hi" fresh_session []);
    reflexivity.
Defined.

Lemma compare_loop_all_ok (client : OllamaClient) (net : nat -> transport)
    (w : Widgets) (context : list json) :
  forall (models : list string) (texts : list string) (start : nat)
         (responses : dict string),
    NoDup models ->
    (forall m, In m models -> ~ In m (dict_keys responses)) ->
    map (fun im => consume (chat_stream client (net (fst im)) (snd im)
                              context [("options", options w)]))
        (enumerate_from start models)
    = map Ok texts ->
    compare_loop client net w context (enumerate_from start models) responses
    = Ok (responses ++ combine models texts)%list.
Proof.
  induction models as [|m models IH];
    intros texts start responses Hnodup Hfresh Htexts.
  - simpl. now rewrite app_nil_r.
  - destruct texts as [|text texts]; [discriminate|].
    cbn [enumerate_from map fst snd] in Htexts.
    injection Htexts as Hm Hrest.
    inversion Hnodup as [|? ? Hnotin Hnodup']; subst.
    cbn [enumerate_from compare_loop]. rewrite Hm. cbn [bind].
    rewrite (dict_set_absent m) by (apply Hfresh; now left).
    rewrite (IH texts (S start)); [|exact Hnodup'| |exact Hrest].
    + cbn [combine]. now rewrite <- app_assoc.
    + intros m' Hm' Hin. unfold dict_keys in Hin. rewrite map_app in Hin.
      apply in_app_or in Hin as [Hin|[<-|[]]].
      * apply (Hfresh m'); [now right|exact Hin].
      * contradiction.
Qed.

(** X24.  A turn in compare mode over distinct models whose streams are all
    consumed without exception adds the prompt as a user message and then
    one assistant message: the answer of the selected model when it is
    among the compared ones, the answer of the first compared model
    otherwise.  The other answers are not kept in the conversation. *)
Theorem compare_turn_keeps_one_answer :
  forall (client : OllamaClient) (net : nat -> transport) (w : Widgets)
         (t t' : time) (digest digest' prompt : string) (s : SessionState)
         (before : list Message) (texts : list string),
    active_messages s = Ok before ->
    comparing w = true ->
    NoDup (compare_models_selected w) ->
    let user := {| role := "user"; content := prompt; timestamp := t;
                   message_id := digest |} in
    map (fun im =>
           consume (chat_stream client (net (fst im)) (snd im)
                      (messages_for_compare (system_prompt w)
                         (before ++ [user]) prompt)
                      [("options", options w)]))
        (enumerate_from 0 (compare_models_selected w))
    = map Ok texts ->
    exists s',
      chat_input client net w t t' digest digest' prompt s = Ok s'
      /\ active_messages s'
         = Ok (before
               ++ [user;
                   {| role := "assistant";
                      content :=
                        match dict_get (selected_model w)
                                (combine (compare_models_selected w) texts)
                        with
                        | Some answer => answer
                        | None => hd "" texts
                        end;
                      timestamp := t'; message_id := digest' |}])%list.
Proof.
  intros client net w t t' digest digest' prompt s before texts
         Hbefore Hcompare Hnodup user Htexts.
  destruct (add_message_active t digest "user" prompt s before Hbefore)
    as (s1 & Hs1 & Hm1 & Ha1).
  fold user in Hm1.
  pose proof Hbefore as Hinv.
  apply active_messages_inv in Hinv
    as (active & convs & conv & Ha & Hc & Hconv & Hlist).
  assert (Hcid : session_active s = Ok active)
    by (unfold session_active; now rewrite Ha).
  assert (Hderef : deref (lists s1) (messages conv) = (before ++ [user])%list).
  { rewrite (add_message_effect t digest "user" prompt None active s convs
               conv Hcid Hc Hconv) in Hs1.
    injection Hs1 as <-. cbn [lists]. rewrite deref_heap_append.
    now rewrite Hlist. }
  unfold chat_input, begin_turn, session_conversations, dict_index.
  rewrite Hcid, Hc. cbn [bind]. rewrite Hconv. cbn [bind]. rewrite Hs1.
  cbn [bind fst snd]. rewrite Hcompare, Hderef.
  rewrite (compare_loop_all_ok client net w _ _ texts 0 [] Hnodup
             (fun m _ H => H) Htexts).
  cbn [bind app].
  assert (Hfirst : exists m0 models t0 texts',
             compare_models_selected w = m0 :: models
             /\ texts = t0 :: texts').
  { unfold comparing in Hcompare. apply andb_prop in Hcompare as [_ Hne].
    destruct (compare_models_selected w) as [|m0 models]; [discriminate|].
    destruct texts as [|t0 texts']; [discriminate|].
    now exists m0, models, t0, texts'. }
  destruct Hfirst as (m0 & models & t0 & texts' & Hmodels & ->).
  rewrite Hmodels. cbn [combine bind hd].
  match goal with
  | |- exists s', add_message _ _ _ ?answer _ _ = _ /\ _ =>
      destruct (add_message_active t' digest' "assistant" answer s1 _ Hm1)
        as (s2 & Hs2 & Hm2 & _)
  end.
  exists s2. split; [exact Hs2|].
  rewrite Hm2, <- app_assoc. reflexivity.
Qed.

Lemma compare_turn_keeps_one_answer_witness :
  exists s',
    chat_input default_client two_streams compare_widgets
      101%Z 102%Z "0a1b2c3d" "4e5f6a7b" "hi" fresh_session = Ok s'
    /\ active_messages s'
       = Ok ([]
             ++ [{| role := "user"; content := "hi"; timestamp := 101%Z;
                    message_id := "0a1b2c3d" |};
                 {| role := "assistant";
                    content :=
                      match dict_get "a"
                              (combine ["a"; "b"]
                                 ["Hello from a";
                                  "HelloError: Connection reset by peer"])
                      with
                      | Some answer => answer
                      | None =>
                          hd "" ["Hello from a";
                                 "HelloError: Connection reset by peer"]
                      end;
                    timestamp := 102%Z; message_id := "4e5f6a7b" |}])%list.
Proof.
  apply (compare_turn_keeps_one_answer default_client two_streams
           compare_widgets 101%Z 102%Z "0a1b2c3d" "4e5f6a7b" "hi"
           fresh_session []
           ["Hello from a"; "HelloError: Connection reset by peer"]).
  - reflexivity.
  - reflexivity.
  - repeat constructor; simpl; intuition discriminate.
  - reflexivity.
Defined.

(** *** Captions, theme and login *)

(** X25.  The "last modified" caption of a conversation modified [d]
    microseconds ago, [d] not negative: from one day on it counts whole
    days; below one day it counts whole hours, between 1 and 23, only when
    more than 3600 seconds have passed, and whole minutes, between 0 and
    60, otherwise.  Exactly one hour is shown as 60 minutes. *)
Theorem time_ago_units :
  forall current last_mod : time,
    (0 <= current - last_mod)%Z ->
    let d := (current - last_mod)%Z in
    ((microseconds_per_day <= d)%Z ->
     time_ago current last_mod = ((d / microseconds_per_day)%Z, "d ago")
     /\ (1 <= d / microseconds_per_day)%Z)
    /\ ((d < microseconds_per_day)%Z ->
        (3600 < d / 1000000)%Z ->
        time_ago current last_mod = ((d / 1000000 / 3600)%Z, "h ago")
        /\ (1 <= d / 1000000 / 3600 <= 23)%Z)
    /\ ((d / 1000000 <= 3600)%Z ->
        time_ago current last_mod = ((d / 1000000 / 60)%Z, "m ago")
        /\ (0 <= d / 1000000 / 60 <= 60)%Z)
    /\ ((d / 1000000 = 3600)%Z ->
        time_ago current last_mod = (60%Z, "m ago")).
Proof.
  intros current last_mod Hd d.
  unfold time_ago, timedelta_days, timedelta_seconds, microseconds_per_day.
  fold d.
  assert (Hsmall : (d < 86400000000)%Z ->
                   (0 <? d / 86400000000)%Z = false
                   /\ (d mod 86400000000)%Z = d).
  { intros Hlt. rewrite Z.div_small, Z.mod_small by lia. now split. }
  split; [|split; [|split]].
  - intros Hday.
    assert (1 <= d / 86400000000)%Z
      by (apply Z.div_le_lower_bound; lia).
    replace (0 <? d / 86400000000)%Z with true
      by (symmetry; apply Z.ltb_lt; lia).
    now split.
  - intros Hlt Hhour. destruct (Hsmall Hlt) as [-> ->].
    replace (3600 <? d / 1000000)%Z with true
      by (symmetry; now apply Z.ltb_lt).
    split; [reflexivity|].
    split.
    + apply Z.div_le_lower_bound; lia.
    + assert (d / 1000000 < 86400)%Z
        by (apply Z.div_lt_upper_bound; lia).
      assert (d / 1000000 / 3600 < 24)%Z
        by (apply Z.div_lt_upper_bound; lia).
      lia.
  - intros Hmin.
    assert (Hlt : (d < 86400000000)%Z).
    { destruct (Z.lt_ge_cases d 86400000000) as [H|H]; [exact H|].
      assert (86400 <= d / 1000000)%Z
        by (apply Z.div_le_lower_bound; lia).
      lia. }
    destruct (Hsmall Hlt) as [-> ->].
    replace (3600 <? d / 1000000)%Z with false
      by (symmetry; apply Z.ltb_ge; lia).
    split; [reflexivity|].
    split.
    + apply Z.div_pos; [apply Z.div_pos|]; lia.
    + assert (d / 1000000 / 60 < 61)%Z
        by (apply Z.div_lt_upper_bound; lia).
      lia.
  - intros Hone.
    assert (Hlt : (d < 86400000000)%Z).
    { destruct (Z.lt_ge_cases d 86400000000) as [H|H]; [exact H|].
      assert (86400 <= d / 1000000)%Z
        by (apply Z.div_le_lower_bound; lia).
      lia. }
    destruct (Hsmall Hlt) as [-> ->]. now rewrite Hone.
Qed.

Lemma time_ago_units_witness :
  time_ago 3600000000%Z 0%Z = (60%Z, "m ago")
  /\ time_ago 3601000000%Z 0%Z = (1%Z, "h ago")
  /\ time_ago 86400000000%Z 0%Z = (1%Z, "d ago").
Proof.
  pose proof (time_ago_units 3600000000%Z 0%Z ltac:(discriminate))
    as [_ [_ [_ Hone]]].
  pose proof (time_ago_units 3601000000%Z 0%Z ltac:(discriminate))
    as [_ [Hhour _]].
  pose proof (time_ago_units 86400000000%Z 0%Z ltac:(discriminate))
    as [Hday _].
  split; [|split].
  - apply Hone. reflexivity.
  - apply Hhour; reflexivity.
  - apply Hday. discriminate.
Defined.

(** the captions themselves; a modification time one second ahead of the
    clock is shown as 23 hours ago *)
Example time_str_samples :
  time_str 3600000000%Z 0%Z = "60m ago"
  /\ time_str 7300000000%Z 0%Z = "2h ago"
  /\ time_str 200000000000%Z 0%Z = "2d ago"
  /\ time_str 0%Z 1000000%Z = "23h ago".
Proof. repeat split. Qed.

(** X26.  With authentication enabled [check_authentication] returns
    [True] only for a session already authenticated, and a session becomes
    authenticated only by a press of "Login" with the configured password:
    after any sequence of runs an unauthenticated visitor is authenticated
    only if one of the runs did that, which cannot happen when no password
    is configured. *)
Theorem login_requires_the_password :
  forall (config : Config),
    enable_auth config = true ->
    (forall authenticated password login,
        fst (check_authentication config authenticated password login)
        = ReturnsTrue <->
        authenticated = Some true)
    /\ (forall attempts authenticated,
           authenticated <> Some true ->
           login_attempts config attempts authenticated = Some true ->
           exists password,
             In (password, true) attempts
             /\ auth_password config = Some password)
    /\ (auth_password config = None ->
        forall attempts authenticated,
          authenticated <> Some true ->
          login_attempts config attempts authenticated <> Some true).
Proof.
  intros config Hauth.
  assert (Hattempts :
            forall attempts authenticated,
              authenticated <> Some true ->
              login_attempts config attempts authenticated = Some true ->
              exists password,
                In (password, true) attempts
                /\ auth_password config = Some password).
  { induction attempts as [|[password login] rest IH];
      intros authenticated Hnot H.
    - simpl in H. contradiction.
    - cbn [login_attempts] in H. unfold check_authentication in H.
      rewrite Hauth in H. cbn [negb] in H.
      assert (Hflag : match authenticated with
                      | Some b => b
                      | None => false
                      end = false)
        by (destruct authenticated as [[]|]; congruence).
      rewrite Hflag in H. cbn [negb] in H.
      destruct login.
      + destruct (auth_password config) as [expected|] eqn:Hp.
        * destruct (password =? expected)%string eqn:E.
          -- apply String.eqb_eq in E. subst expected.
             exists password. split; [now left|reflexivity].
          -- cbn [snd] in H.
             destruct (IH (Some false) ltac:(discriminate) H)
               as (p & Hin & Hp').
             exists p. split; [now right|exact Hp'].
        * cbn [snd] in H.
          destruct (IH (Some false) ltac:(discriminate) H)
            as (p & Hin & Hp').
          discriminate Hp'.
      + cbn [snd] in H.
        destruct (IH (Some false) ltac:(discriminate) H) as (p & Hin & Hp').
        exists p. split; [now right|exact Hp']. }
  split; [|split].
  - intros authenticated password login. unfold check_authentication.
    rewrite Hauth. cbn [negb].
    destruct authenticated as [[]|]; cbn [negb fst].
    + split; reflexivity.
    + destruct login; [destruct (auth_password config) as [expected|];
                       [destruct (password =? expected)%string|]|];
        split; discriminate.
    + destruct login; [destruct (auth_password config) as [expected|];
                       [destruct (password =? expected)%string|]|];
        split; discriminate.
  - exact Hattempts.
  - intros Hnone attempts authenticated Hnot H.
    destruct (Hattempts attempts authenticated Hnot H) as (p & _ & Hp).
    congruence.
Qed.

Lemma login_requires_the_password_witness :
  exists password,
    In (password, true) [("guess", true); ("s3cret", false); ("s3cret", true)]
    /\ auth_password locked_config = Some password.
Proof.
  destruct (login_requires_the_password locked_config eq_refl)
    as [_ [H _]].
  apply (H [("guess", true); ("s3cret", false); ("s3cret", true)] None).
  - discriminate.
  - reflexivity.
Defined.

(** X27.  [toggle_theme] always leaves the theme "light" or "dark": the
    first call of a session gives "dark", "light" and "dark" are exchanged,
    so that two calls restore either, and any other stored value becomes
    "light". *)
Theorem toggle_theme_alternates :
  forall theme : option string,
    (toggle_theme theme = "light" \/ toggle_theme theme = "dark")
    /\ toggle_theme None = "dark"
    /\ (theme = Some "light" \/ theme = Some "dark" ->
        Some (toggle_theme (Some (toggle_theme theme))) = theme)
    /\ (theme <> None -> theme <> Some "light" ->
        toggle_theme theme = "light").
Proof.
  intros theme. unfold toggle_theme. repeat split.
  - destruct theme as [t|]; [destruct (t =? "light")%string|]; auto.
  - intros [->| ->]; reflexivity.
  - intros Hsome Hlight. destruct theme as [t|]; [|contradiction].
    destruct (t =? "light")%string eqn:E; [|reflexivity].
    apply String.eqb_eq in E. congruence.
Qed.

Lemma toggle_theme_alternates_witness :
  Some (toggle_theme (Some (toggle_theme (Some "dark")))) = Some "dark".
Proof.
  apply (proj1 (proj2 (proj2 (toggle_theme_alternates (Some "dark"))))).
  now right.
Defined.

(* ================================================================= *)
(** * Properties of the configuration and of the production application *)

(** X28.  [theme_config] never fails and always gives a palette with a
    primary, a secondary and an accent colour: the palette of the
    configured colour scheme when it is one of the four known ones, the
    blue palette for any other name. *)
Theorem theme_config_falls_back_to_blue :
  forall config : Config,
    exists theme,
      theme_config config = Ok theme
      /\ dict_keys theme = ["primary"; "secondary"; "accent"]
      /\ dict_get (color_scheme config) themes
         = (if existsb (String.eqb (color_scheme config))
                 ["blue"; "green"; "purple"; "orange"]
            then Some theme else None)
      /\ (dict_get (color_scheme config) themes = None ->
          theme = [("primary", "#0066cc"); ("secondary", "#e3f2fd");
                   ("accent", "#1976d2")]).
Proof.
  intros config. unfold theme_config, themes.
  cbn [dict_index dict_get String.eqb Ascii.eqb Bool.eqb bind existsb].
  destruct (color_scheme config =? "blue")%string;
    [eexists; repeat split; discriminate|].
  destruct (color_scheme config =? "green")%string;
    [eexists; repeat split; discriminate|].
  destruct (color_scheme config =? "purple")%string;
    [eexists; repeat split; discriminate|].
  destruct (color_scheme config =? "orange")%string;
    [eexists; repeat split; discriminate|].
  eexists; repeat split.
Qed.

Lemma py_last_suffix {A : Type} (n : Z) (l : list A) :
  exists dropped, l = (dropped ++ py_last n l)%list.
Proof.
  unfold py_last.
  destruct (n =? 0)%Z; [now exists []|].
  destruct (0 <? n)%Z.
  - exists (firstn (List.length l - Z.to_nat n) l).
    now rewrite firstn_skipn.
  - exists (firstn (Z.to_nat (- n)) l). now rewrite firstn_skipn.
Qed.

Lemma last_app_suffix {A : Type} (dropped kept : list A) (d : A) :
  kept <> [] -> last (dropped ++ kept) d = last kept d.
Proof.
  intros Hne. induction dropped as [|x dropped IH]; [reflexivity|].
  simpl. rewrite IH. destruct (dropped ++ kept)%list eqn:E; [|reflexivity].
  apply app_eq_nil in E as [_ ->]. contradiction.
Qed.

(** X29.  With a positive [max_message_history] of [n], the context the
    production application sends is the system message, when the system
    prompt has a character that is not whitespace, followed by the last [n]
    messages of the session (all of them when there are fewer): the
    messages sent are a suffix of the history, so the prompt just added, the
    last message, is always among them. *)
Theorem get_messages_with_system_window :
  forall (config : Config) (prompt_text : string)
         (session_messages : list json),
    (0 < max_message_history config)%Z ->
    exists dropped kept,
      session_messages = (dropped ++ kept)%list
      /\ get_messages_with_system config (Some prompt_text) session_messages
         = ((if strip_truthy prompt_text
             then [role_content "system" prompt_text] else [])
            ++ kept)%list
      /\ List.length kept
         = Nat.min (Z.to_nat (max_message_history config))
                   (List.length session_messages)
      /\ (session_messages <> [] ->
          last kept JNull = last session_messages JNull).
Proof.
  intros config prompt_text session_messages Hn.
  unfold get_messages_with_system, py_last.
  replace (max_message_history config =? 0)%Z with false
    by (symmetry; apply Z.eqb_neq; lia).
  replace (0 <? max_message_history config)%Z with true
    by (symmetry; now apply Z.ltb_lt).
  set (n := Z.to_nat (max_message_history config)).
  assert (Hpos : 0 < n) by (subst n; lia).
  exists (firstn (List.length session_messages - n) session_messages),
         (skipn (List.length session_messages - n) session_messages).
  split; [now rewrite firstn_skipn|]. split; [|split].
  - f_equal. destruct prompt_text as [|c rest]; [reflexivity|].
    cbn [String.eqb negb andb]. reflexivity.
  - rewrite length_skipn. lia.
  - intros Hne.
    pose proof (last_app_suffix
                  (firstn (List.length session_messages - n) session_messages)
                  (skipn (List.length session_messages - n) session_messages)
                  JNull) as Hlast.
    rewrite firstn_skipn in Hlast. symmetry. apply Hlast.
    intros Hnil. apply (f_equal (@List.length json)) in Hnil.
    rewrite length_skipn in Hnil.
    destruct session_messages as [|x rest]; [contradiction|].
    cbn [List.length] in Hnil. lia.
Qed.

Lemma get_messages_with_system_window_witness :
  exists dropped kept,
    [role_content "user" "one"; role_content "assistant" "two";
     role_content "user" "three"] = (dropped ++ kept)%list
    /\ get_messages_with_system locked_config (Some "  ")
         [role_content "user" "one"; role_content "assistant" "two";
          role_content "user" "three"]
       = ((if strip_truthy "  " then [role_content "system" "  "] else [])
          ++ kept)%list
    /\ List.length kept = Nat.min (Z.to_nat 2) 3
    /\ ([role_content "user" "one"; role_content "assistant" "two";
         role_content "user" "three"] <> [] ->
        last kept JNull
        = last [role_content "user" "one"; role_content "assistant" "two";
                role_content "user" "three"] JNull).
Proof.
  apply (get_messages_with_system_window locked_config "  "
           [role_content "user" "one"; role_content "assistant" "two";
            role_content "user" "three"]).
  reflexivity.
Defined.

(** X30.  The limit is not a limit at its edge values.  With
    [max_message_history] 0 the slice [[-0:]] is the whole list: every
    message is sent.  With a negative value [-k] the first [k] messages are
    dropped instead of the last ones kept, so that a history of at most [k]
    messages sends no message at all, not even the prompt. *)
Theorem get_messages_with_system_edge_limits :
  forall (config : Config) (session_messages : list json),
    ((max_message_history config = 0)%Z ->
     get_messages_with_system config None session_messages
     = session_messages)
    /\ ((max_message_history config < 0)%Z ->
        get_messages_with_system config None session_messages
        = skipn (Z.to_nat (- max_message_history config)) session_messages
        /\ (List.length session_messages
            <= Z.to_nat (- max_message_history config) ->
            get_messages_with_system config None session_messages = [])).
Proof.
  intros config session_messages.
  unfold get_messages_with_system, py_last. cbn [app]. split.
  - intros ->. reflexivity.
  - intros Hneg.
    replace (max_message_history config =? 0)%Z with false
      by (symmetry; apply Z.eqb_neq; lia).
    replace (0 <? max_message_history config)%Z with false
      by (symmetry; apply Z.ltb_ge; lia).
    split; [reflexivity|]. intros Hshort. now apply skipn_all2.
Qed.

Lemma get_messages_with_system_edge_limits_witness :
  get_messages_with_system
    {| enable_auth := false; auth_password := None;
       max_message_history := 0; color_scheme := "blue" |}
    None [role_content "user" "one"; role_content "assistant" "two"]
  = [role_content "user" "one"; role_content "assistant" "two"]
  /\ get_messages_with_system
       {| enable_auth := false; auth_password := None;
          max_message_history := -2; color_scheme := "blue" |}
       None [role_content "user" "one"; role_content "assistant" "two"]
     = [].
Proof.
  split.
  - apply (proj1 (get_messages_with_system_edge_limits
                    {| enable_auth := false; auth_password := None;
                       max_message_history := 0; color_scheme := "blue" |}
                    _)).
    reflexivity.
  - apply (proj2 (get_messages_with_system_edge_limits
                    {| enable_auth := false; auth_password := None;
                       max_message_history := -2; color_scheme := "blue" |}
                    [role_content "user" "one";
                     role_content "assistant" "two"])).
    + reflexivity.
    + simpl. lia.
Defined.

(** a turn of the production application whose stream is garbled: the
    prompt and the apology are added *)
Example production_turn_with_garbled_stream :
  production_chat_input default_config default_client stream_garbled
    "llama2:7b" ""
    (JObj [("temperature", JNum (PyFloat 0x1.6666666666666p-1%float))]) "hi" []
  = [role_content "user" "hi";
     role_content "assistant"
       "Sorry, I encountered an error. Please try again."].
Proof. reflexivity. Qed.

Lemma theme_config_falls_back_to_blue_witness :
  theme_config locked_config
  = Ok [("primary", "#0066cc"); ("secondary", "#e3f2fd");
        ("accent", "#1976d2")].
Proof.
  destruct (theme_config_falls_back_to_blue locked_config)
    as (theme & Htheme & _ & _ & Hblue).
  rewrite Htheme. f_equal. apply Hblue. reflexivity.
Defined.
